(** * CommHub edge functions: report generation and e-mail templates

    A shallow embedding of the two Deno edge functions of the repository,
    [supabase/functions/generate-report/index.ts] and
    [supabase/functions/send-email/index.ts], together with the parts of the
    JavaScript runtime they rely on (Date arithmetic, IEEE-754 doubles,
    property lookup on plain objects, [String.prototype.replace]).

    Layout: the runtime first ([JsDate], exceptions, [JsNumber],
    [JsObject], [Http]), then the two functions ([SendEmail],
    [GenerateReport]), each followed by the vocabulary its properties are
    stated in, then the sign-up trigger and the read policies of the SQL
    migrations ([Schema]), then the properties. *)

From Stdlib Require Import ZArith Lia List Bool Ascii String.
From Stdlib Require Import Floats.SpecFloat.
From stdpp Require Import base option list gmap strings pretty.

#[local] Open Scope Z_scope.
#[local] Set Warnings "-register-all".

(* ===================================================================== *)
(** ** ECMAScript time values and the [Date] object                       *)
(* ===================================================================== *)

(** Time values are integral milliseconds since the epoch, kept in [Z].
    The definitions follow ECMA-262, section "Time Values and Time Range";
    the names are the specification's abstract operations. *)
Module JsDate.

Definition msPerDay : Z := 86400000.
Definition msPerHour : Z := 3600000.
Definition msPerMinute : Z := 60000.
Definition msPerSecond : Z := 1000.

Definition Day (t : Z) : Z := t / msPerDay.
Definition TimeWithinDay (t : Z) : Z := t mod msPerDay.

Definition DaysInYear (y : Z) : Z :=
  if negb (y mod 4 =? 0) then 365
  else if negb (y mod 100 =? 0) then 366
  else if negb (y mod 400 =? 0) then 365
  else 366.

Definition DayFromYear (y : Z) : Z :=
  365 * (y - 1970) + (y - 1969) / 4 - (y - 1901) / 100 + (y - 1601) / 400.

Definition TimeFromYear (y : Z) : Z := msPerDay * DayFromYear y.

(** [YearFromTime t] is "the largest integer y such that TimeFromYear(y) <= t".
    It is computed from the mean Gregorian year (146097 days per 400 years),
    which is off by at most one; [YearFromDay_spec] below shows that the
    result is the year of the specification. *)
Definition YearFromDay (d : Z) : Z :=
  let y := 1970 + (400 * d) / 146097 in
  if DayFromYear (y + 1) <=? d then y + 1
  else if d <? DayFromYear y then y - 1
  else y.

Definition YearFromTime (t : Z) : Z := YearFromDay (Day t).

Definition InLeapYear (t : Z) : Z :=
  if DaysInYear (YearFromTime t) =? 366 then 1 else 0.

Definition DayWithinYear (t : Z) : Z := Day t - DayFromYear (YearFromTime t).

(** Number of days of the year that precede month [m] (0 = January). *)
Definition DaysBeforeMonth (leap m : Z) : Z :=
  match m with
  | 0 => 0
  | 1 => 31
  | 2 => 59 + leap
  | 3 => 90 + leap
  | 4 => 120 + leap
  | 5 => 151 + leap
  | 6 => 181 + leap
  | 7 => 212 + leap
  | 8 => 243 + leap
  | 9 => 273 + leap
  | 10 => 304 + leap
  | 11 => 334 + leap
  | _ => 365 + leap
  end.

Definition MonthFromTime (t : Z) : Z :=
  let d := DayWithinYear t in
  let leap := InLeapYear t in
  if d <? 31 then 0
  else if d <? 59 + leap then 1
  else if d <? 90 + leap then 2
  else if d <? 120 + leap then 3
  else if d <? 151 + leap then 4
  else if d <? 181 + leap then 5
  else if d <? 212 + leap then 6
  else if d <? 243 + leap then 7
  else if d <? 273 + leap then 8
  else if d <? 304 + leap then 9
  else if d <? 334 + leap then 10
  else 11.

Definition DateFromTime (t : Z) : Z :=
  DayWithinYear t - DaysBeforeMonth (InLeapYear t) (MonthFromTime t) + 1.

(** Calendar vocabulary used to state properties: the leap day of a year,
    the length of a month, and the month before a given one. *)
Definition leap_flag (y : Z) : Z := if DaysInYear y =? 366 then 1 else 0.

Definition DaysInMonth (y m : Z) : Z :=
  DaysBeforeMonth (leap_flag y) (m + 1) - DaysBeforeMonth (leap_flag y) m.

Definition previous_month (y m : Z) : Z * Z :=
  if m =? 0 then (y - 1, 11) else (y, m - 1).

Definition HourFromTime (t : Z) : Z := (t / msPerHour) mod 24.
Definition MinFromTime (t : Z) : Z := (t / msPerMinute) mod 60.
Definition SecFromTime (t : Z) : Z := (t / msPerSecond) mod 60.
Definition msFromTime (t : Z) : Z := t mod msPerSecond.

Definition MakeTime (hour min sec ms : Z) : Z :=
  hour * msPerHour + min * msPerMinute + sec * msPerSecond + ms.

(** [MakeDay]: months outside 0..11 carry into the year, and the day of the
    month is added as a plain offset, so a day past the end of the month
    runs over into the next one. *)
Definition MakeDay (year month date : Z) : Z :=
  let ym := year + month / 12 in
  let mn := month mod 12 in
  let leap := if DaysInYear ym =? 366 then 1 else 0 in
  DayFromYear ym + DaysBeforeMonth leap mn + date - 1.

Definition MakeDate (day time : Z) : Z := day * msPerDay + time.

(** A [Date] object holds a time value or NaN ("Invalid Date"). *)
Definition Date : Type := option Z.

Definition maxTime : Z := 8640000000000000.

Definition TimeClip (t : Z) : Date :=
  if Z.abs t <=? maxTime then Some t else None.

Section LocalTime.
(** Offset of local time from UTC in milliseconds.  The edge runtime runs
    in UTC (offset 0); the offset is kept as a parameter and assumed
    constant over the instants involved. *)
Variable LocalTZA : Z.

Definition LocalTime (t : Z) : Z := t + LocalTZA.
Definition UTC (t : Z) : Z := t - LocalTZA.

Definition getFullYear (t : Z) : Z := YearFromTime (LocalTime t).
Definition getMonth (t : Z) : Z := MonthFromTime (LocalTime t).
Definition getDate (t : Z) : Z := DateFromTime (LocalTime t).

(** [new Date(year, month, date)]: a two-digit year means 19xx, the time
    of day is local midnight. *)
Definition Date_ymd (year month date : Z) : Date :=
  let yr := if (0 <=? year) && (year <=? 99) then 1900 + year else year in
  TimeClip (UTC (MakeDate (MakeDay yr month date) (MakeTime 0 0 0 0))).
End LocalTime.

(** [new Date(value)] for a numeric time value. *)
Definition Date_of_value (v : Z) : Date := TimeClip v.

(** *** [Date.prototype.toISOString] *)

Definition digit (n : Z) : ascii := ascii_of_nat (48 + Z.to_nat (n mod 10)).

Fixpoint digits (width : nat) (n : Z) : string :=
  match width with
  | O => EmptyString
  | S w => digits w (n / 10) +:+ String (digit n) EmptyString
  end.

Definition isoYear (y : Z) : string :=
  if (0 <=? y) && (y <=? 9999) then digits 4 y
  else (if y <? 0 then "-" else "+") +:+ digits 6 (Z.abs y).

Definition isoString (t : Z) : string :=
  isoYear (YearFromTime t) +:+ "-" +:+ digits 2 (MonthFromTime t + 1) +:+ "-"
  +:+ digits 2 (DateFromTime t) +:+ "T" +:+ digits 2 (HourFromTime t) +:+ ":"
  +:+ digits 2 (MinFromTime t) +:+ ":" +:+ digits 2 (SecFromTime t) +:+ "."
  +:+ digits 3 (msFromTime t) +:+ "Z".

(** *** Reading an ISO timestamp back

    The inverse of [isoString], as [Date.parse] (or the store) reads the
    format: a four-digit year or a signed six-digit one, then month, day,
    hour, minute, second and millisecond fields of fixed width. *)

Definition digit_value (c : ascii) : option Z :=
  let n := nat_of_ascii c in
  if ((48 <=? n) && (n <=? 57))%nat then Some (Z.of_nat n - 48) else None.

Fixpoint read_digits (width : nat) (acc : Z) (s : string) : option (Z * string) :=
  match width with
  | O => Some (acc, s)
  | S w =>
      match s with
      | String c r =>
          match digit_value c with
          | Some d => read_digits w (10 * acc + d) r
          | None => None
          end
      | EmptyString => None
      end
  end.

Definition expect (c : ascii) (s : string) : option string :=
  match s with
  | String c' r => if Ascii.eqb c c' then Some r else None
  | EmptyString => None
  end.

Definition read_year (s : string) : option (Z * string) :=
  match s with
  | String "+" r => read_digits 6 0 r
  | String "-" r =>
      match read_digits 6 0 r with
      | Some (y, r') => if y =? 0 then None else Some (- y, r')
      | None => None
      end
  | _ => read_digits 4 0 s
  end.

Definition parseISO (s : string) : option Z :=
  '(y, s) ← read_year s;
  s ← expect "-" s;
  '(mo, s) ← read_digits 2 0 s;
  s ← expect "-" s;
  '(d, s) ← read_digits 2 0 s;
  s ← expect "T" s;
  '(h, s) ← read_digits 2 0 s;
  s ← expect ":" s;
  '(mi, s) ← read_digits 2 0 s;
  s ← expect ":" s;
  '(sec, s) ← read_digits 2 0 s;
  s ← expect "." s;
  '(ms, s) ← read_digits 3 0 s;
  s ← expect "Z" s;
  if String.eqb s "" && (1 <=? mo) && (mo <=? 12) && (1 <=? d)
     && (d <=? DaysInMonth y (mo - 1)) && (h <=? 23) && (mi <=? 59) && (sec <=? 59)
  then TimeClip (MakeDate (MakeDay y (mo - 1) d) (MakeTime h mi sec ms))
  else None.

End JsDate.


(* ===================================================================== *)
(** ** Exceptions                                                         *)
(* ===================================================================== *)

(** A thrown value.  Everything the two functions throw or catch is an
    object with a [message] property ([RangeError], [TypeError],
    [ReferenceError], or the data source's error object). *)
Record JsError : Type := mkError { err_name : string; message : string }.

(** Completion of an evaluation: a value, or a throw. *)
Inductive Completion (A : Type) : Type :=
| Normal (a : A)
| Throw (e : JsError).
Arguments Normal {A} a.
Arguments Throw {A} e.

#[global] Instance Completion_ret : MRet Completion := fun A a => Normal a.
#[global] Instance Completion_bind : MBind Completion := fun A B k c =>
  match c with
  | Normal a => k a
  | Throw e => Throw e
  end.

Definition RangeError (msg : string) : JsError := mkError "RangeError" msg.
Definition TypeError (msg : string) : JsError := mkError "TypeError" msg.
Definition ReferenceError (msg : string) : JsError := mkError "ReferenceError" msg.

(** [Date.prototype.toISOString] throws on an invalid date. *)
Definition toISOString (d : JsDate.Date) : Completion string :=
  match d with
  | Some t => Normal (JsDate.isoString t)
  | None => Throw (RangeError "Invalid time value")
  end.

(* ===================================================================== *)
(** ** Numbers: IEEE-754 binary64                                         *)
(* ===================================================================== *)

Module JsNumber.

Definition prec : Z := 53.
Definition emax : Z := 1024.

Definition Number : Type := spec_float.

(** Integers convert exactly while they stay below 2^53. *)
Definition of_Z (n : Z) : Number := binary_normalize prec emax n 0 false.

Definition add (x y : Number) : Number := SFadd prec emax x y.
Definition mul (x y : Number) : Number := SFmul prec emax x y.
Definition div (x y : Number) : Number := SFdiv prec emax x y.

(** [ToBoolean] on numbers: zero of either sign and NaN are falsy. *)
Definition truthy (x : Number) : bool :=
  match x with
  | S754_zero _ | S754_nan => false
  | _ => true
  end.

(** [Math.round]: the closest integer, a tie going towards +infinity;
    arguments in [-0.5, 0) give -0.  A finite double with a negative
    exponent has magnitude below 2^53, so the result is exact. *)
Definition Math_round (x : Number) : Number :=
  match x with
  | S754_finite s m e =>
      if 0 <=? e then x
      else
        let v := if s then Z.neg m else Z.pos m in
        let n := (2 * v + 2 ^ (- e)) / 2 ^ (1 - e) in
        if n =? 0 then S754_zero s else of_Z n
  | _ => x
  end.

End JsNumber.

(* ===================================================================== *)
(** ** Values, truthiness and property lookup on plain objects            *)
(* ===================================================================== *)

Module JsObject.

(** The values a request body or an object literal can hold, plus what a
    property read can return from [Object.prototype]: a native function
    ([JsNative], by its name). *)
Inductive JsValue : Type :=
| JsUndefined
| JsNull
| JsBool (b : bool)
| JsNum (x : JsNumber.Number)
| JsStr (s : string)
| JsArr (items : list JsValue)
| JsObj (props : list (string * JsValue))
| JsNative (fname : string).

(** [ToBoolean]. *)
Definition truthy (v : JsValue) : bool :=
  match v with
  | JsUndefined | JsNull => false
  | JsBool b => b
  | JsNum x => JsNumber.truthy x
  | JsStr s => negb (String.eqb s "")
  | JsArr _ | JsObj _ | JsNative _ => true
  end.

(** Truthiness of an optional string (a request field that is absent or
    a string): absent and empty are falsy. *)
Definition string_truthy (s : option string) : bool :=
  match s with
  | Some s => negb (String.eqb s "")
  | None => false
  end.

(** The properties every plain object inherits from [Object.prototype]. *)
Definition object_prototype_functions : list string :=
  [ "constructor"; "__defineGetter__"; "__defineSetter__"; "hasOwnProperty";
    "__lookupGetter__"; "__lookupSetter__"; "isPrototypeOf";
    "propertyIsEnumerable"; "toString"; "valueOf"; "toLocaleString" ].

(** The [name] of the native function held by an inherited property:
    [constructor] is the function [Object]. *)
Definition native_name (key : string) : string :=
  if String.eqb key "constructor" then "Object" else key.

(** What a plain object without own property [key] gives for it.  The
    functions run on Deno, which removes the [__proto__] accessor from
    [Object.prototype]: that name is inherited no more than any other
    name outside the list. *)
Definition inherited (key : string) : JsValue :=
  if bool_decide (key ∈ object_prototype_functions) then JsNative (native_name key)
  else JsUndefined.

(** [obj[key]] for a plain object with own properties [own]: the own
    property if there is one, else whatever the prototype provides. *)
Definition get (own : gmap string JsValue) (key : string) : JsValue :=
  match own !! key with
  | Some v => v
  | None => inherited key
  end.

Section ToString.
(** [Number::toString] is the runtime's shortest round-trip printer; it is
    taken as given. *)
Variable NumberToString : JsNumber.Number -> string.

Definition join_with (sep : string) (parts : list string) : string :=
  match parts with
  | [] => ""
  | p :: ps => fold_left (fun acc q => acc +:+ sep +:+ q) ps p
  end.

(** The error of [ToPrimitive] when neither [toString] nor [valueOf]
    gives a primitive. *)
Definition cannot_convert : JsError := TypeError "Cannot convert object to primitive value".

(** [ToString].  An array prints its elements comma-joined, from left to
    right, with null and undefined elements empty.  Any other object goes
    through [ToPrimitive], which asks for [toString] first: without an own
    property of that name the inherited method answers with a fixed tag;
    with one (a value of the request body, so not a function) the method
    is shadowed, [valueOf] gives no primitive either, and the conversion
    throws.  A native function prints as its source placeholder. *)
Fixpoint ToString (v : JsValue) : Completion string :=
  match v with
  | JsUndefined => Normal "undefined"
  | JsNull => Normal "null"
  | JsBool true => Normal "true"
  | JsBool false => Normal "false"
  | JsNum x => Normal (NumberToString x)
  | JsStr s => Normal s
  | JsArr items =>
      match
        (fix elements (l : list JsValue) : Completion (list string) :=
           match l with
           | [] => Normal []
           | e :: rest =>
               match match e with
                     | JsUndefined | JsNull => Normal EmptyString
                     | _ => ToString e
                     end with
               | Normal p =>
                   match elements rest with
                   | Normal ps => Normal (p :: ps)
                   | Throw err => Throw err
                   end
               | Throw err => Throw err
               end
           end) items
      with
      | Normal parts => Normal (join_with "," parts)
      | Throw err => Throw err
      end
  | JsObj props =>
      if existsb (fun p => String.eqb (fst p) "toString") props then Throw cannot_convert
      else Normal "[object Object]"
  | JsNative fname => Normal ("function " +:+ fname +:+ "() { [native code] }")
  end.
End ToString.

End JsObject.

(* ===================================================================== *)
(** ** Responses                                                          *)
(* ===================================================================== *)

(** What both functions answer with: a status, headers and a body.  The
    body is kept structured (the object handed to [JSON.stringify], or a
    text) rather than as its serialization. *)
Module Http.

Definition Headers : Type := list (string * string).

(** [corsHeaders], the same constant in both files. *)
Definition corsHeaders : Headers :=
  [ ("Access-Control-Allow-Origin", "*");
    ("Access-Control-Allow-Headers", "authorization, x-client-info, apikey, content-type") ].

Definition json_headers : Headers := corsHeaders ++ [ ("Content-Type", "application/json") ].

Record Response (Body : Type) : Type := mkResponse {
  status : nat;
  headers : Headers;
  body : Body
}.
Arguments mkResponse {Body} status headers body.
Arguments status {Body} r.
Arguments headers {Body} r.
Arguments body {Body} r.

End Http.

(* ===================================================================== *)
(** ** send-email/index.ts                                                *)
(* ===================================================================== *)

Module SendEmail.
Import JsObject.

Record EmailTemplate : Type := mkTemplate {
  tmpl_subject : string;
  tmpl_html : string;
  tmpl_text : string
}.

(** *** The [templates] table as the module text has it

    [subject] is a quoted string; [html] and [text] are template literals
    (backquotes).  In a template literal a dollar sign followed by an
    opening brace starts a substitution, so a literal is a sequence of
    character runs and substituted expressions.  The only expression form
    that occurs is an object literal with one shorthand property. *)
Inductive Expr : Type :=
| ObjectShorthand (ident : string).

Inductive Piece : Type :=
| Chars (s : string)
| Subst (e : Expr).

Definition dq : string := String (ascii_of_nat 34) EmptyString.

Definition welcome_subject : string :=
  "Welcome to CommHub!".

Definition welcome_html : list Piece :=
  [ Chars ("
      <div style=" +:+ dq +:+ "font-family: Arial, sans-serif; max-width: 600px; margin: 0 auto;" +:+ dq +:+ ">
        <h1 style=" +:+ dq +:+ "color: #2563eb;" +:+ dq +:+ ">Welcome to CommHub!</h1>
        <p>Hi {{name}},</p>
        <p>Thank you for joining CommHub - your complete communication tools platform.</p>
        <p>You can now:</p>
        <ul>
          <li>Manage customer support tickets</li>
          <li>Track contacts and deals in CRM</li>
          <li>Schedule appointments and meetings</li>
          <li>View analytics and reports</li>
        </ul>
        <p>Get started by logging into your account:</p>
        <a href=" +:+ dq +:+ "{{loginUrl}}" +:+ dq +:+ " style=" +:+ dq +:+ "background-color: #2563eb; color: white; padding: 12px 24px; text-decoration: none; border-radius: 6px; display: inline-block;" +:+ dq +:+ ">
          Login to CommHub
        </a>
        <p>Best regards,<br>The CommHub Team</p>
      </div>
    ") ].

Definition welcome_text : list Piece :=
  [ Chars ("Welcome to CommHub!

Hi {{name}},

Thank you for joining CommHub - your complete communication tools platform.

You can now manage customer support tickets, track contacts and deals in CRM, schedule appointments and meetings, and view analytics and reports.

Get started by logging into your account: {{loginUrl}}

Best regards,
The CommHub Team") ].

Definition ticket_created_subject : string :=
  "Support Ticket Created - #{{ticketId}}".

Definition ticket_created_html : list Piece :=
  [ Chars ("
      <div style=" +:+ dq +:+ "font-family: Arial, sans-serif; max-width: 600px; margin: 0 auto;" +:+ dq +:+ ">
        <h1 style=" +:+ dq +:+ "color: #2563eb;" +:+ dq +:+ ">Support Ticket Created</h1>
        <p>Hi {{customerName}},</p>
        <p>Your support ticket has been created successfully.</p>
        <div style=" +:+ dq +:+ "background-color: #f3f4f6; padding: 16px; border-radius: 8px; margin: 16px 0;" +:+ dq +:+ ">
          <h3 style=" +:+ dq +:+ "margin: 0 0 8px 0;" +:+ dq +:+ ">Ticket Details</h3>
          <p><strong>Ticket ID:</strong> #{{ticketId}}</p>
          <p><strong>Subject:</strong> {{subject}}</p>
          <p><strong>Priority:</strong> {{priority}}</p>
          <p><strong>Status:</strong> {{status}}</p>
        </div>
        <p>Our support team will review your ticket and respond as soon as possible.</p>
        <p>You can track the progress of your ticket in your dashboard.</p>
        <p>Best regards,<br>CommHub Support Team</p>
      </div>
    ") ].

Definition ticket_created_text : list Piece :=
  [ Chars ("Support Ticket Created - #{{ticketId}}

Hi {{customerName}},

Your support ticket has been created successfully.

Ticket Details:
- Ticket ID: #{{ticketId}}
- Subject: {{subject}}
- Priority: {{priority}}
- Status: {{status}}

Our support team will review your ticket and respond as soon as possible.

Best regards,
CommHub Support Team") ].

Definition appointment_reminder_subject : string :=
  "Appointment Reminder - {{title}}".

Definition appointment_reminder_html : list Piece :=
  [ Chars ("
      <div style=" +:+ dq +:+ "font-family: Arial, sans-serif; max-width: 600px; margin: 0 auto;" +:+ dq +:+ ">
        <h1 style=" +:+ dq +:+ "color: #2563eb;" +:+ dq +:+ ">Appointment Reminder</h1>
        <p>Hi {{attendeeName}},</p>
        <p>This is a reminder about your upcoming appointment.</p>
        <div style=" +:+ dq +:+ "background-color: #f3f4f6; padding: 16px; border-radius: 8px; margin: 16px 0;" +:+ dq +:+ ">
          <h3 style=" +:+ dq +:+ "margin: 0 0 8px 0;" +:+ dq +:+ ">Appointment Details</h3>
          <p><strong>Title:</strong> {{title}}</p>
          <p><strong>Date & Time:</strong> {{startTime}}</p>
          <p><strong>Duration:</strong> {{duration}}</p>
          <p><strong>Location:</strong> {{location}}</p>
          {{#if meetingLink}}
          <p><strong>Meeting Link:</strong> <a href=" +:+ dq +:+ "{{meetingLink}}" +:+ dq +:+ ">Join Meeting</a></p>
          {{/if}}
        </div>
        <p>{{#if description}}{{description}}{{/if}}</p>
        <p>Please make sure to join on time.</p>
        <p>Best regards,<br>CommHub Team</p>
      </div>
    ") ].

Definition appointment_reminder_text : list Piece :=
  [ Chars ("Appointment Reminder - {{title}}

Hi {{attendeeName}},

This is a reminder about your upcoming appointment.

Appointment Details:
- Title: {{title}}
- Date & Time: {{startTime}}
- Duration: {{duration}}
- Location: {{location}}
{{#if meetingLink}}- Meeting Link: {{meetingLink}}
{{/if}}
{{#if description}}
{{description}}
{{/if}}
Please make sure to join on time.

Best regards,
CommHub Team") ].

Definition weekly_report_subject : string :=
  "Weekly Performance Report".

Definition weekly_report_html : list Piece :=
  [ Chars ("
      <div style=" +:+ dq +:+ "font-family: Arial, sans-serif; max-width: 600px; margin: 0 auto;" +:+ dq +:+ ">
        <h1 style=" +:+ dq +:+ "color: #2563eb;" +:+ dq +:+ ">Weekly Performance Report</h1>
        <p>Hi {{userName}},</p>
        <p>Here's your weekly performance summary:</p>
        <div style=" +:+ dq +:+ "background-color: #f3f4f6; padding: 16px; border-radius: 8px; margin: 16px 0;" +:+ dq +:+ ">
          <h3 style=" +:+ dq +:+ "margin: 0 0 16px 0;" +:+ dq +:+ ">This Week's Highlights</h3>
          <div style=" +:+ dq +:+ "display: grid; grid-template-columns: 1fr 1fr; gap: 16px;" +:+ dq +:+ ">
            <div>
              <p><strong>Tickets Resolved:</strong> {{ticketsResolved}}</p>
              <p><strong>New Contacts:</strong> {{newContacts}}</p>
            </div>
            <div>
              <p><strong>Meetings Held:</strong> {{meetingsHeld}}</p>
              <p><strong>Revenue Generated:</strong> ");
    Subst (ObjectShorthand "revenue");
    Chars ("</p>
            </div>
          </div>
        </div>
        <p>Keep up the great work!</p>
        <a href=" +:+ dq +:+ "{{dashboardUrl}}" +:+ dq +:+ " style=" +:+ dq +:+ "background-color: #2563eb; color: white; padding: 12px 24px; text-decoration: none; border-radius: 6px; display: inline-block;" +:+ dq +:+ ">
          View Full Report
        </a>
        <p>Best regards,<br>CommHub Analytics Team</p>
      </div>
    ") ].

Definition weekly_report_text : list Piece :=
  [ Chars ("Weekly Performance Report

Hi {{userName}},

Here's your weekly performance summary:

This Week's Highlights:
- Tickets Resolved: {{ticketsResolved}}
- New Contacts: {{newContacts}}
- Meetings Held: {{meetingsHeld}}
- Revenue Generated: ");
    Subst (ObjectShorthand "revenue");
    Chars ("

Keep up the great work!

View Full Report: {{dashboardUrl}}

Best regards,
CommHub Analytics Team") ].

(** Identifiers bound at module level when the table is initialised: the
    import, the constant declared above it, and the hoisted function (the
    global object has no property called [revenue] either). *)
Definition module_scope : list string := [ "serve"; "corsHeaders"; "renderTemplate" ].

(** A shorthand property reads the variable of its name; an unbound name
    throws.  The object then converts to a string as any plain object. *)
Definition eval_subst (scope : list string) (e : Expr) : Completion string :=
  match e with
  | ObjectShorthand x =>
      if bool_decide (x ∈ scope) then Normal "[object Object]"
      else Throw (ReferenceError (x +:+ " is not defined"))
  end.

Fixpoint eval_literal (scope : list string) (ps : list Piece) : Completion string :=
  match ps with
  | [] => Normal ""
  | Chars s :: rest => r ← eval_literal scope rest; Normal (s +:+ r)
  | Subst e :: rest =>
      v ← eval_subst scope e; r ← eval_literal scope rest; Normal (v +:+ r)
  end.

Definition eval_template (subject : string) (html text : list Piece)
  : Completion EmailTemplate :=
  h ← eval_literal module_scope html;
  t ← eval_literal module_scope text;
  Normal (mkTemplate subject h t).

(** Own properties of the [templates] object, for given records. *)
Definition templates_object (welcome ticket_created appointment_reminder weekly_report : EmailTemplate)
  : gmap string EmailTemplate :=
  <["welcome" := welcome]>
  (<["ticket_created" := ticket_created]>
  (<["appointment_reminder" := appointment_reminder]>
  (<["weekly_report" := weekly_report]> ∅))).

(** Evaluation of [const templates = {...}] when the module is loaded. *)
Definition templates_init : Completion (gmap string EmailTemplate) :=
  w ← eval_template welcome_subject welcome_html welcome_text;
  t ← eval_template ticket_created_subject ticket_created_html ticket_created_text;
  a ← eval_template appointment_reminder_subject appointment_reminder_html
        appointment_reminder_text;
  r ← eval_template weekly_report_subject weekly_report_html weekly_report_text;
  Normal (templates_object w t a r).

(** *** [renderTemplate] *)

(** [\w] without the unicode flag. *)
Definition is_word_char (c : ascii) : bool :=
  let n := nat_of_ascii c in
  ((48 <=? n) && (n <=? 57) || (65 <=? n) && (n <=? 90)
   || (97 <=? n) && (n <=? 122) || (n =? 95))%nat.

(** Longest prefix of word characters, and what follows it. *)
Fixpoint span_word (s : string) : string * string :=
  match s with
  | String c t =>
      if is_word_char c then
        let (w, r) := span_word t in (String c w, r)
      else (EmptyString, s)
  | EmptyString => (EmptyString, EmptyString)
  end.

(** One attempt of the pattern at the head of [s]: two opening braces, a
    non-empty run of word characters, two closing braces.  The run is
    greedy, and giving characters back cannot help because a brace is not
    a word character.  On success: the captured name and the rest. *)
Definition match_placeholder (s : string) : option (string * string) :=
  match s with
  | String "{" (String "{" t) =>
      match span_word t with
      | (String c w, String "}" (String "}" rest)) => Some (String c w, rest)
      | _ => None
      end
  | _ => None
  end.

(** [s.replace(re, fn)] for the global pattern above: scan from the left;
    where the pattern matches, emit [fn match key] and go on after the
    match; elsewhere copy one character.  [skip] counts the characters of
    the current match still to pass over.  [fn] stands for the replacer
    with the conversion of its answer to a string; when that throws, the
    scan ends with the throw. *)
Fixpoint replace_from (fn : string -> string -> Completion string) (skip : nat) (s : string)
  : Completion string :=
  match s with
  | EmptyString => Normal EmptyString
  | String c t =>
      match skip with
      | S k => replace_from fn k t
      | O =>
          match match_placeholder s with
          | Some (key, _) =>
              text ← fn ("{{" +:+ key +:+ "}}") key;
              rest ← replace_from fn (3 + String.length key) t;
              Normal (text +:+ rest)
          | None => rest ← replace_from fn 0 t; Normal (String c rest)
          end
      end
  end.

Definition replace_placeholders (fn : string -> string -> Completion string) (s : string)
  : Completion string :=
  replace_from fn 0 s.

Section Render.
Variable NumberToString : JsNumber.Number -> string.

(** The replacer [(match, key) => data[key] || match]; [replace] converts
    what it returns to a string. *)
Definition replacer (data : gmap string JsValue) (mtch key : string) : Completion string :=
  let v := get data key in
  ToString NumberToString (if truthy v then v else JsStr mtch).

(** [renderTemplate(template, data)].  The parameter is declared a string;
    calling [replace] on undefined or null throws, on any other value the
    property is missing. *)
Definition renderTemplate (template : JsValue) (data : gmap string JsValue)
  : Completion string :=
  match template with
  | JsStr s => replace_placeholders (replacer data) s
  | JsUndefined =>
      Throw (TypeError "Cannot read properties of undefined (reading 'replace')")
  | JsNull =>
      Throw (TypeError "Cannot read properties of null (reading 'replace')")
  | _ => Throw (TypeError "template.replace is not a function")
  end.

(** *** The request handler *)

Inductive Recipients : Type :=
| OneAddress (a : string)
| Addresses (l : list string).

Record EmailRequest : Type := mkRequest {
  to : Recipients;
  subject : option string;
  html : option string;
  text : option string;
  template : option string;
  templateData : option (gmap string JsValue)
}.

(** The message that is handed to the (stubbed) mail service. *)
Record Email : Type := mkEmail {
  email_to : Recipients;
  email_subject : option string;
  email_html : option string;
  email_text : option string
}.

(** The body of a response: the text [ok] of the pre-flight answer, or
    one of the two JSON objects [{success: true, message: 'Email sent
    successfully', recipients}] and [{success: false, error}]. *)
Inductive EmailBody : Type :=
| EmailPreflight
| EmailSent (recipients : nat)
| EmailFailed (error : string).

(** [templates[template]]: own entry, or what [Object.prototype] gives. *)
Definition templates_get (templates : gmap string EmailTemplate) (name : string) : JsValue :=
  match templates !! name with
  | Some t =>
      JsObj [ ("subject", JsStr (tmpl_subject t)); ("html", JsStr (tmpl_html t));
              ("text", JsStr (tmpl_text t)) ]
  | None => inherited name
  end.

(** [tmpl.subject], [tmpl.html], [tmpl.text]: an own property of a template
    record; a native function or the prototype object has no property of
    such a name beyond what [Object.prototype] provides. *)
Definition field (tmpl : JsValue) (k : string) : JsValue :=
  match tmpl with
  | JsObj props =>
      match List.find (fun p => String.eqb (fst p) k) props with
      | Some p => snd p
      | None => inherited k
      end
  | _ => inherited k
  end.

Definition recipients_count (r : Recipients) : nat :=
  match r with
  | OneAddress _ => 1
  | Addresses l => List.length l
  end.

(** The body of the [try] block up to the log line: the three parts of the
    outgoing message. *)
Definition compose (templates : gmap string EmailTemplate) (req : EmailRequest)
  : Completion (option string * option string * option string) :=
  let data := default ∅ (templateData req) in
  let name := default "" (template req) in
  if JsObject.string_truthy (template req) && truthy (templates_get templates name) then
    let tmpl := templates_get templates name in
    s ← renderTemplate (field tmpl "subject") data;
    h ← renderTemplate (field tmpl "html") data;
    t ← renderTemplate (field tmpl "text") data;
    Normal (Some s, Some h, Some t)
  else Normal (subject req, html req, text req).

(** The handler: the message sent (if any) and the response.  [OPTIONS]
    is answered at once; a throw anywhere in the [try] block lands in
    [catch].  The body of the request is taken as already parsed, and the
    one-second wait that stands for the mail service is left out. *)
Definition handler (templates : gmap string EmailTemplate) (method : string)
    (req : EmailRequest) : option Email * Http.Response EmailBody :=
  if String.eqb method "OPTIONS" then
    (None, Http.mkResponse 200 Http.corsHeaders EmailPreflight)
  else
    match compose templates req with
    | Normal (s, h, t) =>
        (Some (mkEmail (to req) s h t),
         Http.mkResponse 200 Http.json_headers (EmailSent (recipients_count (to req))))
    | Throw e => (None, Http.mkResponse 500 Http.json_headers (EmailFailed (message e)))
    end.
End Render.

(** What a request meets: the handler exists only if the module body ran
    to the [serve] call. *)
Definition serve (NumberToString : JsNumber.Number -> string) (method : string)
    (req : EmailRequest) : Completion (option Email * Http.Response EmailBody) :=
  templates ← templates_init;
  Normal (handler NumberToString templates method req).

(** *** Vocabulary for the properties *)

(** A template body cut into plain text and placeholders. *)
Inductive Segment : Type :=
| Literal (s : string)
| Placeholder (key : string).

Definition print_segment (g : Segment) : string :=
  match g with
  | Literal s => s
  | Placeholder key => "{{" +:+ key +:+ "}}"
  end.

Fixpoint print_segments (gs : list Segment) : string :=
  match gs with
  | [] => EmptyString
  | g :: rest => print_segment g +:+ print_segments rest
  end.

Fixpoint all_chars (p : ascii -> bool) (s : string) : bool :=
  match s with
  | EmptyString => true
  | String c r => p c && all_chars p r
  end.

(** Plain text holds no opening brace; a placeholder name is a non-empty
    run of word characters. *)
Definition well_formed (g : Segment) : bool :=
  match g with
  | Literal s => all_chars (fun c => negb (Ascii.eqb c "{")) s
  | Placeholder key => negb (String.eqb key "") && all_chars is_word_char key
  end.

(** What a segment is expected to become: text stays, a placeholder gives
    the replacer's answer for it (which may be a throw). *)
Definition fill_segment (fn : string -> string -> Completion string) (g : Segment)
  : Completion string :=
  match g with
  | Literal s => Normal s
  | Placeholder key => fn ("{{" +:+ key +:+ "}}") key
  end.

(** The segments from left to right; the first throw ends the filling. *)
Fixpoint fill_segments (fn : string -> string -> Completion string) (gs : list Segment)
  : Completion string :=
  match gs with
  | [] => Normal EmptyString
  | g :: rest =>
      text ← fill_segment fn g;
      more ← fill_segments fn rest;
      Normal (text +:+ more)
  end.

(** A value of the request body that is not an object: a string, a
    number, a boolean or null (undefined for an absent one). *)
Definition primitive (v : JsValue) : bool :=
  match v with
  | JsUndefined | JsNull | JsBool _ | JsNum _ | JsStr _ => true
  | _ => false
  end.

(** The names the pattern captures in a body, from left to right (the
    same scan as [replace_from], collecting the names). *)
Fixpoint placeholders_from (skip : nat) (s : string) : list string :=
  match s with
  | EmptyString => []
  | String c t =>
      match skip with
      | S k => placeholders_from k t
      | O =>
          match match_placeholder s with
          | Some (key, _) => key :: placeholders_from (3 + String.length key) t
          | None => placeholders_from 0 t
          end
      end
  end.

Definition placeholders (s : string) : list string := placeholders_from 0 s.

(** A string without its first [n] characters. *)
Fixpoint drop_chars (n : nat) (s : string) : string :=
  match n, s with
  | S k, String _ t => drop_chars k t
  | _, _ => s
  end.

(** The markers of a conditional block as the template bodies write them. *)
Definition if_marker (key : string) : string := "{{#if " +:+ key +:+ "}}".
Definition endif_marker : string := "{{/if}}".

End SendEmail.

(* ===================================================================== *)
(** ** generate-report/index.ts                                           *)
(* ===================================================================== *)

Module GenerateReport.

(** *** The tables (from the migrations)

    Only the columns the function reads or filters on are kept, with the
    identifying ones; the remaining columns of a [select('*')] row are
    carried through untouched by the function and are left out.  Columns
    declared without NOT NULL are optional. *)

Inductive ticket_status : Type := TicketOpen | TicketInProgress | TicketResolved | TicketClosed.
Inductive ticket_priority : Type := PriorityLow | PriorityMedium | PriorityHigh | PriorityUrgent.
Inductive contact_status : Type := ContactLead | ContactProspect | ContactCustomer | ContactChurned.
Inductive deal_stage : Type :=
  StageLead | StageQualified | StageProposal | StageNegotiation | StageClosedWon | StageClosedLost.
Inductive appointment_status : Type :=
  ApptScheduled | ApptConfirmed | ApptCompleted | ApptCancelled.

Definition ticket_status_label (s : ticket_status) : string :=
  match s with
  | TicketOpen => "open"
  | TicketInProgress => "in-progress"
  | TicketResolved => "resolved"
  | TicketClosed => "closed"
  end.

Definition ticket_priority_label (p : ticket_priority) : string :=
  match p with
  | PriorityLow => "low"
  | PriorityMedium => "medium"
  | PriorityHigh => "high"
  | PriorityUrgent => "urgent"
  end.

Definition contact_status_label (s : contact_status) : string :=
  match s with
  | ContactLead => "lead"
  | ContactProspect => "prospect"
  | ContactCustomer => "customer"
  | ContactChurned => "churned"
  end.

Definition deal_stage_label (s : deal_stage) : string :=
  match s with
  | StageLead => "lead"
  | StageQualified => "qualified"
  | StageProposal => "proposal"
  | StageNegotiation => "negotiation"
  | StageClosedWon => "closed-won"
  | StageClosedLost => "closed-lost"
  end.

Definition appointment_status_label (s : appointment_status) : string :=
  match s with
  | ApptScheduled => "scheduled"
  | ApptConfirmed => "confirmed"
  | ApptCompleted => "completed"
  | ApptCancelled => "cancelled"
  end.

Record Profile : Type := mkProfile {
  profile_id : string;
  profile_name : string;
  profile_email : string
}.

Record Ticket : Type := mkTicket {
  ticket_id : string;
  ticket_subject : string;
  ticket_status_of : option ticket_status;
  ticket_priority_of : option ticket_priority;
  ticket_customer_id : string;
  ticket_assigned_to : option string;
  ticket_created_at : option string;
  ticket_updated_at : option string
}.

Record Contact : Type := mkContact {
  contact_id : string;
  contact_name : string;
  contact_company : string;
  contact_status_of : option contact_status;
  contact_created_by : string;
  contact_created_at : option string
}.

Record Deal : Type := mkDeal {
  deal_id : string;
  deal_title : string;
  deal_value : option JsNumber.Number;
  deal_stage_of : option deal_stage;
  deal_contact_id : string;
  deal_created_by : string;
  deal_created_at : option string
}.

Record Appointment : Type := mkAppointment {
  appointment_id : string;
  appointment_title : string;
  appointment_start_time : string;
  appointment_status_of : option appointment_status;
  appointment_created_by : string
}.

(** *** Queries

    The query builder collects filters; the store applies their
    conjunction.  [FGte], [FLte] and [FEq] carry a column and a value as
    the builder got them; [FOr] carries the text handed to [.or(...)],
    which the store reads in its filter syntax. *)
Inductive Filter : Type :=
| FGte (column value : string)
| FLte (column value : string)
| FEq (column value : string)
| FOr (filters : string).

(** [s.split(sep)] for a one-character separator. *)
Fixpoint split_on (sep : ascii) (s : string) : list string :=
  match s with
  | EmptyString => [EmptyString]
  | String c r =>
      if Ascii.eqb c sep then EmptyString :: split_on sep r
      else
        match split_on sep r with
        | l :: ls => String c l :: ls
        | [] => [String c EmptyString]
        end
  end.

(** A text up to the first occurrence of a character, and what follows
    that occurrence. *)
Fixpoint cut_at (c : ascii) (s : string) : option (string * string) :=
  match s with
  | EmptyString => None
  | String x r =>
      if Ascii.eqb x c then Some (EmptyString, r)
      else
        match cut_at c r with
        | Some (a, b) => Some (String x a, b)
        | None => None
        end
  end.

Definition full_stop : ascii := ascii_of_nat 46.
Definition comma : ascii := ascii_of_nat 44.

Record QueryResult (Row : Type) : Type := mkResult {
  data : option (list Row);
  error : option JsError
}.
Arguments mkResult {Row} data error.
Arguments data {Row} q.
Arguments error {Row} q.

Section Environment.
(** What the function takes from its surroundings: the store's comparison
    of a timestamp column against a literal ([>=] and [<=]), the offset of
    local time, and the runtime's printing of numbers. *)
Variable ts_geb ts_leb : string -> string -> bool.
Variable LocalTZA : Z.
Variable NumberToString : JsNumber.Number -> string.

(** The store's reading of the text of [.or(...)]: alternatives
    separated by commas, one of them enough; an alternative is
    [column.operator.value], the value running up to the next comma.  The
    texts built here use the operator [eq] on text columns; the store's
    other operators, its quoting and its nesting are not part of this
    reading, and an alternative of another shape selects no row. *)
Definition condition_holds (column : string -> option string) (alternative : string) : bool :=
  match cut_at full_stop alternative with
  | Some (col, rest) =>
      match cut_at full_stop rest with
      | Some (op, value) =>
          String.eqb op "eq"
          && match column col with
             | Some x => String.eqb x value
             | None => false
             end
      | None => false
      end
  | None => false
  end.

(** A column's value as text, for the columns that are filtered on. *)
Definition holds (column : string -> option string) (f : Filter) : bool :=
  match f with
  | FGte c v => match column c with Some x => ts_geb x v | None => false end
  | FLte c v => match column c with Some x => ts_leb x v | None => false end
  | FEq c v => match column c with Some x => String.eqb x v | None => false end
  | FOr filters => existsb (condition_holds column) (split_on comma filters)
  end.

Definition select_rows {Row} (column : Row -> string -> option string)
    (filters : list Filter) (rows : list Row) : list Row :=
  List.filter (fun r => forallb (holds (column r)) filters) rows.

Definition ticket_column (t : Ticket) (c : string) : option string :=
  if String.eqb c "created_at" then ticket_created_at t
  else if String.eqb c "customer_id" then Some (ticket_customer_id t)
  else if String.eqb c "assigned_to" then ticket_assigned_to t
  else None.

Definition contact_column (r : Contact) (c : string) : option string :=
  if String.eqb c "created_at" then contact_created_at r
  else if String.eqb c "created_by" then Some (contact_created_by r)
  else None.

Definition deal_column (r : Deal) (c : string) : option string :=
  if String.eqb c "created_at" then deal_created_at r
  else if String.eqb c "created_by" then Some (deal_created_by r)
  else None.

Definition appointment_column (r : Appointment) (c : string) : option string :=
  if String.eqb c "start_time" then Some (appointment_start_time r)
  else if String.eqb c "created_by" then Some (appointment_created_by r)
  else None.

(** The data source: the tables, and for each table the error (if any)
    with which a query built from the given filters comes back. *)
Record Database : Type := mkDatabase {
  table_profiles : list Profile;
  table_tickets : list Ticket;
  table_contacts : list Contact;
  table_deals : list Deal;
  table_appointments : list Appointment;
  fault : string -> list Filter -> option JsError
}.

(** Embedded resources of a selected row. *)
Record Person : Type := mkPerson { person_name : string; person_email : string }.
Record Company : Type := mkCompany { company_name : string; company_company : string }.

Record TicketRow : Type := mkTicketRow {
  id : string;
  subject : string;
  status : option ticket_status;
  priority : option ticket_priority;
  created_at : option string;
  updated_at : option string;
  customer : option Person;
  assignedTo : option Person
}.

Record DealRow : Type := mkDealRow {
  deal : Deal;
  contact : option Company
}.

Definition find_person (db : Database) (pid : string) : option Person :=
  match List.find (fun p => String.eqb (profile_id p) pid) (table_profiles db) with
  | Some p => Some (mkPerson (profile_name p) (profile_email p))
  | None => None
  end.

Definition find_company (db : Database) (cid : string) : option Company :=
  match List.find (fun c => String.eqb (contact_id c) cid) (table_contacts db) with
  | Some c => Some (mkCompany (contact_name c) (contact_company c))
  | None => None
  end.

Definition ticket_row (db : Database) (t : Ticket) : TicketRow :=
  mkTicketRow (ticket_id t) (ticket_subject t) (ticket_status_of t)
    (ticket_priority_of t) (ticket_created_at t) (ticket_updated_at t)
    (find_person db (ticket_customer_id t))
    (match ticket_assigned_to t with
     | Some a => find_person db a
     | None => None
     end).

Definition deal_row (db : Database) (d : Deal) : DealRow :=
  mkDealRow d (find_company db (deal_contact_id d)).

(** [await query]: either [{data: rows, error: null}] or
    [{data: null, error}]. *)
Definition run {Row Out} (db : Database) (table : string)
    (column : Row -> string -> option string) (project : Row -> Out)
    (rows : list Row) (filters : list Filter) : QueryResult Out :=
  match fault db table filters with
  | Some e => mkResult None (Some e)
  | None => mkResult (Some (map project (select_rows column filters rows))) None
  end.

(** *** The four aggregators *)

(** [if (startDate) query = query.gte(col, startDate)] and likewise for
    [endDate], in this order. *)
Definition date_filters (column : string) (startDate endDate : option string) : list Filter :=
  (if JsObject.string_truthy startDate then [FGte column (default "" startDate)] else [])
  ++ (if JsObject.string_truthy endDate then [FLte column (default "" endDate)] else []).

(** The date filters, then
    [if (userId) query = query.or(`customer_id.eq.${userId},assigned_to.eq.${userId}`)]:
    the id is pasted into the text as it comes. *)
Definition ticket_filters (startDate endDate userId : option string) : list Filter :=
  date_filters "created_at" startDate endDate
  ++ (if JsObject.string_truthy userId
      then [FOr ("customer_id.eq." +:+ default "" userId
                 +:+ ",assigned_to.eq." +:+ default "" userId)]
      else []).

Definition creator_filters (column : string) (startDate endDate userId : option string)
  : list Filter :=
  date_filters column startDate endDate
  ++ (if JsObject.string_truthy userId then [FEq "created_by" (default "" userId)] else []).

(** The property key an optional enum value turns into: its label, or
    the text of [null]. *)
Definition key_of {A} (label : A -> string) (v : option A) : string :=
  match v with
  | Some a => label a
  | None => "null"
  end.

(** [rows.reduce((acc, r) => { acc[k] = (acc[k] || 0) + 1; return acc }, {})].
    The keys are enum labels or "null"; [Object.prototype] has no property
    of such a name, so a key not yet counted reads as undefined. *)
Definition count_by {Row} (key : Row -> string) (rows : list Row) : gmap string nat :=
  fold_left (fun acc r => <[key r := S (default 0%nat (acc !! key r))]> acc) rows ∅.

(** [rows.filter(r => r.field === label).length] *)
Definition count_where {Row} (p : Row -> bool) (rows : list Row) : nat :=
  List.length (List.filter p rows).

Definition is_status {A} (label : A -> string) (v : option A) (wanted : string) : bool :=
  match v with
  | Some a => String.eqb (label a) wanted
  | None => false
  end.

Record TicketReport : Type := mkTicketReport {
  t_total : nat;
  t_resolved : nat;
  t_byStatus : gmap string nat;
  t_details : list TicketRow
}.

Record ContactReport : Type := mkContactReport {
  c_new : nat;
  c_byStatus : gmap string nat;
  c_details : list Contact
}.

Record DealReport : Type := mkDealReport {
  d_total : nat;
  d_revenue : JsNumber.Number;
  d_won : nat;
  d_lost : nat;
  d_conversionRate : JsNumber.Number;
  d_details : list DealRow
}.

Record AppointmentReport : Type := mkAppointmentReport {
  a_total : nat;
  a_completed : nat;
  a_cancelled : nat;
  a_completionRate : JsNumber.Number;
  a_details : list Appointment
}.

(** [x || 0] on numbers. *)
Definition or_zero (x : JsNumber.Number) : JsNumber.Number :=
  if JsNumber.truthy x then x else JsNumber.of_Z 0.

(** [total > 0 ? Math.round((part / total) * 100) : 0] *)
Definition rate (part total : nat) : JsNumber.Number :=
  if (0 <? total)%nat then
    JsNumber.Math_round
      (JsNumber.mul
         (JsNumber.div (JsNumber.of_Z (Z.of_nat part)) (JsNumber.of_Z (Z.of_nat total)))
         (JsNumber.of_Z 100))
  else JsNumber.of_Z 0.

(** The reductions, on the rows of a successful query ([data] may be
    null, in which case every [?.] short-circuits and [|| 0], [|| {}],
    [|| []] supply the defaults). *)
Definition summarizeTickets (data : option (list TicketRow)) : TicketReport :=
  let rows := default [] data in
  mkTicketReport
    (List.length rows)
    (count_where (fun t => is_status ticket_status_label (status t) "resolved") rows)
    (count_by (fun t => key_of ticket_status_label (status t)) rows)
    rows.

Definition summarizeContacts (data : option (list Contact)) : ContactReport :=
  let rows := default [] data in
  mkContactReport
    (List.length rows)
    (count_by (fun c => key_of contact_status_label (contact_status_of c)) rows)
    rows.

Definition summarizeDeals (data : option (list DealRow)) : DealReport :=
  let rows := default [] data in
  let total := List.length rows in
  let revenue :=
    or_zero
      (fold_left
         (fun sum d => JsNumber.add sum (or_zero (default (JsNumber.of_Z 0) (deal_value (deal d)))))
         rows (JsNumber.of_Z 0)) in
  let won := count_where (fun d => is_status deal_stage_label (deal_stage_of (deal d)) "closed-won") rows in
  let lost := count_where (fun d => is_status deal_stage_label (deal_stage_of (deal d)) "closed-lost") rows in
  mkDealReport total revenue won lost (rate won total) rows.

Definition summarizeAppointments (data : option (list Appointment)) : AppointmentReport :=
  let rows := default [] data in
  let total := List.length rows in
  let completed :=
    count_where (fun a => is_status appointment_status_label (appointment_status_of a) "completed") rows in
  let cancelled :=
    count_where (fun a => is_status appointment_status_label (appointment_status_of a) "cancelled") rows in
  mkAppointmentReport total completed cancelled (rate completed total) rows.

(** [const { data, error } = await query; if (error) throw error; ...] *)
Definition settle {Row Rep} (summarize : option (list Row) -> Rep) (r : QueryResult Row)
  : Completion Rep :=
  match error r with
  | Some e => Throw e
  | None => Normal (summarize (data r))
  end.

Definition generateTicketReport (db : Database) (startDate endDate userId : option string)
  : Completion TicketReport :=
  settle summarizeTickets
    (run db "tickets" ticket_column (ticket_row db) (table_tickets db)
       (ticket_filters startDate endDate userId)).

Definition generateContactReport (db : Database) (startDate endDate userId : option string)
  : Completion ContactReport :=
  settle summarizeContacts
    (run db "contacts" contact_column (fun c => c) (table_contacts db)
       (creator_filters "created_at" startDate endDate userId)).

Definition generateDealReport (db : Database) (startDate endDate userId : option string)
  : Completion DealReport :=
  settle summarizeDeals
    (run db "deals" deal_column (deal_row db) (table_deals db)
       (creator_filters "created_at" startDate endDate userId)).

Definition generateAppointmentReport (db : Database) (startDate endDate userId : option string)
  : Completion AppointmentReport :=
  settle summarizeAppointments
    (run db "appointments" appointment_column (fun a => a) (table_appointments db)
       (creator_filters "start_time" startDate endDate userId)).

(** *** The request handler *)

Record ReportRequest : Type := mkRequest {
  type : string;
  startDate : option string;
  endDate : option string;
  userId : option string;
  format : option string
}.

(** The clock as the handler reads it: [new Date()] in the weekly or
    monthly branch, [new Date()] for [generatedAt], [Date.now()] for the
    file name. *)
Record Clock : Type := mkClock {
  now : Z;
  generated : Z;
  stamp : Z
}.

(** Lines 31 to 44: the report window.  Each branch reads the clock once
    and derives both ends from that reading. *)
Definition resolveDateRange (now : Z) (req : ReportRequest)
  : Completion (option string * option string) :=
  if String.eqb (type req) "weekly" then
    let now := JsDate.Date_of_value now in
    let weekAgo := t ← now; JsDate.Date_of_value (t - 7 * 24 * 60 * 60 * 1000) in
    s ← toISOString weekAgo; e ← toISOString now; Normal (Some s, Some e)
  else if String.eqb (type req) "monthly" then
    let now := JsDate.Date_of_value now in
    let monthAgo :=
      t ← now;
      JsDate.Date_ymd LocalTZA (JsDate.getFullYear LocalTZA t)
        (JsDate.getMonth LocalTZA t - 1) (JsDate.getDate LocalTZA t) in
    s ← toISOString monthAgo; e ← toISOString now; Normal (Some s, Some e)
  else Normal (startDate req, endDate req).

Inductive Aggregator : Type := Tickets | Contacts | Deals | Appointments.

Definition rejection {A} (c : Completion A) : option JsError :=
  match c with
  | Normal _ => None
  | Throw e => Some e
  end.

(** Among the rejected promises, the one that settles first; [rank] is
    the order in which the four queries come back. *)
Definition earliest (rank : Aggregator -> nat) (ps : list (Aggregator * option JsError))
  : option (Aggregator * JsError) :=
  fold_left
    (fun best p =>
       match snd p with
       | None => best
       | Some e =>
           match best with
           | None => Some (fst p, e)
           | Some b => if (rank (fst p) <? rank (fst b))%nat then Some (fst p, e) else best
           end
       end)
    ps None.

(** [Promise.all] over the four reports: all four values, or the reason
    of the first rejection. *)
Definition Promise_all {T C D A} (rank : Aggregator -> nat)
    (t : Completion T) (c : Completion C) (d : Completion D) (a : Completion A)
  : Completion (T * C * D * A) :=
  match earliest rank [ (Tickets, rejection t); (Contacts, rejection c);
                        (Deals, rejection d); (Appointments, rejection a) ] with
  | Some (_, e) => Throw e
  | None => t' ← t; c' ← c; d' ← d; a' ← a; Normal (t', c', d', a')
  end.

Record Meta : Type := mkMeta {
  meta_type : string;
  meta_startDate : option string;
  meta_endDate : option string;
  generatedAt : string;
  meta_userId : option string
}.

Record Summary : Type := mkSummary {
  totalTickets : nat;
  resolvedTickets : nat;
  newContacts : nat;
  totalRevenue : JsNumber.Number;
  appointmentsHeld : nat
}.

Record Report : Type := mkReport {
  meta : Meta;
  summary : Summary;
  tickets : TicketReport;
  contacts : ContactReport;
  deals : DealReport;
  appointments : AppointmentReport
}.

(** *** [generateCsvReport] *)

Definition newline : string := String (ascii_of_nat 10) EmptyString.
Definition dq : string := String (ascii_of_nat 34) EmptyString.

(** Interpolation of an optional string: undefined prints as such. *)
Definition show_opt (s : option string) : string := default "undefined" s.

(** [person?.name || ''] *)
Definition name_or_empty (p : option Person) : string :=
  match p with
  | Some q => person_name q
  | None => ""
  end.

Definition header_lines (report : Report) : list string :=
  [ "Report Summary";
    "Type," +:+ meta_type (meta report);
    "Generated At," +:+ generatedAt (meta report);
    "Start Date," +:+ show_opt (meta_startDate (meta report));
    "End Date," +:+ show_opt (meta_endDate (meta report));
    "";
    "Key Metrics";
    "Total Tickets," +:+ pretty (totalTickets (summary report));
    "Resolved Tickets," +:+ pretty (resolvedTickets (summary report));
    "New Contacts," +:+ pretty (newContacts (summary report));
    "Total Revenue,$" +:+ NumberToString (totalRevenue (summary report));
    "Appointments Held," +:+ pretty (appointmentsHeld (summary report));
    "";
    "Ticket Details";
    "ID,Subject,Status,Priority,Created At,Customer,Assigned To" ].

Definition ticket_line (ticket : TicketRow) : string :=
  id ticket +:+ "," +:+ subject ticket +:+ ","
  +:+ key_of ticket_status_label (status ticket) +:+ ","
  +:+ key_of ticket_priority_label (priority ticket) +:+ ","
  +:+ default "null" (created_at ticket) +:+ ","
  +:+ name_or_empty (customer ticket) +:+ ","
  +:+ name_or_empty (assignedTo ticket).

(** [lines] starts as the header; [forEach] pushes one entry per ticket;
    the result is [lines.join('\n')]. *)
Definition csv_lines (report : Report) : list string :=
  fold_left (fun lines ticket => lines ++ [ticket_line ticket])
    (t_details (tickets report)) (header_lines report).

Definition generateCsvReport (report : Report) : string :=
  JsObject.join_with newline (csv_lines report).

(** *** Responses *)

(** The body of a response: a text (the pre-flight [ok], or the CSV), the
    report document with the optional [note] of the PDF placeholder, or
    the object [{error}]. *)
Inductive Body : Type :=
| TextBody (text : string)
| ReportJson (report : Report) (note : option string)
| ErrorJson (error : string).

Definition pdf_note : string :=
  "PDF generation not implemented in demo. Use JSON or CSV format.".

Definition csv_headers (type : string) (stamp : Z) : Http.Headers :=
  Http.corsHeaders
  ++ [ ("Content-Type", "text/csv");
       ("Content-Disposition",
        "attachment; filename=" +:+ dq +:+ "report-" +:+ type +:+ "-" +:+ pretty stamp
        +:+ ".csv" +:+ dq) ].

(** The [try] block (the body of the request taken as already parsed). *)
Definition assemble (db : Database) (rank : Aggregator -> nat) (clock : Clock)
    (req : ReportRequest) : Completion (Http.Response Body) :=
  '(reportStartDate, reportEndDate) ← resolveDateRange (now clock) req;
  '(ticketsData, contactsData, dealsData, appointmentsData) ←
    Promise_all rank
      (generateTicketReport db reportStartDate reportEndDate (userId req))
      (generateContactReport db reportStartDate reportEndDate (userId req))
      (generateDealReport db reportStartDate reportEndDate (userId req))
      (generateAppointmentReport db reportStartDate reportEndDate (userId req));
  generatedAt ← toISOString (JsDate.Date_of_value (generated clock));
  let report :=
    mkReport
      (mkMeta (type req) reportStartDate reportEndDate generatedAt (userId req))
      (mkSummary (t_total ticketsData) (t_resolved ticketsData) (c_new contactsData)
         (d_revenue dealsData) (a_completed appointmentsData))
      ticketsData contactsData dealsData appointmentsData in
  let format := default "json" (format req) in
  if String.eqb format "csv" then
    Normal (Http.mkResponse 200 (csv_headers (type req) (stamp clock))
              (TextBody (generateCsvReport report)))
  else if String.eqb format "pdf" then
    Normal (Http.mkResponse 200 Http.json_headers (ReportJson report (Some pdf_note)))
  else
    Normal (Http.mkResponse 200 Http.json_headers (ReportJson report None)).

(** The handler: [OPTIONS] is answered at once; anything thrown in the
    [try] block becomes a 500 with the error's message. *)
Definition handler (db : Database) (rank : Aggregator -> nat) (clock : Clock)
    (method : string) (req : ReportRequest) : Http.Response Body :=
  if String.eqb method "OPTIONS" then Http.mkResponse 200 Http.corsHeaders (TextBody "ok")
  else
    match assemble db rank clock req with
    | Normal r => r
    | Throw e => Http.mkResponse 500 Http.json_headers (ErrorJson (message e))
    end.

(** A row passes the date filters built from the window. *)
Definition in_window (column : string -> option string) (col : string)
    (sd ed : option string) : bool :=
  forallb (holds column) (date_filters col sd ed).

Definition same_id (x : option string) (uid : string) : bool :=
  match x with
  | Some a => String.eqb a uid
  | None => false
  end.

End Environment.

(** *** Vocabulary for the properties *)

(** Equality of the enumerated values can be decided. *)
#[global] Instance ticket_status_eq_dec : EqDecision ticket_status.
Proof. solve_decision. Defined.

#[global] Instance contact_status_eq_dec : EqDecision contact_status.
Proof. solve_decision. Defined.

(** Number of rows whose (possibly null) status is [v]. *)
Definition rows_with_status {Row A} `{EqDecision A} (proj : Row -> option A) (v : option A)
    (rows : list Row) : nat :=
  List.length (List.filter (fun r => bool_decide (proj r = v)) rows).

(** The window as the claim words it, on the timestamp of a row: a bound
    that is given (and is not the empty text) has to be met, and a row
    without timestamp meets no bound; a side without bound is open. *)
Definition meets_bound (cmp : string -> string -> bool) (stamp bound : option string) : bool :=
  match bound with
  | None => true
  | Some b =>
      if String.eqb b "" then true
      else
        match stamp with
        | Some x => cmp x b
        | None => false
        end
  end.

Definition row_in_window (ts_geb ts_leb : string -> string -> bool)
    (stamp startDate endDate : option string) : bool :=
  meets_bound ts_geb stamp startDate && meets_bound ts_leb stamp endDate.

(** The start of the monthly window as a time value: local midnight of
    the day that lies as many days before today as the previous month is
    long. *)
Definition month_ago (tza now : Z) : Z :=
  let t := JsDate.LocalTime tza now in
  let '(py, pm) := JsDate.previous_month (JsDate.YearFromTime t) (JsDate.MonthFromTime t) in
  (JsDate.Day t - JsDate.DaysInMonth py pm) * JsDate.msPerDay - tza.



(** Sum of the counts of a [byStatus] object. *)
Definition sum_values (m : gmap string nat) : nat :=
  map_fold (fun _ n acc => (n + acc)%nat) 0%nat m.

(** Number of rows whose key is [k]. *)
Definition occurrences {Row} (key : Row -> string) (k : string) (rows : list Row) : nat :=
  List.length (List.filter (fun r => String.eqb (key r) k) rows).

(** [100 * part / total] rounded to the nearest integer, a tie going away
    from zero, in exact arithmetic (for [part >= 0] and [total > 0]). *)
Definition percent_rounded (part total : Z) : Z := (200 * part + total) / (2 * total).

(** The exact percentage lies half-way between two integers. *)
Definition percent_tie (part total : Z) : bool := (200 * part) mod (2 * total) =? total.

(** Equality of doubles as values of the model. *)
Definition same_number (x y : JsNumber.Number) : bool :=
  match x, y with
  | S754_zero a, S754_zero b => Bool.eqb a b
  | S754_infinity a, S754_infinity b => Bool.eqb a b
  | S754_nan, S754_nan => true
  | S754_finite a m e, S754_finite b n f => Bool.eqb a b && Pos.eqb m n && Z.eqb e f
  | _, _ => false
  end.

(** The computed rate is the exactly rounded percentage, or one less at
    a tie. *)
Definition rate_close (part total : nat) : bool :=
  let exact := percent_rounded (Z.of_nat part) (Z.of_nat total) in
  same_number (rate part total) (JsNumber.of_Z exact)
  || (percent_tie (Z.of_nat part) (Z.of_nat total)
      && same_number (rate part total) (JsNumber.of_Z (exact - 1))).

(** [rate_close] for every total from 1 to [n] and every part up to it. *)
Definition rates_close_up_to (n : nat) : bool :=
  forallb (fun total => forallb (fun part => rate_close part total) (seq 0 (S total)))
    (seq 1 n).

Definition split_lines (s : string) : list string := split_on (ascii_of_nat 10) s.

Fixpoint free_of (c : ascii) (s : string) : bool :=
  match s with
  | EmptyString => true
  | String x r => negb (Ascii.eqb x c) && free_of c r
  end.

Definition single_line (s : string) : bool := free_of (ascii_of_nat 10) s.

(** The table and the filters each aggregator queries with. *)
Definition table_of (a : Aggregator) : string :=
  match a with
  | Tickets => "tickets"
  | Contacts => "contacts"
  | Deals => "deals"
  | Appointments => "appointments"
  end.

Definition filters_of (a : Aggregator) (startDate endDate userId : option string)
  : list Filter :=
  match a with
  | Tickets => ticket_filters startDate endDate userId
  | Contacts | Deals => creator_filters "created_at" startDate endDate userId
  | Appointments => creator_filters "start_time" startDate endDate userId
  end.

Definition query_error (db : Database) (startDate endDate userId : option string)
    (a : Aggregator) : option JsError :=
  fault db (table_of a) (filters_of a startDate endDate userId).

(** Sample rows. *)
Definition deal_in_stage (s : deal_stage) : DealRow :=
  mkDealRow (mkDeal "d" "deal" (Some (JsNumber.of_Z 100)) (Some s) "c" "u" None) None.

(** Forty deals, twenty-three of them won. *)
Definition forty_deals : list DealRow :=
  repeat (deal_in_stage StageClosedWon) 23 ++ repeat (deal_in_stage StageLead) 17.

(** A small store: three tickets between three users, no failure. *)
Definition sample_db : Database :=
  mkDatabase
    [ mkProfile "u1" "Ann" "ann@example.com"; mkProfile "u2" "Bob" "bob@example.com";
      mkProfile "u3" "Cy" "cy@example.com" ]
    [ mkTicket "t1" "login fails" (Some TicketOpen) (Some PriorityHigh) "u1" (Some "u2")
        (Some "2025-01-02") (Some "2025-01-02");
      mkTicket "t2" "invoice" (Some TicketResolved) (Some PriorityLow) "u2" None
        (Some "2025-01-03") (Some "2025-01-04");
      mkTicket "t3" "slow page" (Some TicketResolved) None "u3" (Some "u1")
        (Some "2025-01-05") (Some "2025-01-06") ]
    [ mkContact "c1" "Dee" "Acme" (Some ContactLead) "u1" (Some "2025-01-02") ]
    [] []
    (fun _ _ => None).

(** A ticket whose subject holds a line break. *)
Definition two_line_ticket : TicketRow :=
  mkTicketRow "t1" ("printer" +:+ newline +:+ "on fire") (Some TicketOpen)
    (Some PriorityHigh) (Some "2025-01-02T10:00:00+00:00") None
    (Some (mkPerson "Ann" "ann@example.com")) None.

Definition two_line_report : Report :=
  mkReport
    (mkMeta "custom" (Some "2025-01-01T00:00:00Z") (Some "2025-01-31T23:59:59Z")
       "2025-02-01T00:00:00.000Z" None)
    (mkSummary 1 0 0 (JsNumber.of_Z 0) 0)
    (summarizeTickets (Some [two_line_ticket]))
    (summarizeContacts (Some []))
    (summarizeDeals (Some []))
    (summarizeAppointments (Some [])).

(** The seven fields of a ticket's entry in the tabular output. *)
Definition csv_fields (ticket : TicketRow) : list string :=
  [ id ticket; subject ticket; key_of ticket_status_label (status ticket);
    key_of ticket_priority_label (priority ticket); default "null" (created_at ticket);
    name_or_empty (customer ticket); name_or_empty (assignedTo ticket) ].

Fixpoint count_char (c : ascii) (s : string) : nat :=
  match s with
  | EmptyString => 0
  | String x r => (if Ascii.eqb x c then 1 else 0) + count_char c r
  end.

(** The reason with which an aggregator's promise rejects, if it does. *)
Definition rejection_of {T C D A} (t : Completion T) (c : Completion C) (d : Completion D)
    (a : Completion A) (g : Aggregator) : option JsError :=
  match g with
  | Tickets => rejection t
  | Contacts => rejection c
  | Deals => rejection d
  | Appointments => rejection a
  end.

(** A deal carries a value that counts towards revenue. *)
Definition has_value (d : DealRow) : bool :=
  match deal_value (deal d) with
  | Some v => JsNumber.truthy v
  | None => false
  end.

End GenerateReport.

(* ===================================================================== *)
(** ** The migrations: [profiles], the sign-up trigger, read policies     *)
(* ===================================================================== *)

(** The PL/pgSQL trigger functions and the row-level policies of the SQL
    migrations, over tables as lists of rows.  NULL is [None].  What is
    taken from the database: an INSERT or UPDATE checks NOT NULL before
    the unique indexes; a statement that raises changes nothing; a handler
    of an [EXCEPTION] clause runs on the state as it was when the block
    was entered, and an error raised inside a handler leaves the function;
    the permissive policies of a table for one command are alternatives,
    and a row passes when one of them evaluates to true. *)
Module Schema.

(** [CREATE TYPE user_role AS ENUM ('admin', 'agent', 'user')] *)
Inductive user_role : Type := RoleAdmin | RoleAgent | RoleUser.

(** [CREATE TYPE user_status AS ENUM ('online', 'offline', 'away')] *)
Inductive user_status : Type := StatusOnline | StatusOffline | StatusAway.

(** A stored row of [profiles].  [id] (the primary key), [email] and
    [name] are NOT NULL; the other columns may hold NULL. *)
Record ProfileRow : Type := mkProfileRow {
  p_id : string;
  p_email : string;
  p_name : string;
  p_avatar : option string;
  p_role : option user_role;
  p_status : option user_status;
  p_created_at : option Z;
  p_updated_at : option Z
}.

(** The values of a row before the constraints are checked. *)
Record ProfileValues : Type := mkProfileValues {
  v_id : option string;
  v_email : option string;
  v_name : option string;
  v_avatar : option string;
  v_role : option user_role;
  v_status : option user_status;
  v_created_at : option Z;
  v_updated_at : option Z
}.

(** The error conditions that the constraints of [profiles] can raise,
    with the column concerned. *)
Inductive SqlError : Type :=
| not_null_violation (column : string)
| unique_violation (column : string).

Inductive Result (A : Type) : Type :=
| Done (a : A)
| Raised (e : SqlError).
Arguments Done {A} a.
Arguments Raised {A} e.

(** The DEFAULT clauses of the table: none for [id], [email], [name] and
    [avatar]; ['user'], ['offline'], [now()], [now()] for the rest. *)
Definition column_defaults (now : Z) : ProfileValues :=
  mkProfileValues None None None None (Some RoleUser) (Some StatusOffline) (Some now) (Some now).

(** [INSERT INTO profiles]: [id], [email] and [name] must not be NULL;
    [id] is the primary key and [email] is UNIQUE.  (The foreign key of
    [id] is met: the trigger fires after the row of [auth.users] is in.) *)
Definition insert_profile (profiles : list ProfileRow) (v : ProfileValues)
  : Result (list ProfileRow) :=
  match v_id v, v_email v, v_name v with
  | None, _, _ => Raised (not_null_violation "id")
  | Some _, None, _ => Raised (not_null_violation "email")
  | Some _, Some _, None => Raised (not_null_violation "name")
  | Some i, Some e, Some n =>
      if existsb (fun p => String.eqb (p_id p) i) profiles then Raised (unique_violation "id")
      else if existsb (fun p => String.eqb (p_email p) e) profiles
      then Raised (unique_violation "email")
      else Done (profiles
                 ++ [mkProfileRow i e n (v_avatar v) (v_role v) (v_status v) (v_created_at v)
                       (v_updated_at v)])
  end.

(** [update_updated_at_column()], the BEFORE UPDATE trigger:
    [NEW.updated_at = now(); RETURN NEW]. *)
Definition update_updated_at_column (now : Z) (new : ProfileValues) : ProfileValues :=
  mkProfileValues (v_id new) (v_email new) (v_name new) (v_avatar new) (v_role new)
    (v_status new) (v_created_at new) (Some now).

(** [UPDATE profiles SET ... WHERE id = key].  [id] is the primary key,
    so at most one row is concerned; it gets the values of the SET list,
    passes through the BEFORE UPDATE trigger, and is checked against the
    other rows. *)
Definition update_profile (now : Z) (profiles : list ProfileRow) (key : string)
    (set : ProfileRow -> ProfileValues) : Result (list ProfileRow) :=
  match List.find (fun p => String.eqb (p_id p) key) profiles with
  | None => Done profiles
  | Some old =>
      let v := update_updated_at_column now (set old) in
      match v_email v, v_name v with
      | None, _ => Raised (not_null_violation "email")
      | Some _, None => Raised (not_null_violation "name")
      | Some e, Some n =>
          if existsb (fun p => negb (String.eqb (p_id p) key) && String.eqb (p_email p) e)
               profiles
          then Raised (unique_violation "email")
          else Done (map (fun p =>
                            if String.eqb (p_id p) key
                            then mkProfileRow (p_id p) e n (v_avatar v) (v_role v) (v_status v)
                                   (v_created_at v) (v_updated_at v)
                            else p) profiles)
      end
  end.

(** The row of [auth.users] the trigger is fired for: [NEW.id],
    [NEW.email], and what [NEW.raw_user_meta_data->>key] gives for a key
    (NULL when the document, the key or the value is missing). *)
Record AuthUser : Type := mkAuthUser {
  u_id : string;
  u_email : option string;
  u_meta : string -> option string
}.

(** [split_part(s, d, n)] for a one-character delimiter and [n >= 1]:
    the n-th field of [s], the empty text when there are fewer. *)
Definition split_part (s : string) (d : ascii) (n : nat) : string :=
  nth (n - 1) (GenerateReport.split_on d s) EmptyString.

Definition at_sign : ascii := ascii_of_nat 64.

(** [COALESCE(new.raw_user_meta_data->>'name', split_part(new.email, '@', 1))];
    [split_part] of NULL is NULL. *)
Definition new_profile_name (new : AuthUser) : option string :=
  match u_meta new "name" with
  | Some n => Some n
  | None =>
      match u_email new with
      | Some e => Some (split_part e at_sign 1)
      | None => None
      end
  end.

(** [handle_new_user()] as first created: the three columns are given,
    the others take their defaults, and an error leaves the function. *)
Definition handle_new_user_initial (now : Z) (profiles : list ProfileRow) (new : AuthUser)
  : Result (list ProfileRow) :=
  let d := column_defaults now in
  insert_profile profiles
    (mkProfileValues (Some (u_id new)) (u_email new) (new_profile_name new)
       (v_avatar d) (v_role d) (v_status d) (v_created_at d) (v_updated_at d)).

(** [COALESCE(x, column)] in the SET list of the handler. *)
Definition coalesce {A} (x : option A) (y : option A) : option A :=
  match x with
  | Some _ => x
  | None => y
  end.

(** A line of the server log: the user id and the error. *)
Definition LogLine : Type := (string * SqlError)%type.

(** [handle_new_user()] as replaced later: the same INSERT with [avatar],
    [role] and [status] given; on [unique_violation] the profile with the
    user's id is updated instead; any other error is logged; in each of
    these cases [NEW] is returned. *)
Definition handle_new_user (now : Z) (profiles : list ProfileRow) (new : AuthUser)
  : Result (list ProfileRow * list LogLine) :=
  let d := column_defaults now in
  match insert_profile profiles
          (mkProfileValues (Some (u_id new)) (u_email new) (new_profile_name new)
             (u_meta new "avatar") (Some RoleUser) (Some StatusOffline)
             (v_created_at d) (v_updated_at d)) with
  | Done profiles' => Done (profiles', [])
  | Raised (unique_violation _) =>
      match update_profile now profiles (u_id new)
              (fun old =>
                 mkProfileValues (Some (p_id old)) (u_email new)
                   (coalesce (u_meta new "name") (Some (p_name old)))
                   (coalesce (u_meta new "avatar") (p_avatar old))
                   (p_role old) (p_status old) (p_created_at old) (Some now)) with
      | Done profiles' => Done (profiles', [])
      | Raised e => Raised e
      end
  | Raised e => Done (profiles, [(u_id new, e)])
  end.

(** *** Read policies *)

(** [EXISTS (SELECT 1 FROM profiles WHERE id = auth.uid() AND role IN
    ('admin', 'agent'))].  Every profile is visible to the sub-select:
    one of the read policies of [profiles] is [USING (true)]. *)
Definition is_staff (profiles : list ProfileRow) (uid : string) : bool :=
  existsb (fun p => String.eqb (p_id p) uid
                    && match p_role p with
                       | Some RoleAdmin | Some RoleAgent => true
                       | _ => false
                       end) profiles.

(** "Users can read their own tickets":
    [customer_id = auth.uid() OR assigned_to = auth.uid() OR EXISTS (...)];
    a comparison with a NULL [assigned_to] is not true. *)
Definition tickets_select_policy (profiles : list ProfileRow) (uid : string)
    (t : GenerateReport.Ticket) : bool :=
  String.eqb (GenerateReport.ticket_customer_id t) uid
  || GenerateReport.same_id (GenerateReport.ticket_assigned_to t) uid
  || is_staff profiles uid.


(** The name a new profile gets. *)
Definition profile_name_for (new : AuthUser) (email : string) : string :=
  default (split_part email at_sign 1) (u_meta new "name").

End Schema.
(* ===================================================================== *)
(** * Properties                                                          *)
(* ===================================================================== *)

(** ** Calendar arithmetic *)

Section CalendarFacts.
Import JsDate.

Lemma DayFromYear_succ y : DayFromYear (y + 1) = DayFromYear y + DaysInYear y.
Proof.
  unfold DayFromYear, DaysInYear.
  repeat match goal with
         | |- context [?a =? ?b] => destruct (Z.eqb_spec a b)
         end; simpl negb; cbv iota; Z.div_mod_to_equations; lia.
Qed.

Lemma DaysInYear_cases y :
  DaysInYear y = 365 + leap_flag y /\ (leap_flag y = 0 \/ leap_flag y = 1).
Proof.
  unfold leap_flag, DaysInYear.
  repeat match goal with
         | |- context [?a mod ?b =? 0] => destruct (Z.eqb_spec (a mod b) 0)
         end; simpl; lia.
Qed.

Lemma DayFromYear_mono y1 y2 : y1 < y2 -> DayFromYear (y1 + 1) <= DayFromYear y2.
Proof. unfold DayFromYear. intros. Z.div_mod_to_equations. lia. Qed.

(** The computed year is the year of the specification: the one whose
    first day is the last not after [d]. *)
Lemma YearFromDay_spec d :
  DayFromYear (YearFromDay d) <= d < DayFromYear (YearFromDay d + 1).
Proof.
  unfold YearFromDay.
  set (y := 1970 + 400 * d / 146097).
  destruct (Z.leb_spec (DayFromYear (y + 1)) d) as [H1|H1].
  - split; [lia|]. unfold DayFromYear in *. subst y. Z.div_mod_to_equations. lia.
  - destruct (Z.ltb_spec d (DayFromYear y)) as [H2|H2].
    + replace (y - 1 + 1) with y by lia. split; [|lia].
      unfold DayFromYear in *. subst y. Z.div_mod_to_equations. lia.
    + lia.
Qed.

Lemma YearFromDay_unique d y :
  DayFromYear y <= d < DayFromYear (y + 1) -> YearFromDay d = y.
Proof.
  intros Hy. pose proof (YearFromDay_spec d) as Hs.
  destruct (Z.lt_trichotomy (YearFromDay d) y) as [Hlt|[Heq|Hgt]]; [|assumption|].
  - pose proof (DayFromYear_mono _ _ Hlt). lia.
  - pose proof (DayFromYear_mono _ _ Hgt). lia.
Qed.

Lemma Day_MakeDate day time :
  0 <= time < msPerDay -> Day (MakeDate day time) = day.
Proof.
  unfold Day, MakeDate, msPerDay. intros. Z.div_mod_to_equations. lia.
Qed.

Ltac month_cases m :=
  let H := fresh in
  assert (H : m = 0 \/ m = 1 \/ m = 2 \/ m = 3 \/ m = 4 \/ m = 5 \/ m = 6 \/ m = 7
              \/ m = 8 \/ m = 9 \/ m = 10 \/ m = 11) by lia;
  repeat (destruct H as [H|H]); subst m.

Section Civil.
Variables (y m d t : Z).
Hypothesis Hm : 0 <= m <= 11.
Hypothesis Hd : 1 <= d <= DaysInMonth y m.
Hypothesis Ht : Day t = DayFromYear y + DaysBeforeMonth (leap_flag y) m + d - 1.

Lemma civil_year : YearFromTime t = y.
Proof.
  unfold YearFromTime. apply YearFromDay_unique. rewrite Ht, DayFromYear_succ.
  destruct (DaysInYear_cases y) as [-> Hl]. unfold DaysInMonth in Hd.
  clear Ht. month_cases m; simpl in *; lia.
Qed.

Lemma civil_leap : InLeapYear t = leap_flag y.
Proof. unfold InLeapYear. rewrite civil_year. reflexivity. Qed.

Lemma civil_day_within_year : DayWithinYear t = DaysBeforeMonth (leap_flag y) m + d - 1.
Proof. unfold DayWithinYear. rewrite civil_year, Ht. lia. Qed.

Lemma civil_month : MonthFromTime t = m.
Proof.
  unfold MonthFromTime. rewrite civil_day_within_year, civil_leap.
  destruct (DaysInYear_cases y) as [_ Hl]. unfold DaysInMonth in Hd. clear Ht.
  month_cases m; simpl in *;
    repeat match goal with
           | |- context [?a <? ?b] => destruct (Z.ltb_spec a b); try lia
           end.
Qed.

Lemma civil_date : DateFromTime t = d.
Proof.
  unfold DateFromTime. rewrite civil_month, civil_day_within_year, civil_leap. lia.
Qed.
End Civil.

(** Every day number is the day of its own year, month and date. *)
Lemma civil_inverse t :
  0 <= MonthFromTime t <= 11 /\
  1 <= DateFromTime t <= DaysInMonth (YearFromTime t) (MonthFromTime t) /\
  Day t = DayFromYear (YearFromTime t)
          + DaysBeforeMonth (leap_flag (YearFromTime t)) (MonthFromTime t)
          + DateFromTime t - 1.
Proof.
  pose proof (YearFromDay_spec (Day t)) as Hs. rewrite DayFromYear_succ in Hs.
  fold (YearFromTime t) in Hs.
  destruct (DaysInYear_cases (YearFromTime t)) as [Hy Hl]. rewrite Hy in Hs.
  unfold DateFromTime, DaysInMonth, MonthFromTime, InLeapYear, DayWithinYear.
  fold (leap_flag (YearFromTime t)).
  set (l := leap_flag (YearFromTime t)) in *.
  set (w := Day t - DayFromYear (YearFromTime t)).
  assert (Hw : 0 <= w < 365 + l) by (subst w; lia).
  assert (Hday : Day t = DayFromYear (YearFromTime t) + w) by (subst w; lia).
  rewrite Hday. clearbody w l. clear Hs Hy Hday.
  repeat match goal with
         | |- context [?a <? ?b] => destruct (Z.ltb_spec a b)
         end; simpl; lia.
Qed.

Lemma MakeDay_civil t :
  MakeDay (YearFromTime t) (MonthFromTime t) (DateFromTime t) = Day t.
Proof.
  destruct (civil_inverse t) as (Hm & _ & Hd). unfold MakeDay.
  rewrite Z.div_small, Z.mod_small by lia. fold (leap_flag (YearFromTime t + 0)).
  rewrite Z.add_0_r. lia.
Qed.

Lemma DaysInMonth_bounds y m : 0 <= m <= 11 -> 28 <= DaysInMonth y m <= 31.
Proof.
  intros Hm. unfold DaysInMonth. destruct (DaysInYear_cases y) as [_ Hl].
  month_cases m; simpl; lia.
Qed.

(** [new Date(y, m - 1, d)] for the date of [t]: the day number of [t]
    less the length of the month before. *)
Lemma MakeDay_month_before t :
  let '(py, pm) := previous_month (YearFromTime t) (MonthFromTime t) in
  MakeDay (YearFromTime t) (MonthFromTime t - 1) (DateFromTime t)
  = Day t - DaysInMonth py pm.
Proof.
  destruct (civil_inverse t) as (Hm & _ & Hd).
  unfold previous_month, MakeDay, DaysInMonth.
  set (y := YearFromTime t) in *. set (m := MonthFromTime t) in *.
  destruct (Z.eqb_spec m 0) as [H0|H0].
  - rewrite H0 in *. change ((0 - 1) / 12) with (-1). change ((0 - 1) mod 12) with 11.
    replace (y + -1) with (y - 1) by lia. fold (leap_flag (y - 1)).
    pose proof (DayFromYear_succ (y - 1)) as Hs. replace (y - 1 + 1) with y in Hs by lia.
    destruct (DaysInYear_cases (y - 1)) as [Hy _]. simpl in *. lia.
  - rewrite Z.div_small, Z.mod_small by lia. rewrite Z.add_0_r. fold (leap_flag y).
    replace (m - 1 + 1) with m by lia. lia.
Qed.

Lemma YearFromTime_lower t : - msPerDay <= t -> 1969 <= YearFromTime t.
Proof.
  intros Ht. unfold YearFromTime.
  pose proof (YearFromDay_spec (Day t)) as Hs.
  destruct (Z.le_gt_cases 1969 (YearFromDay (Day t))) as [|Hlt]; [assumption|].
  assert (Hm : DayFromYear (YearFromDay (Day t) + 1) <= DayFromYear 1969).
  { destruct (Z.eq_dec (YearFromDay (Day t) + 1) 1969) as [->|]; [lia|].
    assert (YearFromDay (Day t) + 1 < 1969) by lia.
    pose proof (DayFromYear_mono (YearFromDay (Day t) + 1) 1969 ltac:(lia)).
    pose proof (DayFromYear_succ (YearFromDay (Day t) + 1)).
    destruct (DaysInYear_cases (YearFromDay (Day t) + 1)). lia. }
  change (DayFromYear 1969) with (-365) in Hm.
  assert (-1 <= Day t) by (unfold Day, msPerDay in *; Z.div_mod_to_equations; lia).
  lia.
Qed.

End CalendarFacts.

(** ** Strings *)

Lemma string_app_cons (x : ascii) (a b : string) :
  String x a +:+ b = String x (a +:+ b).
Proof. reflexivity. Qed.

Lemma string_app_nil_l (b : string) : "" +:+ b = b.
Proof. reflexivity. Qed.

Lemma string_app_assoc (a b c : string) : (a +:+ b) +:+ c = a +:+ (b +:+ c).
Proof.
  induction a as [|x a IH]; [reflexivity|].
  rewrite !string_app_cons. now rewrite IH.
Qed.

Lemma string_app_nil_r (a : string) : a +:+ "" = a.
Proof.
  induction a as [|x a IH]; [reflexivity|]. rewrite string_app_cons. now rewrite IH.
Qed.

Lemma string_app_length (a b : string) :
  String.length (a +:+ b) = (String.length a + String.length b)%nat.
Proof.
  induction a as [|x a IH]; [reflexivity|]. rewrite string_app_cons. simpl. now rewrite IH.
Qed.


(** ** ISO timestamps read back as the time value they were printed from *)

Section IsoFacts.
Import JsDate.

Lemma digit_value_digit n : digit_value (digit n) = Some (n mod 10).
Proof.
  unfold digit. pose proof (Z.mod_pos_bound n 10 ltac:(lia)) as Hb.
  set (k := n mod 10) in *. clearbody k.
  assert (H : k = 0 \/ k = 1 \/ k = 2 \/ k = 3 \/ k = 4 \/ k = 5 \/ k = 6 \/ k = 7
              \/ k = 8 \/ k = 9) by lia.
  repeat (destruct H as [H|H]); subst k; reflexivity.
Qed.

Lemma read_digits_snoc w acc s :
  read_digits (S w) acc s =
  match read_digits w acc s with
  | Some (v, String c r) =>
      match digit_value c with
      | Some d => Some (10 * v + d, r)
      | None => None
      end
  | _ => None
  end.
Proof.
  revert acc s. induction w as [|w IH]; intros acc s.
  - simpl. destruct s as [|c r]; [reflexivity|]. destruct (digit_value c); reflexivity.
  - change (read_digits (S (S w)) acc s) with
      (match s with
       | String c r =>
           match digit_value c with
           | Some d => read_digits (S w) (10 * acc + d) r
           | None => None
           end
       | EmptyString => None
       end).
    destruct s as [|c r]; [reflexivity|]. simpl read_digits at 2.
    destruct (digit_value c) as [d|]; [|reflexivity]. apply IH.
Qed.

Lemma read_digits_digits w n rest :
  0 <= n < 10 ^ Z.of_nat w ->
  read_digits w 0 (digits w n +:+ rest) = Some (n, rest).
Proof.
  revert n rest. induction w as [|w IH]; intros n rest Hn.
  - simpl in *. f_equal. f_equal. lia.
  - rewrite read_digits_snoc.
    change (digits (S w) n) with (digits w (n / 10) +:+ String (digit n) "").
    rewrite string_app_assoc.
    rewrite Nat2Z.inj_succ, Z.pow_succ_r in Hn by lia.
    rewrite IH by (Z.div_mod_to_equations; lia).
    rewrite string_app_cons, string_app_nil_l. cbv beta iota.
    rewrite digit_value_digit. f_equal. f_equal. Z.div_mod_to_equations. lia.
Qed.

Lemma digits_head w n :
  exists c r, digits (S w) n = String c r /\ digit_value c <> None.
Proof.
  revert n. induction w as [|w IH]; intros n.
  - exists (digit n), "". split; [reflexivity|]. rewrite digit_value_digit. discriminate.
  - destruct (IH (n / 10)) as (c & r & Heq & Hc).
    change (digits (S (S w)) n) with (digits (S w) (n / 10) +:+ String (digit n) "").
    rewrite Heq, string_app_cons. eauto.
Qed.

Lemma read_year_isoYear y rest :
  Z.abs y < 1000000 -> read_year (isoYear y +:+ rest) = Some (y, rest).
Proof.
  intros Hy. unfold isoYear.
  destruct (Z.leb_spec 0 y) as [H0|H0]; [destruct (Z.leb_spec y 9999) as [H1|H1]|];
    cbv beta iota delta [andb].
  - destruct (digits_head 3 y) as (c & r & Heq & Hc).
    pose proof (read_digits_digits 4 y rest ltac:(change (10 ^ Z.of_nat 4) with 10000; lia)) as Hr.
    rewrite Heq in *. rewrite string_app_cons in *. unfold read_year.
    assert (c <> "+"%char /\ c <> "-"%char) as [Hp Hm].
    { split; intros ->; apply Hc; reflexivity. }
    destruct c as [[] [] [] [] [] [] [] []]; try exact Hr; congruence.
  - destruct (Z.ltb_spec y 0); [lia|]. rewrite !string_app_cons, !string_app_nil_l.
    unfold read_year.
    rewrite read_digits_digits by (change (10 ^ Z.of_nat 6) with 1000000; lia).
    f_equal. f_equal. lia.
  - destruct (Z.ltb_spec y 0); [|lia]. rewrite !string_app_cons, !string_app_nil_l.
    unfold read_year.
    rewrite read_digits_digits by (change (10 ^ Z.of_nat 6) with 1000000; lia).
    destruct (Z.eqb_spec (Z.abs y) 0); [lia|]. f_equal. f_equal. lia.
Qed.

Lemma YearFromTime_bounds t :
  Z.abs t <= maxTime -> -271821 <= YearFromTime t <= 275760.
Proof.
  intros Ht. unfold YearFromTime.
  pose proof (YearFromDay_spec (Day t)) as Hs.
  assert (Hd : -100000000 <= Day t <= 100000000)
    by (unfold Day, msPerDay, maxTime in *; Z.div_mod_to_equations; lia).
  unfold DayFromYear in Hs. Z.div_mod_to_equations. lia.
Qed.

Lemma time_fields t :
  MakeTime (HourFromTime t) (MinFromTime t) (SecFromTime t) (msFromTime t) = TimeWithinDay t
  /\ 0 <= HourFromTime t <= 23 /\ 0 <= MinFromTime t <= 59
  /\ 0 <= SecFromTime t <= 59 /\ 0 <= msFromTime t <= 999.
Proof.
  unfold MakeTime, HourFromTime, MinFromTime, SecFromTime, msFromTime, TimeWithinDay,
    msPerHour, msPerMinute, msPerSecond, msPerDay.
  Z.div_mod_to_equations. lia.
Qed.

Lemma expect_char c rest : expect c (String c "" +:+ rest) = Some rest.
Proof.
  rewrite string_app_cons, string_app_nil_l. unfold expect.
  now rewrite Ascii.eqb_refl.
Qed.

Ltac iso_step := cbv beta iota delta [mbind option_bind].

(** [parseISO] inverts [isoString] on the whole time range. *)
Lemma parseISO_isoString t :
  Z.abs t <= maxTime -> parseISO (isoString t) = Some t.
Proof.
  intros Ht. unfold isoString, parseISO.
  pose proof (YearFromTime_bounds t Ht) as Hy.
  destruct (civil_inverse t) as (Hm & Hd & Hday).
  destruct (time_fields t) as (Htime & Hh & Hmi & Hs & Hms).
  pose proof (DaysInMonth_bounds (YearFromTime t) (MonthFromTime t) Hm) as Hdim.
  rewrite read_year_isoYear by lia. iso_step.
  rewrite expect_char. iso_step.
  rewrite read_digits_digits by (change (10 ^ Z.of_nat 2) with 100; lia). iso_step.
  rewrite expect_char. iso_step.
  rewrite read_digits_digits by (change (10 ^ Z.of_nat 2) with 100; lia). iso_step.
  rewrite expect_char. iso_step.
  rewrite read_digits_digits by (change (10 ^ Z.of_nat 2) with 100; lia). iso_step.
  rewrite expect_char. iso_step.
  rewrite read_digits_digits by (change (10 ^ Z.of_nat 2) with 100; lia). iso_step.
  rewrite expect_char. iso_step.
  rewrite read_digits_digits by (change (10 ^ Z.of_nat 2) with 100; lia). iso_step.
  rewrite expect_char. iso_step.
  rewrite <- (string_app_nil_r "Z").
  rewrite read_digits_digits by (change (10 ^ Z.of_nat 3) with 1000; lia). iso_step.
  rewrite expect_char. iso_step.
  replace (MonthFromTime t + 1 - 1) with (MonthFromTime t) by lia.
  change (String.eqb "" "") with true.
  repeat match goal with
         | |- context [?a <=? ?b] => destruct (Z.leb_spec a b); [|lia]
         end.
  cbv beta iota delta [andb]. rewrite MakeDay_civil, Htime.
  replace (MakeDate (Day t) (TimeWithinDay t)) with t
    by (unfold MakeDate, Day, TimeWithinDay, msPerDay; Z.div_mod_to_equations; lia).
  unfold TimeClip. destruct (Z.leb_spec (Z.abs t) maxTime); [reflexivity | lia].
Qed.

End IsoFacts.

(** ** The report window (generate-report, lines 31 to 44) *)

Section WindowFacts.
Import JsDate GenerateReport.

Lemma TimeClip_in_range t : Z.abs t <= maxTime -> TimeClip t = Some t.
Proof.
  intros Ht. unfold TimeClip. destruct (Z.leb_spec (Z.abs t) maxTime); [reflexivity | lia].
Qed.

Lemma resolve_weekly tza now sd ed uid fmt :
  - maxTime + 7 * msPerDay <= now <= maxTime ->
  resolveDateRange tza now (GenerateReport.mkRequest "weekly" sd ed uid fmt)
  = Normal (Some (isoString (now - 7 * msPerDay)), Some (isoString now)).
Proof.
  intros Hnow. unfold resolveDateRange. cbn [type]. change ("weekly" =? "weekly")%string with true.
  cbv iota. unfold Date_of_value. unfold msPerDay, maxTime in Hnow.
  rewrite (TimeClip_in_range now) by (unfold maxTime; lia).
  cbn [mbind option_bind]. change (7 * 24 * 60 * 60 * 1000) with 604800000.
  change (7 * msPerDay) with 604800000.
  rewrite (TimeClip_in_range (now - 604800000)) by (unfold maxTime; lia).
  reflexivity.
Qed.

(** The start of the monthly window as a time value: local midnight of
    the day that lies one previous-month's length before today. *)
Lemma monthAgo_value tza now :
  0 <= now <= maxTime -> - msPerDay <= tza <= msPerDay ->
  let t := LocalTime tza now in
  let '(py, pm) := previous_month (YearFromTime t) (MonthFromTime t) in
  Date_ymd tza (getFullYear tza now) (getMonth tza now - 1) (getDate tza now)
  = Some ((Day t - DaysInMonth py pm) * msPerDay - tza)
  /\ 28 <= DaysInMonth py pm <= 31
  /\ Z.abs ((Day t - DaysInMonth py pm) * msPerDay - tza) <= maxTime.
Proof.
  intros Hnow Htza t.
  pose proof (MakeDay_month_before t) as Hmk.
  destruct (civil_inverse t) as (Hm & _ & _).
  assert (Hy : 1969 <= YearFromTime t)
    by (apply YearFromTime_lower; unfold t, LocalTime; lia).
  destruct (previous_month (YearFromTime t) (MonthFromTime t)) as [py pm] eqn:Hprev.
  assert (Hpm : 0 <= pm <= 11).
  { unfold previous_month in Hprev.
    destruct (Z.eqb_spec (MonthFromTime t) 0); inversion Hprev; lia. }
  pose proof (DaysInMonth_bounds py pm Hpm) as Hdim.
  assert (Hrange : Z.abs ((Day t - DaysInMonth py pm) * msPerDay - tza) <= maxTime).
  { assert (Hday : t - msPerDay < Day t * msPerDay <= t)
      by (unfold Day, msPerDay; Z.div_mod_to_equations; lia).
    unfold t, LocalTime, maxTime, msPerDay in *. lia. }
  split; [|split; assumption].
  unfold Date_ymd, getFullYear, getMonth, getDate. fold t.
  destruct (Z.leb_spec (YearFromTime t) 99); [lia|]. rewrite andb_false_r.
  rewrite Hmk. unfold MakeDate, UTC. change (MakeTime 0 0 0 0) with 0. rewrite Z.add_0_r.
  apply TimeClip_in_range. exact Hrange.
Qed.

Lemma resolve_monthly tza now sd ed uid fmt :
  0 <= now <= maxTime -> - msPerDay <= tza <= msPerDay ->
  let t := LocalTime tza now in
  let '(py, pm) := previous_month (YearFromTime t) (MonthFromTime t) in
  resolveDateRange tza now (GenerateReport.mkRequest "monthly" sd ed uid fmt)
  = Normal (Some (isoString ((Day t - DaysInMonth py pm) * msPerDay - tza)),
            Some (isoString now)).
Proof.
  intros Hnow Htza t. pose proof (monthAgo_value tza now Hnow Htza) as Hv.
  cbv zeta in Hv. fold t in Hv.
  destruct (previous_month (YearFromTime t) (MonthFromTime t)) as [py pm].
  destruct Hv as [Hv _].
  unfold resolveDateRange. cbn [type].
  change ("monthly" =? "weekly")%string with false.
  change ("monthly" =? "monthly")%string with true. cbv iota.
  unfold Date_of_value. rewrite (TimeClip_in_range now) by lia.
  cbn [mbind option_bind]. rewrite Hv. reflexivity.
Qed.

End WindowFacts.

Section WindowClaims.
Import JsDate GenerateReport.

(** C9.  A weekly request resolves to two ISO timestamps that read back as
    time values exactly seven days apart, the later one being the single
    clock reading of the branch. *)
Theorem weekly_window_spans_seven_days tza now sd ed uid fmt :
  - maxTime + 7 * msPerDay <= now <= maxTime ->
  exists rs re s e,
    resolveDateRange tza now (GenerateReport.mkRequest "weekly" sd ed uid fmt)
    = Normal (Some rs, Some re)
    /\ parseISO rs = Some s /\ parseISO re = Some e
    /\ e = now /\ e - s = 7 * msPerDay.
Proof.
  intros Hnow.
  exists (isoString (now - 7 * msPerDay)), (isoString now), (now - 7 * msPerDay), now.
  split; [apply resolve_weekly; assumption|].
  unfold msPerDay in *.
  split; [apply parseISO_isoString; lia|].
  split; [apply parseISO_isoString; lia|].
  split; [reflexivity | lia].
Qed.

Lemma weekly_window_spans_seven_days_witness :
  (- maxTime + 7 * msPerDay <= 1743422400000 <= maxTime)
  /\ exists rs re s e,
       resolveDateRange 0 1743422400000
         (GenerateReport.mkRequest "weekly" (Some "2020-01-01") None None None)
       = Normal (Some rs, Some re)
       /\ parseISO rs = Some s /\ parseISO re = Some e
       /\ e = 1743422400000 /\ e - s = 7 * msPerDay.
Proof.
  assert (H : - maxTime + 7 * msPerDay <= 1743422400000 <= maxTime)
    by (unfold maxTime, msPerDay; lia).
  split; [exact H|].
  exact (weekly_window_spans_seven_days 0 1743422400000 (Some "2020-01-01"%string)
           None None None H).
Defined.

(** C1 (the code departs from the claim).  On 31 March 2025, noon UTC, the
    monthly window starts on 3 March: day 31 of February runs over into
    March, so the start lies in the month of the end, not one calendar
    month before it. *)
Theorem monthly_window_from_march_31 :
  resolveDateRange 0 1743422400000 (GenerateReport.mkRequest "monthly" None None None None)
  = Normal (Some "2025-03-03T00:00:00.000Z"%string, Some "2025-03-31T12:00:00.000Z"%string)
  /\ parseISO "2025-03-31T12:00:00.000Z" = Some 1743422400000
  /\ parseISO "2025-03-03T00:00:00.000Z" = Some 1740960000000
  /\ getMonth 0 1740960000000 = getMonth 0 1743422400000.
Proof. vm_compute. repeat split; reflexivity. Qed.

Lemma MakeDay_previous y m d py pm :
  0 <= m <= 11 -> previous_month y m = (py, pm) ->
  MakeDay y (m - 1) d = DayFromYear py + DaysBeforeMonth (leap_flag py) pm + d - 1
  /\ 0 <= pm <= 11.
Proof.
  intros Hm Hprev. unfold previous_month in Hprev. unfold MakeDay.
  destruct (Z.eqb_spec m 0) as [H0|H0]; injection Hprev as <- <-.
  - subst m. change ((0 - 1) / 12) with (-1). change ((0 - 1) mod 12) with 11.
    replace (y + -1) with (y - 1) by lia. fold (leap_flag (y - 1)). lia.
  - rewrite Z.div_small, Z.mod_small by lia. rewrite Z.add_0_r. fold (leap_flag y). lia.
Qed.

(** The monthly window where the claim holds: when today's day of the
    month exists in the previous month, the window starts at local
    midnight of that day of the previous month. *)
Theorem monthly_window_previous_month tza now sd ed uid fmt :
  0 <= now <= maxTime -> - msPerDay <= tza <= msPerDay ->
  getDate tza now
  <= (let '(py, pm) := previous_month (getFullYear tza now) (getMonth tza now) in
      DaysInMonth py pm) ->
  exists rs re s,
    resolveDateRange tza now (GenerateReport.mkRequest "monthly" sd ed uid fmt)
    = Normal (Some rs, Some re)
    /\ parseISO rs = Some s /\ parseISO re = Some now
    /\ (getFullYear tza s, getMonth tza s)
       = previous_month (getFullYear tza now) (getMonth tza now)
    /\ getDate tza s = getDate tza now
    /\ TimeWithinDay (LocalTime tza s) = 0.
Proof.
  intros Hnow Htza Hfit.
  pose proof (resolve_monthly tza now sd ed uid fmt Hnow Htza) as Hres.
  pose proof (monthAgo_value tza now Hnow Htza) as Hval.
  unfold getFullYear, getMonth, getDate in *. cbv zeta in Hres, Hval.
  set (t := LocalTime tza now) in *.
  pose proof (MakeDay_month_before t) as Hmk.
  destruct (civil_inverse t) as (Hm & Hd & _).
  destruct (previous_month (YearFromTime t) (MonthFromTime t)) as [py pm] eqn:Hprev.
  destruct Hval as (_ & Hdim & Hs).
  destruct (MakeDay_previous _ _ (DateFromTime t) _ _ Hm Hprev) as [Hday Hpm].
  set (s := (Day t - DaysInMonth py pm) * msPerDay - tza) in *.
  assert (Hlocal : LocalTime tza s = (Day t - DaysInMonth py pm) * msPerDay)
    by (unfold s, LocalTime; lia).
  assert (Hsday : Day (LocalTime tza s)
                  = DayFromYear py + DaysBeforeMonth (leap_flag py) pm + DateFromTime t - 1).
  { rewrite Hlocal. unfold Day at 1. rewrite Z.div_mul by (unfold msPerDay; lia). lia. }
  exists (isoString s), (isoString now), s.
  split; [exact Hres|].
  split; [apply parseISO_isoString; exact Hs|].
  split; [apply parseISO_isoString; lia|].
  assert (Hdd : 1 <= DateFromTime t <= DaysInMonth py pm) by lia.
  split; [|split].
  - f_equal.
    + exact (civil_year py pm (DateFromTime t) _ Hpm Hdd Hsday).
    + exact (civil_month py pm (DateFromTime t) _ Hpm Hdd Hsday).
  - exact (civil_date py pm (DateFromTime t) _ Hpm Hdd Hsday).
  - rewrite Hlocal. unfold TimeWithinDay. apply Z.mod_mul. unfold msPerDay. lia.
Qed.

Lemma monthly_window_previous_month_witness :
  exists rs re s,
    resolveDateRange 0 1742040000000 (GenerateReport.mkRequest "monthly" None None None None)
    = Normal (Some rs, Some re)
    /\ parseISO rs = Some s /\ parseISO re = Some 1742040000000
    /\ (getFullYear 0 s, getMonth 0 s)
       = previous_month (getFullYear 0 1742040000000) (getMonth 0 1742040000000)
    /\ getDate 0 s = getDate 0 1742040000000
    /\ TimeWithinDay (LocalTime 0 s) = 0.
Proof.
  refine (monthly_window_previous_month 0 1742040000000 None None None None _ _ _).
  - unfold maxTime; lia.
  - unfold msPerDay; lia.
  - vm_compute. discriminate.
Defined.

(** The monthly window in the remaining case: when today's day of the
    month is past the end of the previous month, the start stays in the
    month of today. *)
Theorem monthly_window_overflow tza now sd ed uid fmt :
  0 <= now <= maxTime -> - msPerDay <= tza <= msPerDay ->
  (let '(py, pm) := previous_month (getFullYear tza now) (getMonth tza now) in
   DaysInMonth py pm) < getDate tza now ->
  exists rs re s,
    resolveDateRange tza now (GenerateReport.mkRequest "monthly" sd ed uid fmt)
    = Normal (Some rs, Some re)
    /\ parseISO rs = Some s /\ parseISO re = Some now
    /\ getFullYear tza s = getFullYear tza now
    /\ getMonth tza s = getMonth tza now
    /\ getDate tza s
       = getDate tza now
         - (let '(py, pm) := previous_month (getFullYear tza now) (getMonth tza now) in
            DaysInMonth py pm).
Proof.
  intros Hnow Htza Hover.
  pose proof (resolve_monthly tza now sd ed uid fmt Hnow Htza) as Hres.
  pose proof (monthAgo_value tza now Hnow Htza) as Hval.
  unfold getFullYear, getMonth, getDate in *. cbv zeta in Hres, Hval.
  set (t := LocalTime tza now) in *.
  destruct (civil_inverse t) as (Hm & Hd & Hday).
  destruct (previous_month (YearFromTime t) (MonthFromTime t)) as [py pm] eqn:Hprev.
  destruct Hval as (_ & Hdim & Hs).
  set (s := (Day t - DaysInMonth py pm) * msPerDay - tza) in *.
  assert (Hlocal : LocalTime tza s = (Day t - DaysInMonth py pm) * msPerDay)
    by (unfold s, LocalTime; lia).
  assert (Hsday : Day (LocalTime tza s)
                  = DayFromYear (YearFromTime t)
                    + DaysBeforeMonth (leap_flag (YearFromTime t)) (MonthFromTime t)
                    + (DateFromTime t - DaysInMonth py pm) - 1).
  { rewrite Hlocal. unfold Day at 1. rewrite Z.div_mul by (unfold msPerDay; lia). lia. }
  exists (isoString s), (isoString now), s.
  split; [exact Hres|].
  split; [apply parseISO_isoString; exact Hs|].
  split; [apply parseISO_isoString; lia|].
  assert (Hdd : 1 <= DateFromTime t - DaysInMonth py pm
                <= DaysInMonth (YearFromTime t) (MonthFromTime t)) by lia.
  split; [|split].
  - exact (civil_year _ _ _ _ Hm Hdd Hsday).
  - exact (civil_month _ _ _ _ Hm Hdd Hsday).
  - exact (civil_date _ _ _ _ Hm Hdd Hsday).
Qed.

Lemma monthly_window_overflow_witness :
  exists rs re s,
    resolveDateRange 0 1743422400000 (GenerateReport.mkRequest "monthly" None None None None)
    = Normal (Some rs, Some re)
    /\ parseISO rs = Some s /\ parseISO re = Some 1743422400000
    /\ getFullYear 0 s = getFullYear 0 1743422400000
    /\ getMonth 0 s = getMonth 0 1743422400000
    /\ getDate 0 s
       = getDate 0 1743422400000
         - (let '(py, pm) := previous_month (getFullYear 0 1743422400000)
                               (getMonth 0 1743422400000) in
            DaysInMonth py pm).
Proof.
  refine (monthly_window_overflow 0 1743422400000 None None None None _ _ _).
  - unfold maxTime; lia.
  - unfold msPerDay; lia.
  - vm_compute. reflexivity.
Defined.

End WindowClaims.

(** ** Summaries (generate-report, the reductions) *)

Section SummaryFacts.
Import GenerateReport.

(** The keys [byStatus] is indexed with are never names that a plain
    object inherits. *)
Lemma status_keys_not_inherited (s : option ticket_status) :
  JsObject.inherited (key_of ticket_status_label s) = JsObject.JsUndefined.
Proof. destruct s as [[]|]; reflexivity. Qed.

Lemma sum_values_bump (m : gmap string nat) (k : string) :
  sum_values (<[k := S (default 0%nat (m !! k))]> m) = S (sum_values m).
Proof.
  unfold sum_values.
  destruct (m !! k) as [v|] eqn:Hk; simpl.
  - rewrite <- insert_delete_eq.
    rewrite map_fold_insert_L; [|intros; lia|apply lookup_delete_eq].
    rewrite (map_fold_delete_L _ _ k v m); [lia|intros; lia|assumption].
  - rewrite map_fold_insert_L; [lia|intros; lia|assumption].
Qed.

Section CountBy.
Context {Row : Type} (key : Row -> string).

Lemma count_fold_sum rows (acc : gmap string nat) :
  sum_values
    (fold_left (fun (acc : gmap string nat) r => <[key r := S (default 0%nat (acc !! key r))]> acc) rows acc)
  = (sum_values acc + List.length rows)%nat.
Proof.
  revert acc. induction rows as [|r rows IH]; intros acc; cbn [fold_left List.length].
  - lia.
  - rewrite IH, sum_values_bump. lia.
Qed.

Lemma count_fold_lookup rows (acc : gmap string nat) k :
  fold_left (fun (acc : gmap string nat) r => <[key r := S (default 0%nat (acc !! key r))]> acc) rows acc !! k =
  if (occurrences key k rows =? 0)%nat then acc !! k
  else Some (default 0%nat (acc !! k) + occurrences key k rows)%nat.
Proof.
  revert acc. induction rows as [|r rows IH]; intros acc.
  - reflexivity.
  - cbn [fold_left]. rewrite IH. unfold occurrences. cbn [List.filter].
    destruct (String.eqb_spec (key r) k) as [Heq|Hne].
    + cbn [List.length]. rewrite Heq, lookup_insert_eq. cbn [default]. unfold Datatypes.id.
      destruct (Nat.eqb_spec (List.length (List.filter (fun r0 => (key r0 =? k)%string) rows)) 0)
        as [->|Hn]; cbn [Nat.eqb]; f_equal; lia.
    + rewrite lookup_insert_ne by assumption. reflexivity.
Qed.

Lemma sum_values_count_by rows : sum_values (count_by key rows) = List.length rows.
Proof. unfold count_by. rewrite count_fold_sum. reflexivity. Qed.

Lemma lookup_count_by rows k :
  count_by key rows !! k =
  if (occurrences key k rows =? 0)%nat then None else Some (occurrences key k rows).
Proof. unfold count_by. rewrite count_fold_lookup. reflexivity. Qed.

Lemma occurrences_pos rows k :
  (0 < occurrences key k rows)%nat <-> exists r, In r rows /\ key r = k.
Proof.
  unfold occurrences. split.
  - intros Hpos.
    destruct (List.filter (fun r => (key r =? k)%string) rows) as [|r l] eqn:Hf;
      [simpl in Hpos; lia|].
    assert (Hin : In r (List.filter (fun r => (key r =? k)%string) rows))
      by (rewrite Hf; left; reflexivity).
    apply filter_In in Hin as [Hin Hk]. apply String.eqb_eq in Hk. eauto.
  - intros (r & Hin & Hk).
    assert (Hf : In r (List.filter (fun r => (key r =? k)%string) rows))
      by (apply filter_In; split; [assumption | now apply String.eqb_eq]).
    destruct (List.filter (fun r => (key r =? k)%string) rows); [destruct Hf | simpl; lia].
Qed.
End CountBy.

Lemma rows_with_status_occurrences {Row A} `{EqDecision A} (label : A -> string)
    (proj : Row -> option A) (v : option A) (rows : list Row) :
  (forall a b : option A, key_of label a = key_of label b -> a = b) ->
  occurrences (fun r => key_of label (proj r)) (key_of label v) rows
  = rows_with_status proj v rows.
Proof.
  intros Hinj. unfold occurrences, rows_with_status. f_equal. apply filter_ext. intros r.
  destruct (String.eqb_spec (key_of label (proj r)) (key_of label v)) as [Hk|Hk].
  - symmetry. apply bool_decide_eq_true. now apply Hinj.
  - symmetry. apply bool_decide_eq_false. intros Heq. apply Hk. now rewrite Heq.
Qed.

(** Distinct ticket statuses, the missing one included, have distinct
    keys. *)
Lemma ticket_status_key_injective (v w : option ticket_status) :
  key_of ticket_status_label v = key_of ticket_status_label w -> v = w.
Proof. destruct v as [[]|], w as [[]|]; cbn; intros H; try reflexivity; discriminate. Qed.

(** C5.  [byStatus] has an entry exactly for the statuses that occur in the
    rows, the entry is the (positive) number of rows with that status, and
    the entries add up to [total], the number of rows.  Distinct statuses
    (a missing status counting as one more) have distinct keys, so there
    is one entry per status that occurs: the entry of a status is the
    number of rows with that status, and every key is the key of a status
    of some row. *)
Theorem byStatus_counts_every_row (rows : list TicketRow) :
  let report := summarizeTickets (Some rows) in
  let key := fun t => key_of ticket_status_label (status t) in
  (forall k, is_Some (t_byStatus report !! k) <-> exists t, In t rows /\ key t = k)
  /\ (forall k n, t_byStatus report !! k = Some n ->
        n = occurrences key k rows /\ (0 < n)%nat)
  /\ sum_values (t_byStatus report) = t_total report
  /\ t_total report = List.length rows
  /\ (forall v w : option ticket_status,
        key_of ticket_status_label v = key_of ticket_status_label w -> v = w)
  /\ (forall v : option ticket_status,
        t_byStatus report !! key_of ticket_status_label v
        = if (rows_with_status status v rows =? 0)%nat then None
          else Some (rows_with_status status v rows))
  /\ (forall k, is_Some (t_byStatus report !! k) ->
        exists t, In t rows /\ k = key_of ticket_status_label (status t)
                  /\ t_byStatus report !! k = Some (rows_with_status status (status t) rows)).
Proof.
  cbv zeta. unfold summarizeTickets. cbn [default t_byStatus t_total]. unfold Datatypes.id.
  assert (Hkeys : forall k,
             is_Some (count_by (fun t => key_of ticket_status_label (status t)) rows !! k)
             <-> exists t, In t rows /\ key_of ticket_status_label (status t) = k).
  { intros k. rewrite lookup_count_by, <- occurrences_pos.
    destruct (Nat.eqb_spec (occurrences (fun t => key_of ticket_status_label (status t)) k rows) 0)
      as [Hz|Hz].
    - rewrite Hz. split; [intros [x Hx]; discriminate | lia].
    - split; [lia | eauto]. }
  assert (Hstatus : forall v : option ticket_status,
             count_by (fun t => key_of ticket_status_label (status t)) rows
               !! key_of ticket_status_label v
             = if (rows_with_status status v rows =? 0)%nat then None
               else Some (rows_with_status status v rows)).
  { intros v. rewrite lookup_count_by.
    rewrite (rows_with_status_occurrences ticket_status_label status v rows
               ticket_status_key_injective). reflexivity. }
  split; [exact Hkeys|]. split; [|split; [|split; [|split; [|split]]]].
  - intros k n. rewrite lookup_count_by.
    destruct (Nat.eqb_spec (occurrences (fun t => key_of ticket_status_label (status t)) k rows) 0);
      [discriminate|].
    intros [= <-]. split; [reflexivity | lia].
  - apply sum_values_count_by.
  - reflexivity.
  - exact ticket_status_key_injective.
  - exact Hstatus.
  - intros k Hk. pose proof Hk as Hsome. apply Hkeys in Hk as (t & Hin & <-).
    exists t. split; [exact Hin|]. split; [reflexivity|].
    rewrite Hstatus.
    destruct (Nat.eqb_spec (rows_with_status status (status t) rows) 0) as [Hz|Hz];
      [|reflexivity].
    exfalso. rewrite Hstatus, Hz in Hsome. destruct Hsome as [x Hx]. discriminate.
Qed.

(** C4 (the code departs from the claim).  With 23 of 40 deals won the
    exact rate is 57.5 percent, which rounds to 58; the function divides
    first and multiplies after, the product falls just below the tie, and
    [Math.round] gives 57. *)
Theorem conversion_rate_23_of_40 :
  let report := summarizeDeals (Some forty_deals) in
  d_total report = 40%nat /\ d_won report = 23%nat
  /\ d_conversionRate report = JsNumber.of_Z 57
  /\ percent_rounded 23 40 = 58.
Proof. vm_compute. repeat split; reflexivity. Qed.

(** Without deals the rate is zero. *)
Lemma conversion_rate_no_deals : d_conversionRate (summarizeDeals (Some [])) = JsNumber.of_Z 0.
Proof. reflexivity. Qed.

End SummaryFacts.

(** ** Queries and failure propagation (generate-report) *)

Section AggregatorFacts.
Import GenerateReport.
Variables (ts_geb ts_leb : string -> string -> bool).

Lemma settle_rejection {Row Rep} (summarize : option (list Row) -> Rep) (q : QueryResult Row) :
  rejection (settle summarize q) = error q.
Proof. unfold settle. destruct (error q); reflexivity. Qed.

Lemma run_error {Row Out} db table (column : Row -> string -> option string)
    (project : Row -> Out) rows filters :
  error (run ts_geb ts_leb db table column project rows filters) = fault db table filters.
Proof. unfold run. destruct (fault db table filters); reflexivity. Qed.

(** An aggregator rejects exactly when its query comes back with an
    error, and with that error. *)
Lemma aggregator_rejections db sd ed uid :
  rejection (generateTicketReport ts_geb ts_leb db sd ed uid) = query_error db sd ed uid Tickets
  /\ rejection (generateContactReport ts_geb ts_leb db sd ed uid)
     = query_error db sd ed uid Contacts
  /\ rejection (generateDealReport ts_geb ts_leb db sd ed uid) = query_error db sd ed uid Deals
  /\ rejection (generateAppointmentReport ts_geb ts_leb db sd ed uid)
     = query_error db sd ed uid Appointments.
Proof.
  unfold generateTicketReport, generateContactReport, generateDealReport,
    generateAppointmentReport, query_error.
  rewrite !settle_rejection, !run_error. repeat split; reflexivity.
Qed.

(** [Promise.all] rejects as soon as one of the four rejects, with the
    reason of one of them. *)
Lemma Promise_all_rejects {T C D A} rank
    (t : Completion T) (c : Completion C) (d : Completion D) (a : Completion A) :
  rejection t <> None \/ rejection c <> None \/ rejection d <> None \/ rejection a <> None ->
  exists err,
    Promise_all rank t c d a = Throw err
    /\ (rejection t = Some err \/ rejection c = Some err
        \/ rejection d = Some err \/ rejection a = Some err).
Proof.
  intros Hrej. unfold Promise_all, earliest.
  destruct t as [t|et], c as [c|ec], d as [d|ed], a as [a|ea];
    cbn [rejection fold_left fst snd] in *;
    repeat match goal with
           | |- context [(?x <? ?y)%nat] => destruct (x <? y)%nat
           end;
    try (eexists; split; [reflexivity|]; tauto).
  exfalso. destruct Hrej as [H|[H|[H|H]]]; apply H; reflexivity.
Qed.

Lemma Promise_all_fulfils {T C D A} rank
    (t : Completion T) (c : Completion C) (d : Completion D) (a : Completion A) v :
  Promise_all rank t c d a = Normal v ->
  t = Normal (fst (fst (fst v))) /\ c = Normal (snd (fst (fst v)))
  /\ d = Normal (snd (fst v)) /\ a = Normal (snd v).
Proof.
  unfold Promise_all, earliest.
  destruct t as [t|et], c as [c|ec], d as [d|ed], a as [a|ea];
    cbn [rejection fold_left fst snd];
    repeat match goal with
           | |- context [(?x <? ?y)%nat] => destruct (x <? y)%nat
           end;
    try discriminate.
  intros [= <-]. repeat split; reflexivity.
Qed.

Variable LocalTZA : Z.
Variable NumberToString : JsNumber.Number -> string.

(** C2.  If the query of any one of the four aggregators fails, the
    response is a 500 whose body is the single object with the [error]
    message of a failed query; no report document is returned. *)
Theorem failed_query_aborts_report db rank clock method req sd ed :
  method <> "OPTIONS"%string ->
  resolveDateRange LocalTZA (now clock) req = Normal (sd, ed) ->
  (exists a, query_error db sd ed (userId req) a <> None) ->
  exists a err,
    query_error db sd ed (userId req) a = Some err
    /\ handler ts_geb ts_leb LocalTZA NumberToString db rank clock method req
       = Http.mkResponse 500 Http.json_headers (ErrorJson (message err)).
Proof.
  intros Hmethod Hwindow [a Ha].
  destruct (aggregator_rejections db sd ed (userId req)) as (Ht & Hc & Hd & Hap).
  destruct (Promise_all_rejects rank
              (generateTicketReport ts_geb ts_leb db sd ed (userId req))
              (generateContactReport ts_geb ts_leb db sd ed (userId req))
              (generateDealReport ts_geb ts_leb db sd ed (userId req))
              (generateAppointmentReport ts_geb ts_leb db sd ed (userId req)))
    as (err & Hall & Hwho).
  { rewrite Ht, Hc, Hd, Hap. destruct a; tauto. }
  assert (Hsrc : exists b, query_error db sd ed (userId req) b = Some err).
  { rewrite Ht, Hc, Hd, Hap in Hwho.
    destruct Hwho as [H|[H|[H|H]]]; eauto. }
  destruct Hsrc as [b Hb]. exists b, err. split; [exact Hb|].
  unfold handler. destruct (String.eqb_spec method "OPTIONS"); [contradiction|].
  unfold assemble. rewrite Hwindow. cbn [mbind Completion_bind].
  rewrite Hall. reflexivity.
Qed.

End AggregatorFacts.

Section AggregatorWitness.
Import GenerateReport.

Lemma failed_query_aborts_report_witness :
  let db := mkDatabase [] [] [] [] []
              (fun table _ =>
                 if String.eqb table "appointments"
                 then Some (mkError "PostgrestError" "connection refused") else None) in
  let req := GenerateReport.mkRequest "custom" None None None None in
  exists a err,
    query_error db None None (userId req) a = Some err
    /\ handler (fun _ _ => true) (fun _ _ => true) 0 (fun _ => "0"%string) db (fun _ => 0%nat)
         (mkClock 0 0 0) "POST" req
       = Http.mkResponse 500 Http.json_headers (ErrorJson (message err)).
Proof.
  cbv zeta.
  refine (failed_query_aborts_report _ _ 0 _ _ _ _ "POST" _ None None _ _ _).
  - discriminate.
  - reflexivity.
  - exists Appointments. discriminate.
Defined.

End AggregatorWitness.

(** ** The actor filter (generate-report) *)

Section ActorFilter.
Import GenerateReport.
Variables (ts_geb ts_leb : string -> string -> bool).


(** The date filters say what the window says. *)
Lemma in_window_meets (column : string -> option string) col sd ed :
  in_window ts_geb ts_leb column col sd ed
  = row_in_window ts_geb ts_leb (column col) sd ed.
Proof.
  unfold in_window, date_filters, row_in_window, meets_bound, JsObject.string_truthy.
  destruct sd as [s|], ed as [e|];
    repeat match goal with
           | |- context [String.eqb ?x ""] => destruct (String.eqb x "")
           end;
    cbn [negb app forallb holds default]; unfold Datatypes.id;
    rewrite ?andb_true_r; reflexivity.
Qed.


Lemma settle_normal {Row Out Rep} (summarize : option (list Out) -> Rep) db table
    (column : Row -> string -> option string) (project : Row -> Out) rows filters r :
  settle summarize (run ts_geb ts_leb db table column project rows filters) = Normal r ->
  r = summarize (Some (map project (select_rows ts_geb ts_leb column filters rows))).
Proof.
  unfold settle, run. destruct (fault db table filters); cbn [error data]; [discriminate|].
  now intros [= <-].
Qed.

End ActorFilter.

(** ** The tabular output (generate-report, [generateCsvReport]) *)

Section CsvFacts.
Import GenerateReport.

Lemma split_on_nonempty c s : split_on c s <> [].
Proof.
  destruct s as [|x r]; cbn [split_on]; [discriminate|].
  destruct (Ascii.eqb x c); [discriminate|].
  destruct (split_on c r); discriminate.
Qed.

Lemma split_on_free c s : free_of c s = true -> split_on c s = [s].
Proof.
  induction s as [|x r IH]; cbn [split_on free_of]; [reflexivity|].
  intros H. apply andb_true_iff in H as [Hx Hr].
  apply negb_true_iff in Hx. rewrite Hx, (IH Hr). reflexivity.
Qed.

(** Splitting a text at a separator that stands between two parts splits
    each part. *)
Lemma split_on_app c a b :
  split_on c (a +:+ String c "" +:+ b) = split_on c a ++ split_on c b.
Proof.
  induction a as [|x a IH].
  - rewrite string_app_nil_l, string_app_cons, string_app_nil_l.
    cbn [split_on]. rewrite Ascii.eqb_refl. reflexivity.
  - rewrite string_app_cons. cbn [split_on]. rewrite IH.
    destruct (Ascii.eqb x c); [reflexivity|].
    pose proof (split_on_nonempty c a) as Hne.
    destruct (split_on c a) as [|l ls]; [contradiction | reflexivity].
Qed.

Lemma split_on_join_tail c (tail : list string) (head : string) :
  Forall (fun l => free_of c l = true) tail ->
  split_on c (fold_left (fun acc q => acc +:+ String c "" +:+ q) tail head)
  = split_on c head ++ tail.
Proof.
  intros Hfree. revert head. induction Hfree as [|q tail Hq _ IH]; intros head.
  - cbn [fold_left]. now rewrite app_nil_r.
  - cbn [fold_left]. rewrite IH, split_on_app, (split_on_free c q Hq).
    now rewrite <- app_assoc.
Qed.

(** [forEach] with [push] appends one entry per ticket, in order. *)
Lemma csv_lines_are nts report :
  csv_lines nts report = header_lines nts report ++ map ticket_line (t_details (tickets report)).
Proof.
  unfold csv_lines. generalize (header_lines nts report) as lines.
  induction (t_details (tickets report)) as [|t rest IH]; intros lines; cbn [fold_left map].
  - now rewrite app_nil_r.
  - rewrite IH, <- app_assoc. reflexivity.
Qed.

Lemma join_with_app sep (l1 l2 : list string) :
  l1 <> [] ->
  JsObject.join_with sep (l1 ++ l2)
  = fold_left (fun acc q => acc +:+ sep +:+ q) l2 (JsObject.join_with sep l1).
Proof.
  destruct l1 as [|p ps]; [contradiction|]. intros _.
  unfold JsObject.join_with. cbn [app]. apply fold_left_app.
Qed.

(** C8 as the code has it.  The text is the header block followed by one
    entry per ticket of [details], in order; when no entry holds a line
    break, each entry is one line of the text, so the lines after the
    header block are exactly the tickets' entries. *)
Theorem csv_one_line_per_ticket nts report :
  Forall (fun t => single_line (ticket_line t) = true) (t_details (tickets report)) ->
  split_lines (generateCsvReport nts report)
  = split_lines (JsObject.join_with newline (header_lines nts report))
    ++ map ticket_line (t_details (tickets report)).
Proof.
  intros Hfree. unfold generateCsvReport, split_lines.
  rewrite csv_lines_are, join_with_app by discriminate.
  apply split_on_join_tail. apply Forall_map. exact Hfree.
Qed.

End CsvFacts.

Lemma csv_one_line_per_ticket_witness :
  let report :=
    GenerateReport.mkReport
      (GenerateReport.mkMeta "custom" None None "2025-02-01T00:00:00.000Z" None)
      (GenerateReport.mkSummary 2 1 0 (JsNumber.of_Z 0) 0)
      (GenerateReport.summarizeTickets
         (Some (map (GenerateReport.ticket_row GenerateReport.sample_db)
                  (GenerateReport.table_tickets GenerateReport.sample_db))))
      (GenerateReport.summarizeContacts (Some []))
      (GenerateReport.summarizeDeals (Some []))
      (GenerateReport.summarizeAppointments (Some [])) in
  Forall (fun t => GenerateReport.single_line (GenerateReport.ticket_line t) = true)
    (GenerateReport.t_details (GenerateReport.tickets report))
  /\ GenerateReport.split_lines (GenerateReport.generateCsvReport (fun _ => "0"%string) report)
     = GenerateReport.split_lines
         (JsObject.join_with GenerateReport.newline
            (GenerateReport.header_lines (fun _ => "0"%string) report))
       ++ [ "t1,login fails,open,high,2025-01-02,Ann,Bob"%string;
            "t2,invoice,resolved,low,2025-01-03,Bob,"%string;
            "t3,slow page,resolved,null,2025-01-05,Cy,Ann"%string ].
Proof.
  cbv zeta.
  match goal with
  | |- Forall ?P ?l /\ _ =>
      assert (H : Forall P l) by (repeat constructor)
  end.
  split; [exact H|].
  exact (csv_one_line_per_ticket (fun _ => "0"%string) _ H).
Defined.

(** C8 as stated fails: a ticket whose subject holds a line break takes
    two lines of the text, so one ticket gives two detail lines. *)
Lemma csv_ticket_spanning_two_lines :
  let nts := fun _ : JsNumber.Number => "0"%string in
  GenerateReport.split_lines (GenerateReport.generateCsvReport nts GenerateReport.two_line_report)
  = GenerateReport.header_lines nts GenerateReport.two_line_report
    ++ [ "t1,printer"%string; "on fire,open,high,2025-01-02T10:00:00+00:00,Ann,"%string ]
  /\ List.length (GenerateReport.t_details (GenerateReport.tickets GenerateReport.two_line_report))
     = 1%nat
  /\ GenerateReport.split_lines (GenerateReport.generateCsvReport nts GenerateReport.two_line_report)
     <> GenerateReport.header_lines nts GenerateReport.two_line_report
        ++ map GenerateReport.ticket_line
             (GenerateReport.t_details (GenerateReport.tickets GenerateReport.two_line_report)).
Proof.
  cbv zeta. split; [vm_compute; reflexivity|]. split; [reflexivity|].
  vm_compute. discriminate.
Qed.

(** ** The text of the ticket filter (generate-report, line 146) *)

Section OrText.
Import GenerateReport.
Variables (ts_geb ts_leb : string -> string -> bool).









Lemma settle_run_fine {Row Out Rep} (summarize : option (list Out) -> Rep) db table
    (column : Row -> string -> option string) (project : Row -> Out) rows filters :
  fault db table filters = None ->
  settle summarize (run ts_geb ts_leb db table column project rows filters)
  = Normal (summarize (Some (map project (select_rows ts_geb ts_leb column filters rows)))).
Proof. intros H. unfold settle, run. rewrite H. reflexivity. Qed.


End OrText.



(** ** Templates (send-email) *)

Section TemplateFacts.
Import JsObject SendEmail.

Lemma span_word_run key rest :
  all_chars is_word_char key = true ->
  span_word (key +:+ String "}" rest) = (key, String "}" rest).
Proof.
  induction key as [|c key IH]; intros Hkey.
  - reflexivity.
  - cbn [all_chars] in Hkey. apply andb_true_iff in Hkey as [Hc Hkey].
    rewrite string_app_cons. cbn [span_word]. rewrite Hc, (IH Hkey). reflexivity.
Qed.

Lemma match_placeholder_hit key rest :
  well_formed (Placeholder key) = true ->
  match_placeholder (String "{" (String "{" (key +:+ String "}" (String "}" rest))))
  = Some (key, rest).
Proof.
  cbn [well_formed]. intros H. apply andb_true_iff in H as [Hne Hkey].
  cbn [match_placeholder].
  rewrite (span_word_run key (String "}" rest) Hkey).
  destruct key as [|c key]; [discriminate | reflexivity].
Qed.

Lemma replace_from_S fn k c t :
  replace_from fn (S k) (String c t) = replace_from fn k t.
Proof. reflexivity. Qed.

Lemma replace_from_0 fn c t :
  replace_from fn 0 (String c t)
  = match match_placeholder (String c t) with
    | Some (key, _) =>
        text ← fn ("{{" +:+ key +:+ "}}") key;
        rest ← replace_from fn (3 + String.length key) t;
        Normal (text +:+ rest)
    | None => rest ← replace_from fn 0 t; Normal (String c rest)
    end.
Proof. reflexivity. Qed.

Lemma bind_normal {A B} (a : A) (k : A -> Completion B) : (x ← Normal a; k x) = k a.
Proof. reflexivity. Qed.

Lemma bind_throw {A B} (e : JsError) (k : A -> Completion B) : (x ← Throw e; k x) = Throw e.
Proof. reflexivity. Qed.

Lemma bind_return {A} (c : Completion A) : (x ← c; Normal x) = c.
Proof. destruct c; reflexivity. Qed.

Lemma replace_from_skip fn (a : string) (n : nat) (rest : string) :
  replace_from fn (String.length a + n) (a +:+ rest) = replace_from fn n rest.
Proof.
  induction a as [|c a IH]; [reflexivity|].
  rewrite string_app_cons. cbn [String.length Nat.add replace_from]. exact IH.
Qed.

Lemma replace_from_literal fn s rest :
  well_formed (Literal s) = true ->
  replace_from fn 0 (s +:+ rest) = (out ← replace_from fn 0 rest; Normal (s +:+ out)).
Proof.
  cbn [well_formed]. induction s as [|c s IH]; intros Hs.
  - rewrite string_app_nil_l. symmetry. apply bind_return.
  - cbn [all_chars] in Hs. apply andb_true_iff in Hs as [Hc Hs].
    rewrite !string_app_cons, replace_from_0.
    assert (Hno : match_placeholder (String c (s +:+ rest)) = None).
    { unfold match_placeholder.
      destruct (Ascii.eqb_spec c "{") as [->|Hne]; [discriminate|].
      destruct c as [[] [] [] [] [] [] [] []]; try reflexivity. contradiction. }
    rewrite Hno, (IH Hs). destruct (replace_from fn 0 rest); reflexivity.
Qed.

Lemma print_placeholder key rest :
  print_segment (Placeholder key) +:+ rest
  = String "{" (String "{" (key +:+ String "}" (String "}" rest))).
Proof.
  cbn [print_segment]. rewrite !string_app_assoc.
  rewrite !string_app_cons, !string_app_nil_l. reflexivity.
Qed.

Lemma replace_from_placeholder fn key rest :
  well_formed (Placeholder key) = true ->
  replace_from fn 0 (print_segment (Placeholder key) +:+ rest)
  = (text ← fill_segment fn (Placeholder key);
     out ← replace_from fn 0 rest;
     Normal (text +:+ out)).
Proof.
  intros Hkey. rewrite print_placeholder, replace_from_0.
  rewrite (match_placeholder_hit key rest Hkey). cbn [fill_segment].
  change (3 + String.length key)%nat with (S (S (S (String.length key)))).
  rewrite replace_from_S.
  replace (S (S (String.length key))) with (String.length key + 2)%nat by lia.
  rewrite replace_from_skip, !replace_from_S. reflexivity.
Qed.

(** A body made of brace-free text and well-formed placeholders is
    rewritten segment by segment: text is copied, each placeholder gives
    what the replacer answers for it. *)
Theorem replace_placeholders_segments fn (gs : list Segment) :
  forallb well_formed gs = true ->
  replace_placeholders fn (print_segments gs) = fill_segments fn gs.
Proof.
  unfold replace_placeholders.
  induction gs as [|g gs IH]; intros Hwf; [reflexivity|].
  cbn [forallb] in Hwf. apply andb_true_iff in Hwf as [Hg Hgs].
  cbn [print_segments fill_segments]. destruct g as [s|key].
  - cbn [print_segment fill_segment].
    rewrite (replace_from_literal fn s _ Hg), (IH Hgs). reflexivity.
  - rewrite (replace_from_placeholder fn key _ Hg), (IH Hgs). reflexivity.
Qed.

(** Filling succeeds exactly when every segment can be filled. *)
Lemma fill_segments_normal fn (gs : list Segment) :
  (exists out, fill_segments fn gs = Normal out)
  <-> List.Forall (fun g => exists text, fill_segment fn g = Normal text) gs.
Proof.
  induction gs as [|g gs IH]; cbn [fill_segments].
  - split; [constructor | eauto].
  - split.
    + intros [out Hout]. destruct (fill_segment fn g) as [text|e] eqn:Hg; [|discriminate].
      rewrite bind_normal in Hout.
      destruct (fill_segments fn gs) as [more|e] eqn:Hgs; [|discriminate].
      constructor; [eauto | apply IH; eauto].
    + intros Hall. inversion Hall as [|? ? [text Hg] Hrest]; subst.
      apply IH in Hrest as [more Hmore]. rewrite Hg, Hmore. eauto.
Qed.

Lemma replace_placeholders_segments_witness :
  forallb well_formed [Literal "Hi "; Placeholder "name"; Literal ", bye"] = true
  /\ replace_placeholders (fun _ key => Normal key) "Hi {{name}}, bye"
     = Normal "Hi name, bye"%string.
Proof.
  assert (H : forallb well_formed [Literal "Hi "; Placeholder "name"; Literal ", bye"] = true)
    by reflexivity.
  split; [exact H|].
  exact (replace_placeholders_segments (fun _ key => Normal key)
           [Literal "Hi "; Placeholder "name"; Literal ", bye"] H).
Defined.

Variable NumberToString : JsNumber.Number -> string.

(** C3 (the code departs from the claim).  A name that is present with
    the value 0 or the empty string is not replaced, and a name that is
    absent from the mapping but inherited from [Object.prototype] is
    replaced by the text of a native function. *)
Theorem render_leaves_falsy_and_fills_inherited :
  renderTemplate NumberToString
    (JsStr "Tickets Resolved: {{ticketsResolved}} at {{location}} ({{valueOf}})")
    (<["ticketsResolved" := JsNum (JsNumber.of_Z 0)]> (<["location" := JsStr ""]> ∅))
  = Normal
      "Tickets Resolved: {{ticketsResolved}} at {{location}} (function valueOf() { [native code] })"%string.
Proof. vm_compute. reflexivity. Qed.

(** A value that is not an object always has a text. *)
Lemma ToString_primitive v :
  primitive v = true -> exists text, ToString NumberToString v = Normal text.
Proof. destruct v as [| |[]| | | | |]; cbn; intros H; try discriminate; eauto. Qed.

(** Where the renderer does what is claimed.  A body of brace-free text
    and well-formed placeholders is rendered segment by segment from left
    to right: text is copied; a placeholder whose name has a truthy own
    value gives the conversion of that value to a string, which is a text
    for every value that is not an object and a throw for an object with
    an own [toString]; a placeholder whose name is neither an own property
    nor an inherited one stays as it is.  The rendering gives a text
    exactly when every placeholder does, and throws otherwise. *)
Theorem render_segments (gs : list Segment) (data : gmap string JsValue) :
  forallb well_formed gs = true ->
  renderTemplate NumberToString (JsStr (print_segments gs)) data
  = fill_segments (replacer NumberToString data) gs
  /\ (forall key v, data !! key = Some v -> truthy v = true ->
        fill_segment (replacer NumberToString data) (Placeholder key)
        = ToString NumberToString v)
  /\ (forall v, primitive v = true -> exists text, ToString NumberToString v = Normal text)
  /\ (forall props, In "toString"%string (map fst props) ->
        ToString NumberToString (JsObj props) = Throw cannot_convert)
  /\ (forall key, data !! key = None -> inherited key = JsUndefined ->
        fill_segment (replacer NumberToString data) (Placeholder key)
        = Normal (print_segment (Placeholder key)))
  /\ ((exists out, renderTemplate NumberToString (JsStr (print_segments gs)) data = Normal out)
      <-> forall key, In (Placeholder key) gs ->
            exists text,
              replacer NumberToString data (print_segment (Placeholder key)) key = Normal text).
Proof.
  intros Hwf.
  assert (Hrender : renderTemplate NumberToString (JsStr (print_segments gs)) data
                    = fill_segments (replacer NumberToString data) gs).
  { cbn [renderTemplate]. apply replace_placeholders_segments. exact Hwf. }
  split; [exact Hrender|]. split; [|split; [|split; [|split]]].
  - intros key v Hv Ht. cbn [fill_segment]. unfold replacer, get. rewrite Hv, Ht. reflexivity.
  - exact ToString_primitive.
  - intros props Hin. cbn [ToString].
    assert (Hex : existsb (fun p => String.eqb (fst p) "toString") props = true).
    { apply in_map_iff in Hin as (p & Hp & Hin). apply existsb_exists. exists p.
      split; [exact Hin | now apply String.eqb_eq]. }
    rewrite Hex. reflexivity.
  - intros key Hk Hi. cbn [fill_segment print_segment]. unfold replacer, get.
    rewrite Hk, Hi. reflexivity.
  - rewrite Hrender, fill_segments_normal, List.Forall_forall. split.
    + intros Hall key Hin. exact (Hall (Placeholder key) Hin).
    + intros Hall [s|key] Hin; [cbn [fill_segment]; eauto | exact (Hall key Hin)].
Qed.

(** The throw path: an object value with an own [toString] has no text,
    and the rendering throws. *)
Lemma render_object_with_own_toString_throws :
  renderTemplate NumberToString (JsStr "Hi {{name}}")
    (<["name" := JsObj [("toString", JsNum (JsNumber.of_Z 1))]]> ∅)
  = Throw cannot_convert.
Proof. vm_compute. reflexivity. Qed.

(** C10 (the code departs from the claim).  [constructor] is not one of
    the four templates, yet the table lookup finds the inherited function
    under that name; its [subject] is undefined and rendering throws, so
    the request fails instead of passing the caller's fields through. *)
Theorem inherited_template_name_fails (w t a r : EmailTemplate) recipients subj h txt data :
  handler NumberToString (templates_object w t a r) "POST"
    (SendEmail.mkRequest recipients subj h txt (Some "constructor"%string) data)
  = (None,
     Http.mkResponse 500 Http.json_headers
       (EmailFailed "Cannot read properties of undefined (reading 'replace')")).
Proof. reflexivity. Qed.

(** The module itself: initialising the table evaluates the weekly-report
    literals, whose dollar-brace sequence is a substitution of the unbound
    name [revenue]; the module body throws before [serve] is reached. *)
Theorem templates_init_throws :
  templates_init = Throw (ReferenceError "revenue is not defined")
  /\ forall nts method req,
       serve nts method req = Throw (ReferenceError "revenue is not defined").
Proof.
  assert (H : templates_init = Throw (ReferenceError "revenue is not defined"))
    by (vm_compute; reflexivity).
  split; [exact H|]. intros nts method req. unfold serve. rewrite H. reflexivity.
Qed.

(** Where the handler does what is claimed: without a template name, or
    with a name that is neither in the table nor inherited, the caller's
    three fields go out unchanged. *)
Theorem unknown_template_passes_through (templates : gmap string EmailTemplate)
    method recipients subj h txt name data :
  method <> "OPTIONS"%string ->
  (name = None
   \/ exists n, name = Some n /\ templates !! n = None /\ inherited n = JsUndefined) ->
  handler NumberToString templates method
    (SendEmail.mkRequest recipients subj h txt name data)
  = (Some (mkEmail recipients subj h txt),
     Http.mkResponse 200 Http.json_headers (EmailSent (recipients_count recipients))).
Proof.
  intros Hmethod Hname. unfold handler.
  destruct (String.eqb_spec method "OPTIONS") as [|_]; [contradiction|].
  destruct Hname as [-> | (n & -> & Hn & Hi)]; unfold compose; cbn [template JsObject.string_truthy].
  - reflexivity.
  - cbn [default]. unfold Datatypes.id, templates_get. rewrite Hn, Hi.
    cbn [truthy]. rewrite andb_false_r. reflexivity.
Qed.

End TemplateFacts.

Lemma render_segments_witness :
  let gs := [SendEmail.Literal "Hi "; SendEmail.Placeholder "name";
             SendEmail.Literal ", see "; SendEmail.Placeholder "loginUrl"] in
  let data : gmap string JsObject.JsValue := <["name" := JsObject.JsStr "Ann"]> ∅ in
  forallb SendEmail.well_formed gs = true
  /\ SendEmail.renderTemplate (fun _ => "0"%string) (JsObject.JsStr (SendEmail.print_segments gs)) data
     = Normal "Hi Ann, see {{loginUrl}}"%string.
Proof.
  cbv zeta.
  assert (H : forallb SendEmail.well_formed
                [SendEmail.Literal "Hi "; SendEmail.Placeholder "name";
                 SendEmail.Literal ", see "; SendEmail.Placeholder "loginUrl"] = true)
    by reflexivity.
  split; [exact H|].
  rewrite (proj1 (render_segments (fun _ => "0"%string) _
                    (<["name" := JsObject.JsStr "Ann"]> ∅) H)).
  vm_compute. reflexivity.
Defined.

Lemma unknown_template_passes_through_witness :
  SendEmail.handler (fun _ => "0"%string)
    (SendEmail.templates_object (SendEmail.mkTemplate "s" "h" "t") (SendEmail.mkTemplate "s" "h" "t")
       (SendEmail.mkTemplate "s" "h" "t") (SendEmail.mkTemplate "s" "h" "t"))
    "POST"
    (SendEmail.mkRequest (SendEmail.OneAddress "a@b.c") (Some "Hi"%string) None
       (Some "hello"%string) (Some "newsletter"%string) None)
  = (Some (SendEmail.mkEmail (SendEmail.OneAddress "a@b.c") (Some "Hi"%string) None
             (Some "hello"%string)),
     Http.mkResponse 200 Http.json_headers (SendEmail.EmailSent 1)).
Proof.
  refine (unknown_template_passes_through (fun _ => "0"%string) _ "POST" _ _ _ _ _ _ _ _).
  - discriminate.
  - right. exists "newsletter"%string. repeat split; reflexivity.
Defined.

(** ** The assembled report (generate-report, the success path) *)

Section AssemblyFacts.
Import GenerateReport.
Variables (ts_geb ts_leb : string -> string -> bool).
Variable LocalTZA : Z.
Variable NumberToString : JsNumber.Number -> string.

Lemma settle_run_ok {Row Out Rep} (summarize : option (list Out) -> Rep) db table
    (column : Row -> string -> option string) (project : Row -> Out) rows filters :
  fault db table filters = None ->
  settle summarize (run ts_geb ts_leb db table column project rows filters)
  = Normal (summarize (Some (map project (select_rows ts_geb ts_leb column filters rows)))).
Proof. intros H. unfold settle, run. rewrite H. reflexivity. Qed.

Lemma handler_success db rank clock method req sd ed :
  method <> "OPTIONS"%string ->
  resolveDateRange LocalTZA (now clock) req = Normal (sd, ed) ->
  (forall a, query_error db sd ed (userId req) a = None) ->
  Z.abs (generated clock) <= JsDate.maxTime ->
  let uid := userId req in
  let t := summarizeTickets
             (Some (map (ticket_row db)
                      (select_rows ts_geb ts_leb ticket_column (ticket_filters sd ed uid)
                         (table_tickets db)))) in
  let c := summarizeContacts
             (Some (select_rows ts_geb ts_leb contact_column
                      (creator_filters "created_at" sd ed uid) (table_contacts db))) in
  let d := summarizeDeals
             (Some (map (deal_row db)
                      (select_rows ts_geb ts_leb deal_column
                         (creator_filters "created_at" sd ed uid) (table_deals db)))) in
  let a := summarizeAppointments
             (Some (select_rows ts_geb ts_leb appointment_column
                      (creator_filters "start_time" sd ed uid) (table_appointments db))) in
  let report :=
    mkReport (mkMeta (type req) sd ed (JsDate.isoString (generated clock)) uid)
      (mkSummary (t_total t) (t_resolved t) (c_new c) (d_revenue d) (a_completed a))
      t c d a in
  handler ts_geb ts_leb LocalTZA NumberToString db rank clock method req
  = if String.eqb (default "json"%string (format req)) "csv"
    then Http.mkResponse 200 (csv_headers (type req) (stamp clock))
           (TextBody (generateCsvReport NumberToString report))
    else if String.eqb (default "json"%string (format req)) "pdf"
    then Http.mkResponse 200 Http.json_headers (ReportJson report (Some pdf_note))
    else Http.mkResponse 200 Http.json_headers (ReportJson report None).
Proof.
  intros Hmethod Hwindow Hok Hgen. cbv zeta.
  unfold handler. destruct (String.eqb_spec method "OPTIONS") as [|_]; [contradiction|].
  unfold assemble. rewrite Hwindow. cbn [mbind Completion_bind].
  unfold generateTicketReport, generateContactReport, generateDealReport,
    generateAppointmentReport.
  rewrite (settle_run_ok summarizeTickets) by exact (Hok Tickets).
  rewrite (settle_run_ok summarizeContacts) by exact (Hok Contacts).
  rewrite (settle_run_ok summarizeDeals) by exact (Hok Deals).
  rewrite (settle_run_ok summarizeAppointments) by exact (Hok Appointments).
  rewrite !map_id.
  unfold Promise_all, earliest. cbn [rejection fold_left fst snd mbind Completion_bind].
  unfold JsDate.Date_of_value. rewrite (TimeClip_in_range _ Hgen).
  cbn [toISOString mbind Completion_bind]. cbv zeta.
  destruct (String.eqb (default "json"%string (format req)) "csv"); [reflexivity|].
  destruct (String.eqb (default "json"%string (format req)) "pdf"); reflexivity.
Qed.

(** When no query fails, the response carries the whole document: the
    four summaries of the rows selected for the same window and user, the
    five headline numbers copied from them, and the request echoed in
    [meta]; the format only chooses the encoding. *)
Theorem report_assembled_from_four_summaries db rank clock method req sd ed :
  method <> "OPTIONS"%string ->
  resolveDateRange LocalTZA (now clock) req = Normal (sd, ed) ->
  (forall a, query_error db sd ed (userId req) a = None) ->
  Z.abs (generated clock) <= JsDate.maxTime ->
  let uid := userId req in
  let t := summarizeTickets
             (Some (map (ticket_row db)
                      (select_rows ts_geb ts_leb ticket_column (ticket_filters sd ed uid)
                         (table_tickets db)))) in
  let c := summarizeContacts
             (Some (select_rows ts_geb ts_leb contact_column
                      (creator_filters "created_at" sd ed uid) (table_contacts db))) in
  let d := summarizeDeals
             (Some (map (deal_row db)
                      (select_rows ts_geb ts_leb deal_column
                         (creator_filters "created_at" sd ed uid) (table_deals db)))) in
  let a := summarizeAppointments
             (Some (select_rows ts_geb ts_leb appointment_column
                      (creator_filters "start_time" sd ed uid) (table_appointments db))) in
  let report :=
    mkReport (mkMeta (type req) sd ed (JsDate.isoString (generated clock)) uid)
      (mkSummary (t_total t) (t_resolved t) (c_new c) (d_revenue d) (a_completed a))
      t c d a in
  handler ts_geb ts_leb LocalTZA NumberToString db rank clock method req
  = if String.eqb (default "json"%string (format req)) "csv"
    then Http.mkResponse 200 (csv_headers (type req) (stamp clock))
           (TextBody (generateCsvReport NumberToString report))
    else if String.eqb (default "json"%string (format req)) "pdf"
    then Http.mkResponse 200 Http.json_headers (ReportJson report (Some pdf_note))
    else Http.mkResponse 200 Http.json_headers (ReportJson report None).
Proof.
  intros Hmethod Hwindow Hok Hgen.
  exact (handler_success db rank clock method req sd ed Hmethod Hwindow Hok Hgen).
Qed.

End AssemblyFacts.

(** The CSV scenario of the specification: a custom window over three
    tickets, two of them resolved, and no deals. *)
Theorem csv_scenario_three_tickets LocalTZA NumberToString rank clock :
  NumberToString (JsNumber.of_Z 0) = "0"%string ->
  Z.abs (GenerateReport.generated clock) <= JsDate.maxTime ->
  exists header,
    GenerateReport.handler (fun _ _ => true) (fun _ _ => true) LocalTZA NumberToString GenerateReport.sample_db rank clock
      "POST"
      (GenerateReport.mkRequest "custom" (Some "2025-01-01T00:00:00Z")
         (Some "2025-01-31T23:59:59Z") None (Some "csv"))
    = Http.mkResponse 200 (GenerateReport.csv_headers "custom" (GenerateReport.stamp clock))
        (GenerateReport.TextBody
           (JsObject.join_with GenerateReport.newline
              (header
               ++ [ "t1,login fails,open,high,2025-01-02,Ann,Bob"%string;
                    "t2,invoice,resolved,low,2025-01-03,Bob,"%string;
                    "t3,slow page,resolved,null,2025-01-05,Cy,Ann"%string ])))
    /\ List.length header = 15%nat
    /\ In "Total Tickets,3"%string header
    /\ In "Resolved Tickets,2"%string header
    /\ In "Total Revenue,$0"%string header.
Proof.
  intros Hzero Hgen.
  eexists. split.
  - rewrite (handler_success (fun _ _ => true) (fun _ _ => true)
               LocalTZA NumberToString GenerateReport.sample_db rank clock "POST" _
               (Some "2025-01-01T00:00:00Z"%string) (Some "2025-01-31T23:59:59Z"%string));
      [|discriminate|reflexivity|intros []; reflexivity|exact Hgen].
    cbv zeta. cbn [GenerateReport.format default]. unfold Datatypes.id.
    change ("csv" =? "csv")%string with true. cbv iota.
    unfold GenerateReport.generateCsvReport. rewrite csv_lines_are. reflexivity.
  - unfold GenerateReport.header_lines.
    cbn [GenerateReport.summary GenerateReport.totalTickets GenerateReport.resolvedTickets
         GenerateReport.totalRevenue].
    split; [reflexivity|].
    split; [do 7 right; left; reflexivity|].
    split; [do 8 right; left; reflexivity|].
    do 10 right; left.
    match goal with
    | |- context [NumberToString ?x] => change x with (JsNumber.of_Z 0)
    end.
    rewrite Hzero. reflexivity.
Qed.


Lemma report_assembled_from_four_summaries_witness :
  let clock := GenerateReport.mkClock 1743422400000 1743422400001 1743422400002 in
  exists report,
    GenerateReport.handler (fun _ _ => true) (fun _ _ => true) 0 (fun _ => "0"%string)
      GenerateReport.sample_db (fun _ => 0%nat) clock "POST"
      (GenerateReport.mkRequest "custom" None None (Some "u1"%string) (Some "pdf"%string))
    = Http.mkResponse 200 Http.json_headers
        (GenerateReport.ReportJson report (Some GenerateReport.pdf_note))
    /\ GenerateReport.totalTickets (GenerateReport.summary report) = 2%nat
    /\ GenerateReport.newContacts (GenerateReport.summary report) = 1%nat.
Proof.
  cbv zeta. eexists. split.
  - refine (report_assembled_from_four_summaries (fun _ _ => true) (fun _ _ => true) 0
              (fun _ => "0"%string) GenerateReport.sample_db (fun _ => 0%nat) _ "POST"
              (GenerateReport.mkRequest "custom" None None (Some "u1"%string)
                 (Some "pdf"%string)) None None _ _ _ _).
    + discriminate.
    + reflexivity.
    + intros []; reflexivity.
    + vm_compute. discriminate.
  - split; reflexivity.
Defined.

Lemma csv_scenario_three_tickets_witness :
  let clock := GenerateReport.mkClock 1743422400000 1743422400001 1743422400002 in
  exists header,
    GenerateReport.handler (fun _ _ => true) (fun _ _ => true) 0 (fun _ => "0"%string)
      GenerateReport.sample_db (fun _ => 0%nat) clock "POST"
      (GenerateReport.mkRequest "custom" (Some "2025-01-01T00:00:00Z")
         (Some "2025-01-31T23:59:59Z") None (Some "csv"))
    = Http.mkResponse 200 (GenerateReport.csv_headers "custom" 1743422400002)
        (GenerateReport.TextBody
           (JsObject.join_with GenerateReport.newline
              (header
               ++ [ "t1,login fails,open,high,2025-01-02,Ann,Bob"%string;
                    "t2,invoice,resolved,low,2025-01-03,Bob,"%string;
                    "t3,slow page,resolved,null,2025-01-05,Cy,Ann"%string ])))
    /\ List.length header = 15%nat
    /\ In "Total Tickets,3"%string header
    /\ In "Resolved Tickets,2"%string header
    /\ In "Total Revenue,$0"%string header.
Proof.
  cbv zeta.
  refine (csv_scenario_three_tickets 0 (fun _ => "0"%string) (fun _ => 0%nat)
            (GenerateReport.mkClock 1743422400000 1743422400001 1743422400002) _ _).
  - reflexivity.
  - vm_compute. discriminate.
Defined.

(** ** The rate on tables of bounded size *)

Section RateFacts.
Import GenerateReport.

Lemma same_number_eq x y : same_number x y = true -> x = y.
Proof.
  destruct x as [a|a| |a m e], y as [b|b| |b n f]; cbn [same_number]; try discriminate.
  - intros H. apply Bool.eqb_prop in H. now subst.
  - intros H. apply Bool.eqb_prop in H. now subst.
  - reflexivity.
  - intros H. apply andb_true_iff in H as [H He]. apply andb_true_iff in H as [Hs Hm].
    apply Bool.eqb_prop in Hs. apply Pos.eqb_eq in Hm. apply Z.eqb_eq in He. now subst.
Qed.

Lemma rates_close_sound n part total :
  rates_close_up_to n = true ->
  (0 < total <= n)%nat -> (part <= total)%nat -> rate_close part total = true.
Proof.
  intros H Ht Hp. unfold rates_close_up_to in H.
  rewrite forallb_forall in H.
  specialize (H total ltac:(apply in_seq; lia)).
  rewrite forallb_forall in H. apply H. apply in_seq. lia.
Qed.

Lemma rates_close_100 : rates_close_up_to 100 = true.
Proof. vm_compute. reflexivity. Qed.

Lemma percent_rounded_bounds part total :
  0 <= part <= total -> 0 < total ->
  0 <= percent_rounded part total <= 100
  /\ (percent_tie part total = true -> 1 <= percent_rounded part total).
Proof.
  intros Hp Ht. unfold percent_rounded, percent_tie. split.
  - split.
    + apply Z.div_pos; lia.
    + assert ((200 * part + total) / (2 * total) < 101)
        by (apply Z.div_lt_upper_bound; lia).
      lia.
  - intros Htie. apply Z.eqb_eq in Htie.
    apply Z.div_le_lower_bound; [lia|].
    assert (0 <= (200 * part) mod (2 * total) <= 200 * part)
      by (split; [apply Z.mod_pos_bound; lia | apply Z.mod_le; lia]).
    lia.
Qed.

(** For up to 100 deals: the conversion rate is a whole number between 0
    and 100, it is 0 without deals, and otherwise it is the exactly
    rounded percentage of won deals, or one less when that percentage is
    a tie between two integers. *)
Theorem conversion_rate_small_tables (rows : list DealRow) :
  (List.length rows <= 100)%nat ->
  let report := summarizeDeals (Some rows) in
  let won := Z.of_nat (d_won report) in
  let total := Z.of_nat (d_total report) in
  exists k,
    d_conversionRate report = JsNumber.of_Z k
    /\ 0 <= k <= 100
    /\ (total = 0 -> k = 0)
    /\ (0 < total ->
        k = percent_rounded won total
        \/ (percent_tie won total = true /\ k = percent_rounded won total - 1)).
Proof.
  intros Hlen. cbv zeta. unfold summarizeDeals.
  cbn [default d_conversionRate d_won d_total]. unfold Datatypes.id.
  set (won := count_where
                (fun d => is_status deal_stage_label (deal_stage_of (deal d)) "closed-won") rows).
  assert (Hwon : (won <= List.length rows)%nat) by (apply filter_length_le).
  destruct (List.length rows) as [|n] eqn:Hn.
  - exists 0. split; [reflexivity|]. split; [lia|]. split; [reflexivity | lia].
  - pose proof (rates_close_sound 100 won (S n) rates_close_100 ltac:(lia) Hwon) as Hclose.
    destruct (percent_rounded_bounds (Z.of_nat won) (Z.of_nat (S n)) ltac:(lia) ltac:(lia))
      as [Hb Htie].
    unfold rate_close in Hclose. cbv zeta in Hclose.
    apply orb_true_iff in Hclose as [Heq | Hnear].
    + exists (percent_rounded (Z.of_nat won) (Z.of_nat (S n))).
      split; [now apply same_number_eq|]. split; [exact Hb|]. split; [lia | tauto].
    + apply andb_true_iff in Hnear as [Ht Heq].
      exists (percent_rounded (Z.of_nat won) (Z.of_nat (S n)) - 1).
      split; [now apply same_number_eq|]. specialize (Htie Ht).
      split; [lia|]. split; [lia | tauto].
Qed.

End RateFacts.

Lemma conversion_rate_small_tables_witness :
  exists k,
    GenerateReport.d_conversionRate (GenerateReport.summarizeDeals (Some GenerateReport.forty_deals))
    = JsNumber.of_Z k
    /\ 0 <= k <= 100
    /\ (40 = 0 -> k = 0)
    /\ (0 < 40 ->
        k = GenerateReport.percent_rounded 23 40
        \/ (GenerateReport.percent_tie 23 40 = true
            /\ k = GenerateReport.percent_rounded 23 40 - 1)).
Proof.
  refine (conversion_rate_small_tables GenerateReport.forty_deals _).
  vm_compute. lia.
Defined.

(** ** The placeholder scan on arbitrary bodies (send-email) *)

Section ScanFacts.
Import JsObject SendEmail.

Lemma span_word_spec s :
  let '(w, r) := span_word s in
  s = w +:+ r /\ all_chars is_word_char w = true.
Proof.
  induction s as [|c s IH]; [split; reflexivity|].
  cbn [span_word]. destruct (is_word_char c) eqn:Hc.
  - destruct (span_word s) as [w r]. destruct IH as [-> Hw].
    split; [reflexivity|]. cbn [all_chars]. now rewrite Hc, Hw.
  - split; reflexivity.
Qed.

(** A match at the head of [s] is an occurrence of the pattern there. *)
Lemma match_placeholder_sound s key rest :
  match_placeholder s = Some (key, rest) ->
  s = String "{" (String "{" (key +:+ String "}" (String "}" rest)))
  /\ well_formed (Placeholder key) = true.
Proof.
  unfold match_placeholder.
  destruct s as [|c0 s]; [discriminate|].
  destruct (Ascii.eqb_spec c0 "{") as [->|Hne];
    [|destruct c0 as [[] [] [] [] [] [] [] []]; try discriminate; contradiction].
  destruct s as [|c1 s]; [discriminate|].
  destruct (Ascii.eqb_spec c1 "{") as [->|Hne];
    [|destruct c1 as [[] [] [] [] [] [] [] []]; try discriminate; contradiction].
  pose proof (span_word_spec s) as Hspan.
  destruct (span_word s) as [w r]. destruct Hspan as [-> Hw].
  destruct w as [|c w]; [discriminate|].
  destruct r as [|r0 r]; [discriminate|].
  destruct (Ascii.eqb_spec r0 "}") as [->|Hne];
    [|destruct r0 as [[] [] [] [] [] [] [] []]; try discriminate; contradiction].
  destruct r as [|r1 r]; [discriminate|].
  destruct (Ascii.eqb_spec r1 "}") as [->|Hne];
    [|destruct r1 as [[] [] [] [] [] [] [] []]; try discriminate; contradiction].
  intros [= <- <-]. split; [reflexivity|].
  cbn [well_formed]. rewrite Hw. reflexivity.
Qed.

Lemma drop_chars_S k c t : drop_chars (S k) (String c t) = drop_chars k t.
Proof. reflexivity. Qed.

Lemma drop_chars_app (a rest : string) (n : nat) :
  drop_chars (String.length a + n) (a +:+ rest) = drop_chars n rest.
Proof.
  induction a as [|c a IH]; [reflexivity|].
  rewrite string_app_cons. cbn [String.length Nat.add]. rewrite drop_chars_S. exact IH.
Qed.

(** The replacer is consulted for the scanned names only. *)
Lemma replace_from_ext fn fn' s : forall n,
  (forall key, In key (placeholders_from n s) ->
     fn ("{{" +:+ key +:+ "}}") key = fn' ("{{" +:+ key +:+ "}}") key) ->
  replace_from fn n s = replace_from fn' n s.
Proof.
  induction s as [|c t IH]; intros n Hagree; [reflexivity|].
  destruct n as [|k].
  - rewrite !replace_from_0. cbn [placeholders_from] in Hagree.
    destruct (match_placeholder (String c t)) as [[key rest]|].
    + rewrite (Hagree key (or_introl eq_refl)).
      rewrite (IH (3 + String.length key)%nat)
        by (intros k Hk; apply Hagree; right; exact Hk).
      reflexivity.
    + rewrite (IH 0%nat) by exact Hagree. reflexivity.
  - rewrite !replace_from_S. apply IH. exact Hagree.
Qed.

(** With a replacer that answers every match by the match itself, the
    scan reproduces its input, from any offset. *)
Lemma replace_from_match fn s : forall n,
  (forall key, In key (placeholders_from n s) ->
     fn ("{{" +:+ key +:+ "}}") key = Normal ("{{" +:+ key +:+ "}}")) ->
  replace_from fn n s = Normal (drop_chars n s).
Proof.
  induction s as [|c t IH]; intros n Hsame; [destruct n; reflexivity|].
  destruct n as [|k].
  - rewrite replace_from_0. cbn [placeholders_from drop_chars] in *.
    destruct (match_placeholder (String c t)) as [[key rest]|] eqn:Hm.
    + rewrite (Hsame key (or_introl eq_refl)).
      rewrite (IH (3 + String.length key)%nat)
        by (intros k Hk; apply Hsame; right; exact Hk).
      rewrite !bind_normal. f_equal.
      apply match_placeholder_sound in Hm as [Heq _].
      injection Heq as -> ->.
      change (3 + String.length key)%nat with (S (S (S (String.length key)))).
      rewrite drop_chars_S.
      replace (S (S (String.length key))) with (String.length key + 2)%nat by lia.
      rewrite drop_chars_app, !drop_chars_S. change (drop_chars 0 rest) with rest.
      rewrite !string_app_cons, !string_app_nil_l.
      rewrite string_app_assoc, !string_app_cons, !string_app_nil_l. reflexivity.
    + rewrite (IH 0%nat) by exact Hsame. destruct t; reflexivity.
  - rewrite replace_from_S. cbn [placeholders_from drop_chars] in *. apply IH. exact Hsame.
Qed.

Variable NumberToString : JsNumber.Number -> string.

(** Rendering looks at the mapping only under the names that occur as
    placeholders in the body: two mappings that give the same value for
    each of them give the same text. *)
Theorem render_reads_only_placeholders (body : string) (data data' : gmap string JsValue) :
  (forall key, In key (placeholders body) -> get data key = get data' key) ->
  renderTemplate NumberToString (JsStr body) data
  = renderTemplate NumberToString (JsStr body) data'.
Proof.
  intros Hagree. cbn [renderTemplate]. unfold replace_placeholders.
  apply replace_from_ext. intros key Hkey. unfold replacer.
  rewrite (Hagree key Hkey). reflexivity.
Qed.

(** A body comes back unchanged when none of its placeholders has a
    truthy value in the mapping (own or inherited); in particular a body
    without placeholders is never altered. *)
Theorem render_without_values_is_identity (body : string) (data : gmap string JsValue) :
  (forall key, In key (placeholders body) -> truthy (get data key) = false) ->
  renderTemplate NumberToString (JsStr body) data = Normal body.
Proof.
  intros Hfalsy. cbn [renderTemplate]. unfold replace_placeholders.
  rewrite replace_from_match; [destruct body; reflexivity|].
  intros key Hkey. unfold replacer. rewrite (Hfalsy key Hkey). reflexivity.
Qed.

(** Every scanned name is a non-empty run of word characters. *)
Lemma placeholders_from_well_formed s : forall n key,
  In key (placeholders_from n s) -> well_formed (Placeholder key) = true.
Proof.
  induction s as [|c t IH]; intros n key Hin; [destruct Hin|].
  destruct n as [|k]; cbn [placeholders_from] in Hin.
  - destruct (match_placeholder (String c t)) as [[k0 rest]|] eqn:Hm.
    + destruct Hin as [<-|Hin]; [|exact (IH _ _ Hin)].
      exact (proj2 (match_placeholder_sound _ _ _ Hm)).
    + exact (IH _ _ Hin).
  - exact (IH _ _ Hin).
Qed.

Lemma replace_from_copy fn c t :
  match_placeholder (String c t) = None ->
  replace_from fn 0 (String c t) = (out ← replace_from fn 0 t; Normal (String c out)).
Proof. intros H. rewrite replace_from_0, H. reflexivity. Qed.

Lemma replace_from_word_run fn key rest :
  all_chars is_word_char key = true ->
  replace_from fn 0 (key +:+ rest) = (out ← replace_from fn 0 rest; Normal (key +:+ out)).
Proof.
  intros Hkey. apply replace_from_literal. cbn [well_formed].
  induction key as [|c key IH]; [reflexivity|].
  cbn [all_chars] in *. apply andb_true_iff in Hkey as [Hc Hk].
  rewrite (IH Hk), andb_true_r.
  destruct (Ascii.eqb_spec c "{") as [->|]; [discriminate | reflexivity].
Qed.

(** The renderer has no conditional blocks: the opening marker of a
    block (for a name of word characters) and the closing marker are
    copied to the output like any other text, and rendering goes on
    behind them (whatever the replacer answers or throws there). *)
Theorem conditional_markers_are_copied fn key rest :
  all_chars is_word_char key = true ->
  replace_placeholders fn (if_marker key +:+ rest)
  = (out ← replace_placeholders fn rest; Normal (if_marker key +:+ out))
  /\ replace_placeholders fn (endif_marker +:+ rest)
     = (out ← replace_placeholders fn rest; Normal (endif_marker +:+ out)).
Proof.
  intros Hkey. unfold replace_placeholders, if_marker, endif_marker. split.
  - rewrite !string_app_assoc, !string_app_cons, !string_app_nil_l.
    do 6 (rewrite replace_from_copy by reflexivity).
    rewrite replace_from_word_run by exact Hkey.
    do 2 (rewrite replace_from_copy by reflexivity).
    destruct (replace_from fn 0 rest) as [out|e]; [|reflexivity].
    rewrite !bind_normal. f_equal.
    rewrite !string_app_cons, string_app_assoc. reflexivity.
  - rewrite !string_app_cons, !string_app_nil_l.
    do 7 (rewrite replace_from_copy by reflexivity).
    destruct (replace_from fn 0 rest) as [out|e]; reflexivity.
Qed.

End ScanFacts.

(** ** More on the summaries (generate-report) *)

Section MoreSummaryFacts.
Import GenerateReport.

Lemma occurrences_is_status {Row A} (label : A -> string) (proj : Row -> option A)
    (wanted : string) (rows : list Row) :
  wanted <> "null"%string ->
  occurrences (fun r => key_of label (proj r)) wanted rows
  = count_where (fun r => is_status label (proj r) wanted) rows.
Proof.
  intros Hw. unfold occurrences, count_where. f_equal. apply filter_ext. intros r.
  unfold key_of, is_status. destruct (proj r); [reflexivity|].
  destruct (String.eqb_spec "null" wanted); [congruence | reflexivity].
Qed.

Lemma count_where_le {Row} (p : Row -> bool) rows : (count_where p rows <= List.length rows)%nat.
Proof. apply filter_length_le. Qed.

Lemma count_where_disjoint {Row} (p q : Row -> bool) rows :
  (forall r, p r = true -> q r = false) ->
  (count_where p rows + count_where q rows <= List.length rows)%nat.
Proof.
  intros Hpq. unfold count_where.
  induction rows as [|r rows IH]; cbn [List.filter List.length]; [lia|].
  destruct (p r) eqn:Hp.
  - rewrite (Hpq r Hp). cbn [List.length]. lia.
  - destruct (q r); cbn [List.length]; lia.
Qed.

(** The ticket report's [resolved] agrees with its [byStatus]: the entry
    under [resolved] is that count, and is missing exactly when the count
    is zero; [resolved] never exceeds [total]. *)
Theorem resolved_agrees_with_byStatus (data : option (list TicketRow)) :
  let report := summarizeTickets data in
  (t_resolved report <= t_total report)%nat
  /\ t_byStatus report !! "resolved"%string
     = (if (t_resolved report =? 0)%nat then None else Some (t_resolved report))
  /\ t_details report = default [] data.
Proof.
  cbv zeta. unfold summarizeTickets. cbn [t_resolved t_total t_byStatus t_details].
  split; [apply count_where_le|]. split; [|reflexivity].
  rewrite lookup_count_by.
  rewrite (occurrences_is_status ticket_status_label status) by discriminate.
  reflexivity.
Qed.

(** Distinct contact statuses, the missing one included, have distinct
    keys. *)
Lemma contact_status_key_injective (v w : option contact_status) :
  key_of contact_status_label v = key_of contact_status_label w -> v = w.
Proof. destruct v as [[]|], w as [[]|]; cbn; intros H; try reflexivity; discriminate. Qed.

(** The contact report: [new] is the number of rows, [byStatus] has an
    entry exactly for the statuses that occur (a row without status under
    [null]), each entry the positive number of rows with it, and the
    entries add up to [new].  Distinct statuses have distinct keys, so
    there is one entry per status that occurs: the entry of a status is
    the number of rows with that status, and every key is the key of the
    status of some row. *)
Theorem contact_report_counts (rows : list Contact) :
  let report := summarizeContacts (Some rows) in
  let key := fun c => key_of contact_status_label (contact_status_of c) in
  c_new report = List.length rows
  /\ c_details report = rows
  /\ sum_values (c_byStatus report) = c_new report
  /\ (forall k, c_byStatus report !! k
                = if (occurrences key k rows =? 0)%nat then None
                  else Some (occurrences key k rows))
  /\ (forall k, is_Some (c_byStatus report !! k) <-> exists c, In c rows /\ key c = k)
  /\ (forall v w : option contact_status,
        key_of contact_status_label v = key_of contact_status_label w -> v = w)
  /\ (forall v : option contact_status,
        c_byStatus report !! key_of contact_status_label v
        = if (rows_with_status contact_status_of v rows =? 0)%nat then None
          else Some (rows_with_status contact_status_of v rows))
  /\ (forall k, is_Some (c_byStatus report !! k) ->
        exists c, In c rows /\ k = key_of contact_status_label (contact_status_of c)
                  /\ c_byStatus report !! k
                     = Some (rows_with_status contact_status_of (contact_status_of c) rows)).
Proof.
  cbv zeta. unfold summarizeContacts. cbn [default c_new c_details c_byStatus].
  unfold Datatypes.id.
  assert (Hkeys : forall k,
             is_Some (count_by (fun c => key_of contact_status_label (contact_status_of c)) rows
                        !! k)
             <-> exists c, In c rows /\ key_of contact_status_label (contact_status_of c) = k).
  { intros k. rewrite lookup_count_by, <- occurrences_pos.
    destruct (Nat.eqb_spec
                (occurrences (fun c => key_of contact_status_label (contact_status_of c)) k rows)
                0) as [Hz|Hz].
    - rewrite Hz. split; [intros [x Hx]; discriminate | lia].
    - split; [lia | eauto]. }
  assert (Hstatus : forall v : option contact_status,
             count_by (fun c => key_of contact_status_label (contact_status_of c)) rows
               !! key_of contact_status_label v
             = if (rows_with_status contact_status_of v rows =? 0)%nat then None
               else Some (rows_with_status contact_status_of v rows)).
  { intros v. rewrite lookup_count_by.
    rewrite (rows_with_status_occurrences contact_status_label contact_status_of v rows
               contact_status_key_injective). reflexivity. }
  split; [reflexivity|]. split; [reflexivity|].
  split; [apply sum_values_count_by|].
  split; [intros k; apply lookup_count_by|].
  split; [exact Hkeys|].
  split; [exact contact_status_key_injective|].
  split; [exact Hstatus|].
  intros k Hk. pose proof Hk as Hsome. apply Hkeys in Hk as (c & Hin & <-).
  exists c. split; [exact Hin|]. split; [reflexivity|].
  rewrite Hstatus.
  destruct (Nat.eqb_spec (rows_with_status contact_status_of (contact_status_of c) rows) 0)
    as [Hz|Hz]; [|reflexivity].
  exfalso. rewrite Hstatus, Hz in Hsome. destruct Hsome as [x Hx]. discriminate.
Qed.

(** The deal report: won and lost deals are counted apart and together
    never exceed [total]; without any deal carrying a value the revenue
    is 0; without rows everything is 0. *)
Theorem deal_report_counts (rows : list DealRow) :
  let report := summarizeDeals (Some rows) in
  d_total report = List.length rows
  /\ (d_won report + d_lost report <= d_total report)%nat
  /\ (forallb (fun d => negb (has_value d)) rows = true ->
      d_revenue report = JsNumber.of_Z 0)
  /\ d_details report = rows.
Proof.
  cbv zeta. unfold summarizeDeals. cbv zeta.
  change (default [] (Some rows)) with rows.
  cbn [d_total d_won d_lost d_revenue d_details].
  split; [reflexivity|]. split; [|split; [|reflexivity]].
  - apply count_where_disjoint. intros d Hw. unfold is_status in *.
    destruct (deal_stage_of (deal d)) as [s|]; [|reflexivity].
    destruct s; cbn in *; congruence.
  - intros Hnone.
    assert (Hsum : fold_left
                     (fun sum d => JsNumber.add sum
                        (or_zero (default (JsNumber.of_Z 0) (deal_value (deal d)))))
                     rows (JsNumber.of_Z 0) = JsNumber.of_Z 0).
    { induction rows as [|d rows IH]; [reflexivity|].
      cbn [forallb] in Hnone. apply andb_true_iff in Hnone as [Hd Hrest].
      cbn [fold_left].
      replace (JsNumber.add (JsNumber.of_Z 0)
                 (or_zero (default (JsNumber.of_Z 0) (deal_value (deal d)))))
        with (JsNumber.of_Z 0); [exact (IH Hrest)|].
      unfold has_value in Hd. unfold or_zero.
      destruct (deal_value (deal d)) as [v|].
      - apply negb_true_iff in Hd. change (default (JsNumber.of_Z 0) (Some v)) with v.
        rewrite Hd. reflexivity.
      - reflexivity. }
    rewrite Hsum. reflexivity.
Qed.

Lemma deal_report_counts_witness :
  forallb (fun d => negb (has_value d))
    [mkDealRow (mkDeal "d1" "renewal" None (Some StageClosedWon) "c1" "u1" None) None;
     mkDealRow (mkDeal "d2" "trial" (Some (JsNumber.of_Z 0)) (Some StageClosedLost) "c1" "u1" None)
       None] = true
  /\ d_revenue
       (summarizeDeals
          (Some [mkDealRow (mkDeal "d1" "renewal" None (Some StageClosedWon) "c1" "u1" None) None;
                 mkDealRow (mkDeal "d2" "trial" (Some (JsNumber.of_Z 0)) (Some StageClosedLost)
                              "c1" "u1" None) None]))
     = JsNumber.of_Z 0.
Proof.
  split; [reflexivity|].
  refine (proj1 (proj2 (proj2 (deal_report_counts _))) _). reflexivity.
Defined.

(** The appointment report: completed and cancelled appointments are
    counted apart and together never exceed [total]; for up to 100 rows
    the completion rate is a whole number between 0 and 100, 0 without
    rows, and at most one below the exactly rounded percentage. *)
Theorem appointment_report_counts (rows : list Appointment) :
  (List.length rows <= 100)%nat ->
  let report := summarizeAppointments (Some rows) in
  let completed := Z.of_nat (a_completed report) in
  let total := Z.of_nat (a_total report) in
  a_total report = List.length rows
  /\ (a_completed report + a_cancelled report <= a_total report)%nat
  /\ a_details report = rows
  /\ exists k,
       a_completionRate report = JsNumber.of_Z k
       /\ 0 <= k <= 100
       /\ (total = 0 -> k = 0)
       /\ (0 < total ->
           k = percent_rounded completed total
           \/ (percent_tie completed total = true
               /\ k = percent_rounded completed total - 1)).
Proof.
  intros Hlen. cbv zeta. unfold summarizeAppointments.
  cbn [default a_total a_completed a_cancelled a_completionRate a_details].
  unfold Datatypes.id.
  split; [reflexivity|]. split; [|split; [reflexivity|]].
  - apply count_where_disjoint. intros a Hc. unfold is_status in *.
    destruct (appointment_status_of a) as [s|]; [|reflexivity].
    destruct s; cbn in *; congruence.
  - set (done := count_where
                   (fun a => is_status appointment_status_label (appointment_status_of a)
                               "completed") rows).
    assert (Hdone : (done <= List.length rows)%nat) by apply count_where_le.
    destruct (List.length rows) as [|n] eqn:Hn.
    + exists 0. split; [reflexivity|]. split; [lia|]. split; [reflexivity | lia].
    + pose proof (rates_close_sound 100 done (S n) rates_close_100 ltac:(lia) Hdone) as Hclose.
      destruct (percent_rounded_bounds (Z.of_nat done) (Z.of_nat (S n)) ltac:(lia) ltac:(lia))
        as [Hb Htie].
      unfold rate_close in Hclose. cbv zeta in Hclose.
      apply orb_true_iff in Hclose as [Heq | Hnear].
      * exists (percent_rounded (Z.of_nat done) (Z.of_nat (S n))).
        split; [now apply same_number_eq|]. split; [exact Hb|]. split; [lia | tauto].
      * apply andb_true_iff in Hnear as [Ht Heq].
        exists (percent_rounded (Z.of_nat done) (Z.of_nat (S n)) - 1).
        split; [now apply same_number_eq|]. specialize (Htie Ht).
        split; [lia|]. split; [lia | tauto].
Qed.

End MoreSummaryFacts.

(** ** Filters, failures and responses (generate-report) *)

Section QueryFacts.
Import GenerateReport.
Variables (ts_geb ts_leb : string -> string -> bool).
Variable LocalTZA : Z.
Variable NumberToString : JsNumber.Number -> string.

Lemma select_rows_nil {Row} (column : Row -> string -> option string) rows :
  select_rows ts_geb ts_leb column [] rows = rows.
Proof.
  unfold select_rows. change (List.filter (fun _ : Row => true) rows = rows).
  induction rows as [|r rows IH]; [reflexivity|].
  cbn [List.filter]. now rewrite IH.
Qed.

Lemma select_rows_app {Row} (column : Row -> string -> option string) F G rows :
  select_rows ts_geb ts_leb column (F ++ G) rows
  = List.filter (fun r => forallb (holds ts_geb ts_leb (column r)) G)
      (select_rows ts_geb ts_leb column F rows).
Proof.
  unfold select_rows. induction rows as [|r rows IH]; [reflexivity|].
  cbn [List.filter]. rewrite forallb_app, IH.
  destruct (forallb (holds ts_geb ts_leb (column r)) F); cbn [andb List.filter]; [|reflexivity].
  destruct (forallb (holds ts_geb ts_leb (column r)) G); reflexivity.
Qed.

Lemma sublist_map_filter {A B} (f : A -> B) (p : A -> bool) (l : list A) :
  sublist (map f (List.filter p l)) (map f l).
Proof.
  induction l as [|x l IH]; cbn [List.filter map]; [constructor|].
  destruct (p x); cbn [map]; now constructor.
Qed.

Lemma sublist_count_where {A} (p : A -> bool) (l1 l2 : list A) :
  sublist l1 l2 -> (count_where p l1 <= count_where p l2)%nat.
Proof.
  unfold count_where. induction 1 as [|x l1 l2 _ IH|x l1 l2 _ IH]; cbn [List.filter].
  - lia.
  - destruct (p x); cbn [List.length]; lia.
  - destruct (p x); cbn [List.length]; lia.
Qed.

Lemma sublist_shorter {A} (l1 l2 : list A) :
  sublist l1 l2 -> (List.length l1 <= List.length l2)%nat.
Proof. induction 1; cbn [List.length]; lia. Qed.

(** The rows a query with a user filter selects are, in order, among the
    rows the same query without it selects. *)
Lemma user_rows_sublist {Row Out} (column : Row -> string -> option string)
    (project : Row -> Out) (dates user : list Filter) rows :
  sublist (map project (select_rows ts_geb ts_leb column (dates ++ user) rows))
    (map project (select_rows ts_geb ts_leb column (dates ++ []) rows)).
Proof. rewrite app_nil_r, select_rows_app. apply sublist_map_filter. Qed.

(** Naming a user only narrows a report: for the same window, the rows
    of each of the four reports with a user id are, in order, among the
    rows without one, and none of the counts grows. *)
Theorem user_filter_only_narrows db sd ed uid t t0 c c0 d d0 a a0 :
  generateTicketReport ts_geb ts_leb db sd ed uid = Normal t ->
  generateTicketReport ts_geb ts_leb db sd ed None = Normal t0 ->
  generateContactReport ts_geb ts_leb db sd ed uid = Normal c ->
  generateContactReport ts_geb ts_leb db sd ed None = Normal c0 ->
  generateDealReport ts_geb ts_leb db sd ed uid = Normal d ->
  generateDealReport ts_geb ts_leb db sd ed None = Normal d0 ->
  generateAppointmentReport ts_geb ts_leb db sd ed uid = Normal a ->
  generateAppointmentReport ts_geb ts_leb db sd ed None = Normal a0 ->
  (sublist (t_details t) (t_details t0)
   /\ (t_total t <= t_total t0)%nat /\ (t_resolved t <= t_resolved t0)%nat)
  /\ (sublist (c_details c) (c_details c0) /\ (c_new c <= c_new c0)%nat)
  /\ (sublist (d_details d) (d_details d0)
      /\ (d_total d <= d_total d0)%nat /\ (d_won d <= d_won d0)%nat
      /\ (d_lost d <= d_lost d0)%nat)
  /\ (sublist (a_details a) (a_details a0)
      /\ (a_total a <= a_total a0)%nat /\ (a_completed a <= a_completed a0)%nat
      /\ (a_cancelled a <= a_cancelled a0)%nat).
Proof.
  unfold generateTicketReport, generateContactReport, generateDealReport,
    generateAppointmentReport.
  intros Ht Ht0 Hc Hc0 Hd Hd0 Ha Ha0.
  apply (settle_normal ts_geb ts_leb) in Ht, Ht0, Hc, Hc0, Hd, Hd0, Ha, Ha0.
  subst. rewrite !map_id.
  unfold summarizeTickets, summarizeContacts, summarizeDeals, summarizeAppointments.
  cbv zeta.
  repeat match goal with
         | |- context [default [] (Some ?l)] => change (default [] (Some l)) with l
         end.
  cbn [t_details t_total t_resolved c_details c_new d_details d_total d_won d_lost
       a_details a_total a_completed a_cancelled].
  unfold ticket_filters, creator_filters. cbn [JsObject.string_truthy].
  pose proof (user_rows_sublist ticket_column (ticket_row db)
                (date_filters "created_at" sd ed)
                (if JsObject.string_truthy uid
                 then [FOr ("customer_id.eq." +:+ default ""%string uid
                            +:+ ",assigned_to.eq." +:+ default ""%string uid)]
                 else []) (table_tickets db)) as St.
  pose proof (user_rows_sublist contact_column (fun x => x)
                (date_filters "created_at" sd ed)
                (if JsObject.string_truthy uid
                 then [FEq "created_by" (default ""%string uid)] else [])
                (table_contacts db)) as Sc.
  pose proof (user_rows_sublist deal_column (deal_row db)
                (date_filters "created_at" sd ed)
                (if JsObject.string_truthy uid
                 then [FEq "created_by" (default ""%string uid)] else [])
                (table_deals db)) as Sd.
  pose proof (user_rows_sublist appointment_column (fun x => x)
                (date_filters "start_time" sd ed)
                (if JsObject.string_truthy uid
                 then [FEq "created_by" (default ""%string uid)] else [])
                (table_appointments db)) as Sa.
  rewrite !map_id in Sc, Sa.
  repeat split;
    first [ assumption
          | apply sublist_shorter; assumption
          | apply sublist_count_where; assumption ].
Qed.

Lemma no_filters_without_parameters sd ed uid :
  JsObject.string_truthy sd = false ->
  JsObject.string_truthy ed = false ->
  JsObject.string_truthy uid = false ->
  ticket_filters sd ed uid = [] /\ forall col, creator_filters col sd ed uid = [].
Proof.
  intros Hs He Hu. unfold ticket_filters, creator_filters, date_filters.
  rewrite Hs, He, Hu. split; reflexivity.
Qed.

(** A start date, end date or user id that is missing or the empty text
    adds no filter: the four reports then cover every row of their
    tables. *)
Theorem report_without_parameters_covers_every_row db sd ed uid :
  JsObject.string_truthy sd = false ->
  JsObject.string_truthy ed = false ->
  JsObject.string_truthy uid = false ->
  (forall g, fault db (table_of g) [] = None) ->
  generateTicketReport ts_geb ts_leb db sd ed uid
  = Normal (summarizeTickets (Some (map (ticket_row db) (table_tickets db))))
  /\ generateContactReport ts_geb ts_leb db sd ed uid
     = Normal (summarizeContacts (Some (table_contacts db)))
  /\ generateDealReport ts_geb ts_leb db sd ed uid
     = Normal (summarizeDeals (Some (map (deal_row db) (table_deals db))))
  /\ generateAppointmentReport ts_geb ts_leb db sd ed uid
     = Normal (summarizeAppointments (Some (table_appointments db))).
Proof.
  intros Hs He Hu Hok.
  destruct (no_filters_without_parameters sd ed uid Hs He Hu) as [Ht Hc].
  unfold generateTicketReport, generateContactReport, generateDealReport,
    generateAppointmentReport.
  rewrite Ht, !Hc.
  rewrite (settle_run_ok ts_geb ts_leb summarizeTickets) by exact (Hok Tickets).
  rewrite (settle_run_ok ts_geb ts_leb summarizeContacts) by exact (Hok Contacts).
  rewrite (settle_run_ok ts_geb ts_leb summarizeDeals) by exact (Hok Deals).
  rewrite (settle_run_ok ts_geb ts_leb summarizeAppointments) by exact (Hok Appointments).
  rewrite !select_rows_nil, !map_id. repeat split; reflexivity.
Qed.

(** [Promise.all] rejects with the reason of the promise that rejects
    first. *)
Lemma Promise_all_first {T C D A} rank
    (t : Completion T) (c : Completion C) (d : Completion D) (a : Completion A) err :
  Promise_all rank t c d a = Throw err ->
  exists g, rejection_of t c d a g = Some err
            /\ forall g', rejection_of t c d a g' <> None -> (rank g <= rank g')%nat.
Proof.
  unfold Promise_all, earliest.
  destruct t as [t|et], c as [c|ec], d as [d|ed], a as [a|ea];
    cbn [rejection fold_left fst snd mbind Completion_bind];
    repeat match goal with
           | |- context [(?x <? ?y)%nat] => destruct (Nat.ltb_spec x y); cbn [fst snd] in *
           end;
    intros Herr; try discriminate; injection Herr as <-;
    first [ exists Tickets; split; [reflexivity|];
            intros [] Hg; cbn [rejection_of rejection] in Hg; try congruence; lia
          | exists Contacts; split; [reflexivity|];
            intros [] Hg; cbn [rejection_of rejection] in Hg; try congruence; lia
          | exists Deals; split; [reflexivity|];
            intros [] Hg; cbn [rejection_of rejection] in Hg; try congruence; lia
          | exists Appointments; split; [reflexivity|];
            intros [] Hg; cbn [rejection_of rejection] in Hg; try congruence; lia ].
Qed.

(** When several queries fail, the response carries the message of the
    one that comes back first; the others' errors are dropped. *)
Theorem earliest_failure_is_reported db rank clock method req sd ed :
  method <> "OPTIONS"%string ->
  resolveDateRange LocalTZA (now clock) req = Normal (sd, ed) ->
  (exists g, query_error db sd ed (userId req) g <> None) ->
  exists g err,
    query_error db sd ed (userId req) g = Some err
    /\ (forall g', query_error db sd ed (userId req) g' <> None -> (rank g <= rank g')%nat)
    /\ handler ts_geb ts_leb LocalTZA NumberToString db rank clock method req
       = Http.mkResponse 500 Http.json_headers (ErrorJson (message err)).
Proof.
  intros Hmethod Hwindow [g0 Hg0].
  destruct (aggregator_rejections ts_geb ts_leb db sd ed (userId req)) as (Ht & Hc & Hd & Hap).
  assert (Hrej : forall g,
             rejection_of (generateTicketReport ts_geb ts_leb db sd ed (userId req))
               (generateContactReport ts_geb ts_leb db sd ed (userId req))
               (generateDealReport ts_geb ts_leb db sd ed (userId req))
               (generateAppointmentReport ts_geb ts_leb db sd ed (userId req)) g
             = query_error db sd ed (userId req) g).
  { intros []; cbn [rejection_of]; assumption. }
  destruct (Promise_all_rejects rank
              (generateTicketReport ts_geb ts_leb db sd ed (userId req))
              (generateContactReport ts_geb ts_leb db sd ed (userId req))
              (generateDealReport ts_geb ts_leb db sd ed (userId req))
              (generateAppointmentReport ts_geb ts_leb db sd ed (userId req)))
    as (err & Hall & _).
  { rewrite Ht, Hc, Hd, Hap. destruct g0; tauto. }
  destruct (Promise_all_first rank _ _ _ _ err Hall) as (g & Hg & Hmin).
  exists g, err. rewrite Hrej in Hg. split; [exact Hg|]. split.
  - intros g' Hg'. apply Hmin. now rewrite Hrej.
  - unfold handler. destruct (String.eqb_spec method "OPTIONS"); [contradiction|].
    unfold assemble. rewrite Hwindow. cbn [mbind Completion_bind].
    rewrite Hall. reflexivity.
Qed.

Lemma assemble_shape db rank clock req r :
  assemble ts_geb ts_leb LocalTZA NumberToString db rank clock req = Normal r ->
  Http.status r = 200%nat
  /\ ((format req = Some "csv"%string
       /\ Http.headers r = csv_headers (type req) (stamp clock)
       /\ exists report, Http.body r = TextBody (generateCsvReport NumberToString report))
      \/ (format req <> Some "csv"%string
          /\ Http.headers r = Http.json_headers
          /\ exists report,
               Http.body r
               = ReportJson report
                   (if String.eqb (default "json"%string (format req)) "pdf"
                    then Some pdf_note else None))).
Proof.
  unfold assemble.
  destruct (resolveDateRange LocalTZA (now clock) req) as [[sd ed]|e];
    cbn [mbind Completion_bind]; [|discriminate].
  destruct (Promise_all rank _ _ _ _) as [[[[t c] d] a]|e];
    cbn [mbind Completion_bind]; [|discriminate].
  destruct (toISOString _) as [g|e]; cbn [mbind Completion_bind]; [|discriminate].
  cbv zeta.
  destruct (String.eqb_spec (default "json"%string (format req)) "csv") as [Hcsv|Hcsv].
  - intros [= <-]. cbn [Http.status Http.headers Http.body]. split; [reflexivity|]. left.
    split; [|split; [reflexivity | eauto]].
    destruct (format req) as [f|]; [|discriminate]. cbn in Hcsv. now subst.
  - assert (Hfmt : format req <> Some "csv"%string).
    { intros Heq. apply Hcsv. rewrite Heq. reflexivity. }
    destruct (String.eqb (default "json"%string (format req)) "pdf");
      intros [= <-]; cbn [Http.status Http.headers Http.body];
      (split; [reflexivity|]); right; (split; [exact Hfmt|]); split; eauto.
Qed.

(** Every response: the status is 200 or 500 and the CORS headers come
    first; 500 goes with the error object and with nothing else; a text
    body is the pre-flight answer or the CSV of a request that asked for
    it; a report document carries the note exactly for the PDF format. *)
Theorem report_response_shape db rank clock method req :
  let r := handler ts_geb ts_leb LocalTZA NumberToString db rank clock method req in
  (Http.status r = 200%nat \/ Http.status r = 500%nat)
  /\ (exists rest, Http.headers r = Http.corsHeaders ++ rest)
  /\ (Http.status r = 500%nat <-> exists msg, Http.body r = ErrorJson msg)
  /\ (forall text, Http.body r = TextBody text ->
        (method = "OPTIONS"%string /\ text = "ok"%string)
        \/ (method <> "OPTIONS"%string /\ format req = Some "csv"%string))
  /\ (forall report note, Http.body r = ReportJson report note ->
        method <> "OPTIONS"%string
        /\ format req <> Some "csv"%string
        /\ note = if String.eqb (default "json"%string (format req)) "pdf"
                  then Some pdf_note else None).
Proof.
  cbv zeta. unfold handler.
  destruct (String.eqb_spec method "OPTIONS") as [Hm|Hm].
  - cbn [Http.status Http.headers Http.body].
    split; [now left|]. split; [exists []; now rewrite app_nil_r|].
    split; [split; [discriminate | intros [msg Hmsg]; discriminate]|].
    split; [intros text [= <-]; now left | intros report note Hb; discriminate].
  - destruct (assemble ts_geb ts_leb LocalTZA NumberToString db rank clock req) as [r|e] eqn:Ha.
    + destruct (assemble_shape db rank clock req r Ha)
        as [Hs [(Hf & Hh & rep & Hb) | (Hf & Hh & rep & Hb)]].
      * rewrite Hs, Hh, Hb.
        split; [now left|]. split; [unfold csv_headers; eauto|].
        split; [split; [discriminate | intros [msg Hmsg]; discriminate]|].
        split; [intros text _; now right | intros report note Hn; discriminate].
      * rewrite Hs, Hh, Hb.
        split; [now left|]. split; [unfold Http.json_headers; eauto|].
        split; [split; [discriminate | intros [msg Hmsg]; discriminate]|].
        split; [intros text Ht; discriminate |].
        intros report note [= _ <-]. repeat split; assumption.
    + cbn [Http.status Http.headers Http.body].
      split; [now right|]. split; [unfold Http.json_headers; eauto|].
      split; [split; eauto|].
      split; [intros text Ht; discriminate | intros report note Hn; discriminate].
Qed.

End QueryFacts.

(** ** Fields of a ticket's entry (generate-report, [generateCsvReport]) *)

Section CsvFields.
Import GenerateReport.

Lemma split_on_length c s : List.length (split_on c s) = S (count_char c s).
Proof.
  induction s as [|x r IH]; cbn [split_on count_char]; [reflexivity|].
  destruct (Ascii.eqb x c); cbn [List.length]; [now rewrite IH|].
  pose proof (split_on_nonempty c r) as Hne.
  destruct (split_on c r) as [|l ls]; [contradiction|]. cbn [List.length] in *. lia.
Qed.

Lemma free_of_count c s : free_of c s = true <-> count_char c s = 0%nat.
Proof.
  induction s as [|x r IH]; cbn [free_of count_char]; [tauto|].
  destruct (Ascii.eqb x c); cbn [negb andb]; [split; [discriminate | lia]|].
  rewrite IH. cbn [Nat.add]. tauto.
Qed.

(** An entry has seven fields separated by commas and nothing is quoted:
    cutting the entry at its commas gives back the seven fields exactly
    when no field holds a comma, and each comma inside a field adds a
    column. *)
Theorem csv_entry_fields (ticket : TicketRow) :
  (split_on comma (ticket_line ticket) = csv_fields ticket
   <-> forallb (free_of comma) (csv_fields ticket) = true)
  /\ List.length (split_on comma (ticket_line ticket))
     = (7 + list_sum (map (count_char comma) (csv_fields ticket)))%nat.
Proof.
  assert (Hsplit : split_on comma (ticket_line ticket)
                   = concat (map (split_on comma) (csv_fields ticket))).
  { unfold ticket_line, csv_fields, comma.
    change (ascii_of_nat 44) with ","%char.
    rewrite !split_on_app. cbn [map concat]. now rewrite app_nil_r. }
  assert (Hlen : List.length (split_on comma (ticket_line ticket))
                 = (7 + list_sum (map (count_char comma) (csv_fields ticket)))%nat).
  { rewrite Hsplit. unfold csv_fields, list_sum. cbn [map concat fold_right].
    rewrite !length_app, !split_on_length. cbn [List.length]. lia. }
  split; [|exact Hlen]. split.
  - intros Heq. rewrite Heq in Hlen. unfold csv_fields in *.
    unfold list_sum in Hlen. cbn [List.length map fold_right] in Hlen. cbn [forallb].
    repeat match goal with
           | |- context [free_of comma ?s] =>
               replace (free_of comma s) with true
                 by (symmetry; apply free_of_count; lia)
           end.
    reflexivity.
  - intros Hfree. rewrite Hsplit. unfold csv_fields in *.
    cbn [forallb map concat] in *.
    repeat (apply andb_true_iff in Hfree as [?Hf Hfree]).
    rewrite !split_on_free by assumption. reflexivity.
Qed.

End CsvFields.

(** ** The request handler (send-email) *)

Section EmailHandlerFacts.
Import JsObject SendEmail.
Variable NumberToString : JsNumber.Number -> string.

(** With a replacer that always answers, the scan always ends with a
    text. *)
Lemma replace_from_total fn :
  (forall m key, exists text, fn m key = Normal text) ->
  forall s n, exists out, replace_from fn n s = Normal out.
Proof.
  intros Hfn. induction s as [|c t IH]; intros n; [destruct n; cbn; eauto|].
  destruct n as [|k].
  - rewrite replace_from_0.
    destruct (match_placeholder (String c t)) as [[key rest]|].
    + destruct (Hfn ("{{" +:+ key +:+ "}}")%string key) as [text ->].
      destruct (IH (3 + String.length key)%nat) as [out ->]. cbn. eauto.
    + destruct (IH 0%nat) as [out ->]. cbn. eauto.
  - rewrite replace_from_S. apply IH.
Qed.

(** Over a mapping whose values are not objects (a flat mapping to
    strings, numbers, booleans or null) the replacer always answers. *)
Lemma replacer_flat (data : gmap string JsValue) :
  (forall key v, data !! key = Some v -> primitive v = true) ->
  forall m key, exists text, replacer NumberToString data m key = Normal text.
Proof.
  intros Hflat m key. unfold replacer, get.
  destruct (data !! key) as [v|] eqn:Hv.
  - destruct (truthy v); [|cbn; eauto].
    apply ToString_primitive. exact (Hflat key v Hv).
  - unfold inherited. destruct (bool_decide (key ∈ object_prototype_functions)); cbn; eauto.
Qed.

Lemma render_flat (data : gmap string JsValue) body :
  (forall key v, data !! key = Some v -> primitive v = true) ->
  exists out, renderTemplate NumberToString (JsStr body) data = Normal out.
Proof.
  intros Hflat. cbn [renderTemplate]. unfold replace_placeholders.
  apply replace_from_total. apply replacer_flat. exact Hflat.
Qed.

(** A template that is in the table replaces all three parts of the
    message: subject, html and text are rendered, in this order, from the
    template's parts with the request's [templateData] (the empty object
    when there is none), and the request's own [subject], [html] and
    [text] are not used.  When the three renderings give texts, the
    message goes out with them; when one throws (an object value with an
    own [toString] under a name the part mentions), nothing is sent and
    the answer is the 500 with the message of the first throw.  Over a
    flat mapping no rendering throws. *)
Theorem known_template_overrides_request (templates : gmap string EmailTemplate)
    method req name tmpl :
  method <> "OPTIONS"%string ->
  template req = Some name ->
  name <> ""%string ->
  templates !! name = Some tmpl ->
  let data := default ∅ (templateData req) in
  let parts :=
    s ← renderTemplate NumberToString (JsStr (tmpl_subject tmpl)) data;
    h ← renderTemplate NumberToString (JsStr (tmpl_html tmpl)) data;
    t ← renderTemplate NumberToString (JsStr (tmpl_text tmpl)) data;
    Normal (s, h, t) in
  handler NumberToString templates method req
  = match parts with
    | Normal (s, h, t) =>
        (Some (mkEmail (to req) (Some s) (Some h) (Some t)),
         Http.mkResponse 200 Http.json_headers (EmailSent (recipients_count (to req))))
    | Throw e => (None, Http.mkResponse 500 Http.json_headers (EmailFailed (message e)))
    end
  /\ ((forall key v, data !! key = Some v -> primitive v = true) ->
      exists s h t, parts = Normal (s, h, t)).
Proof.
  intros Hmethod Hname Hne Hin. cbv zeta. split.
  - unfold handler.
    destruct (String.eqb_spec method "OPTIONS") as [|_]; [contradiction|].
    unfold compose. rewrite Hname. cbn [default]. unfold Datatypes.id.
    unfold string_truthy. destruct (String.eqb_spec name "") as [|_]; [contradiction|].
    unfold templates_get. rewrite Hin. cbn [truthy andb negb].
    change (field (JsObj [("subject"%string, JsStr (tmpl_subject tmpl));
                          ("html"%string, JsStr (tmpl_html tmpl));
                          ("text"%string, JsStr (tmpl_text tmpl))]) "subject")
      with (JsStr (tmpl_subject tmpl)).
    change (field (JsObj [("subject"%string, JsStr (tmpl_subject tmpl));
                          ("html"%string, JsStr (tmpl_html tmpl));
                          ("text"%string, JsStr (tmpl_text tmpl))]) "html")
      with (JsStr (tmpl_html tmpl)).
    change (field (JsObj [("subject"%string, JsStr (tmpl_subject tmpl));
                          ("html"%string, JsStr (tmpl_html tmpl));
                          ("text"%string, JsStr (tmpl_text tmpl))]) "text")
      with (JsStr (tmpl_text tmpl)).
    destruct (renderTemplate NumberToString (JsStr (tmpl_subject tmpl)) _) as [s|e];
      [|reflexivity].
    destruct (renderTemplate NumberToString (JsStr (tmpl_html tmpl)) _) as [h|e];
      [|reflexivity].
    destruct (renderTemplate NumberToString (JsStr (tmpl_text tmpl)) _) as [t|e];
      reflexivity.
  - intros Hflat.
    destruct (render_flat (default ∅ (templateData req)) (tmpl_subject tmpl) Hflat) as [s ->].
    destruct (render_flat (default ∅ (templateData req)) (tmpl_html tmpl) Hflat) as [h ->].
    destruct (render_flat (default ∅ (templateData req)) (tmpl_text tmpl) Hflat) as [t ->].
    exists s, h, t. reflexivity.
Qed.

(** Every response: the status is 200 or 500 and the CORS headers come
    first; a message goes out exactly with the success object, addressed
    as the request says; 500 goes with the failure object, and then nothing is
    sent; the pre-flight answer sends nothing either. *)
Theorem email_response_shape (templates : gmap string EmailTemplate) method req :
  let sent := fst (handler NumberToString templates method req) in
  let r := snd (handler NumberToString templates method req) in
  (Http.status r = 200%nat \/ Http.status r = 500%nat)
  /\ (exists rest, Http.headers r = Http.corsHeaders ++ rest)
  /\ (is_Some sent <-> exists n, Http.body r = EmailSent n)
  /\ (Http.status r = 500%nat <-> exists msg, Http.body r = EmailFailed msg)
  /\ (forall e, sent = Some e ->
        email_to e = to req /\ Http.body r = EmailSent (recipients_count (to req)))
  /\ (Http.body r = EmailPreflight <-> method = "OPTIONS"%string).
Proof.
  cbv zeta. unfold handler.
  destruct (String.eqb_spec method "OPTIONS") as [Hm|Hm]; cbn [fst snd].
  - cbn [Http.status Http.headers Http.body].
    split; [now left|]. split; [exists []; now rewrite app_nil_r|].
    split; [split; [intros [x Hx]; discriminate | intros [n Hn]; discriminate]|].
    split; [split; [discriminate | intros [msg Hmsg]; discriminate]|].
    split; [intros e He; discriminate | tauto].
  - destruct (compose NumberToString templates req) as [[[s h] t]|e]; cbn [fst snd].
    + cbn [Http.status Http.headers Http.body].
      split; [now left|]. split; [unfold Http.json_headers; eauto|].
      split; [split; eauto|].
      split; [split; [discriminate | intros [msg Hmsg]; discriminate]|].
      split; [|split; [discriminate | contradiction]].
      intros e0 [= <-]. cbn [email_to]. split; reflexivity.
    + cbn [Http.status Http.headers Http.body].
      split; [now right|]. split; [unfold Http.json_headers; eauto|].
      split; [split; [intros [x Hx]; discriminate | intros [n Hn]; discriminate]|].
      split; [split; eauto|].
      split; [intros e0 He; discriminate | split; [discriminate | contradiction]].
Qed.

End EmailHandlerFacts.

(** ** Instances *)

Lemma render_reads_only_placeholders_witness :
  let body := "Hi {{name}}, see {{loginUrl}}"%string in
  let data : gmap string JsObject.JsValue :=
    <["name" := JsObject.JsStr "Ann"]> (<["plan" := JsObject.JsStr "pro"]> ∅) in
  let data' : gmap string JsObject.JsValue := <["name" := JsObject.JsStr "Ann"]> ∅ in
  (forall key, In key (SendEmail.placeholders body) ->
     JsObject.get data key = JsObject.get data' key)
  /\ SendEmail.renderTemplate (fun _ => "0"%string) (JsObject.JsStr body) data
     = SendEmail.renderTemplate (fun _ => "0"%string) (JsObject.JsStr body) data'.
Proof.
  cbv zeta.
  assert (H : forall key,
             In key (SendEmail.placeholders "Hi {{name}}, see {{loginUrl}}") ->
             JsObject.get (<["name" := JsObject.JsStr "Ann"]>
                             (<["plan" := JsObject.JsStr "pro"]> ∅)) key
             = JsObject.get (<["name" := JsObject.JsStr "Ann"]> ∅) key).
  { intros key Hin. vm_compute in Hin.
    destruct Hin as [<-|[<-|[]]]; vm_compute; reflexivity. }
  split; [exact H|].
  exact (render_reads_only_placeholders (fun _ => "0"%string) _ _ _ H).
Defined.

Lemma render_without_values_is_identity_witness :
  let body := "Join: {{#if meetingLink}}{{meetingLink}}{{/if}} at {{location}}"%string in
  let data : gmap string JsObject.JsValue := <["location" := JsObject.JsStr ""]> ∅ in
  (forall key, In key (SendEmail.placeholders body) ->
     JsObject.truthy (JsObject.get data key) = false)
  /\ SendEmail.renderTemplate (fun _ => "0"%string) (JsObject.JsStr body) data = Normal body.
Proof.
  cbv zeta.
  assert (H : forall key,
             In key (SendEmail.placeholders
                       "Join: {{#if meetingLink}}{{meetingLink}}{{/if}} at {{location}}") ->
             JsObject.truthy
               (JsObject.get (<["location" := JsObject.JsStr ""]> ∅) key) = false).
  { intros key Hin. vm_compute in Hin.
    destruct Hin as [<-|[<-|[]]]; vm_compute; reflexivity. }
  split; [exact H|].
  exact (render_without_values_is_identity (fun _ => "0"%string) _ _ H).
Defined.

Lemma conditional_markers_are_copied_witness :
  SendEmail.all_chars SendEmail.is_word_char "meetingLink" = true
  /\ SendEmail.replace_placeholders
       (SendEmail.replacer (fun _ => "0"%string)
          (<["meetingLink" := JsObject.JsStr "https://meet.example/1"]> ∅))
       "{{#if meetingLink}}Link: {{meetingLink}}"
     = Normal "{{#if meetingLink}}Link: https://meet.example/1"%string.
Proof.
  assert (H : SendEmail.all_chars SendEmail.is_word_char "meetingLink" = true) by reflexivity.
  split; [exact H|].
  change "{{#if meetingLink}}Link: {{meetingLink}}"%string
    with (SendEmail.if_marker "meetingLink" +:+ "Link: {{meetingLink}}")%string.
  rewrite (proj1 (conditional_markers_are_copied
                    (SendEmail.replacer (fun _ => "0"%string)
                       (<["meetingLink" := JsObject.JsStr "https://meet.example/1"]> ∅))
                    "meetingLink" "Link: {{meetingLink}}" H)).
  vm_compute. reflexivity.
Defined.

Lemma appointment_report_counts_witness :
  let rows :=
    [ GenerateReport.mkAppointment "a1" "demo" "2025-01-02" (Some GenerateReport.ApptCompleted) "u1";
      GenerateReport.mkAppointment "a2" "call" "2025-01-03" (Some GenerateReport.ApptCancelled) "u1";
      GenerateReport.mkAppointment "a3" "sync" "2025-01-04" None "u2" ] in
  let report := GenerateReport.summarizeAppointments (Some rows) in
  (List.length rows <= 100)%nat
  /\ (GenerateReport.a_completed report + GenerateReport.a_cancelled report
      <= GenerateReport.a_total report)%nat
  /\ GenerateReport.a_completionRate report = JsNumber.of_Z 33.
Proof.
  cbv zeta.
  assert (H : (List.length
                 [ GenerateReport.mkAppointment "a1" "demo" "2025-01-02"
                     (Some GenerateReport.ApptCompleted) "u1";
                   GenerateReport.mkAppointment "a2" "call" "2025-01-03"
                     (Some GenerateReport.ApptCancelled) "u1";
                   GenerateReport.mkAppointment "a3" "sync" "2025-01-04" None "u2" ]
               <= 100)%nat) by (vm_compute; lia).
  split; [exact H|].
  split; [exact (proj1 (proj2 (appointment_report_counts _ H))) | vm_compute; reflexivity].
Defined.

Lemma user_filter_only_narrows_witness :
  exists t t0,
    GenerateReport.generateTicketReport (fun _ _ => true) (fun _ _ => true)
      GenerateReport.sample_db None None (Some "u1"%string) = Normal t
    /\ GenerateReport.generateTicketReport (fun _ _ => true) (fun _ _ => true)
         GenerateReport.sample_db None None None = Normal t0
    /\ GenerateReport.t_total t = 2%nat
    /\ GenerateReport.t_total t0 = 3%nat
    /\ sublist (GenerateReport.t_details t) (GenerateReport.t_details t0).
Proof.
  eexists. eexists.
  split; [reflexivity|]. split; [reflexivity|].
  split; [reflexivity|]. split; [reflexivity|].
  refine (proj1 (proj1 (user_filter_only_narrows (fun _ _ => true) (fun _ _ => true)
                          GenerateReport.sample_db None None (Some "u1"%string)
                          _ _ _ _ _ _ _ _ _ _ _ _ _ _ _ _))); reflexivity.
Defined.

Lemma report_without_parameters_covers_every_row_witness :
  exists t,
    GenerateReport.generateTicketReport (fun _ _ => true) (fun _ _ => true)
      GenerateReport.sample_db (Some ""%string) None (Some ""%string) = Normal t
    /\ map GenerateReport.id (GenerateReport.t_details t)
       = ["t1"%string; "t2"%string; "t3"%string].
Proof.
  eexists. split.
  - refine (proj1 (report_without_parameters_covers_every_row (fun _ _ => true)
                     (fun _ _ => true) GenerateReport.sample_db (Some ""%string) None
                     (Some ""%string) _ _ _ _)).
    + reflexivity.
    + reflexivity.
    + reflexivity.
    + intros []; reflexivity.
  - reflexivity.
Defined.

Lemma earliest_failure_is_reported_witness :
  let db :=
    GenerateReport.mkDatabase [] [] [] [] []
      (fun table _ =>
         if String.eqb table "contacts" then Some (mkError "PostgrestError" "contacts down")
         else if String.eqb table "deals" then Some (mkError "PostgrestError" "deals down")
         else None) in
  let rank := fun g => match g with GenerateReport.Deals => 0%nat | _ => 1%nat end in
  GenerateReport.handler (fun _ _ => true) (fun _ _ => true) 0 (fun _ => "0"%string) db rank
    (GenerateReport.mkClock 0 0 0) "POST" (GenerateReport.mkRequest "custom" None None None None)
  = Http.mkResponse 500 Http.json_headers (GenerateReport.ErrorJson "deals down").
Proof.
  cbv zeta.
  destruct (earliest_failure_is_reported (fun _ _ => true) (fun _ _ => true) 0
              (fun _ => "0"%string)
              (GenerateReport.mkDatabase [] [] [] [] []
                 (fun table _ =>
                    if String.eqb table "contacts"
                    then Some (mkError "PostgrestError" "contacts down")
                    else if String.eqb table "deals"
                         then Some (mkError "PostgrestError" "deals down")
                         else None))
              (fun g => match g with GenerateReport.Deals => 0%nat | _ => 1%nat end)
              (GenerateReport.mkClock 0 0 0) "POST"
              (GenerateReport.mkRequest "custom" None None None None) None None)
    as (g & err & Hg & Hmin & Hresp).
  - discriminate.
  - reflexivity.
  - exists GenerateReport.Contacts. discriminate.
  - rewrite Hresp. destruct g; vm_compute in Hg.
    + discriminate.
    + exfalso. specialize (Hmin GenerateReport.Deals). cbn in Hmin.
      assert (Hle : (1 <= 0)%nat) by (apply Hmin; discriminate). lia.
    + injection Hg as <-. reflexivity.
    + discriminate.
Defined.

Lemma known_template_overrides_request_witness :
  let templates : gmap string SendEmail.EmailTemplate :=
    <["welcome" := SendEmail.mkTemplate "Welcome, {{name}}" "<p>{{name}}</p>" "Hi {{name}}"]> ∅ in
  SendEmail.handler (fun _ => "0"%string) templates "POST"
    (SendEmail.mkRequest (SendEmail.Addresses ["a@b.c"%string; "d@e.f"%string])
       (Some "own subject"%string) None None (Some "welcome"%string)
       (Some (<["name" := JsObject.JsStr "Ann"]> ∅)))
  = (Some (SendEmail.mkEmail (SendEmail.Addresses ["a@b.c"%string; "d@e.f"%string])
             (Some "Welcome, Ann"%string) (Some "<p>Ann</p>"%string) (Some "Hi Ann"%string)),
     Http.mkResponse 200 Http.json_headers (SendEmail.EmailSent 2))
  /\ SendEmail.handler (fun _ => "0"%string) templates "POST"
       (SendEmail.mkRequest (SendEmail.OneAddress "a@b.c") None None None
          (Some "welcome"%string)
          (Some (<["name" := JsObject.JsObj [("toString", JsObject.JsNum (JsNumber.of_Z 1))]]> ∅)))
     = (None,
        Http.mkResponse 500 Http.json_headers
          (SendEmail.EmailFailed "Cannot convert object to primitive value")).
Proof.
  cbv zeta. split.
  - destruct (known_template_overrides_request (fun _ => "0"%string)
                (<["welcome" := SendEmail.mkTemplate "Welcome, {{name}}" "<p>{{name}}</p>"
                                  "Hi {{name}}"]> ∅)
                "POST"
                (SendEmail.mkRequest (SendEmail.Addresses ["a@b.c"%string; "d@e.f"%string])
                   (Some "own subject"%string) None None (Some "welcome"%string)
                   (Some (<["name" := JsObject.JsStr "Ann"]> ∅)))
                "welcome"
                (SendEmail.mkTemplate "Welcome, {{name}}" "<p>{{name}}</p>" "Hi {{name}}"))
      as [H _]; [discriminate | reflexivity | discriminate | reflexivity |].
    rewrite H. vm_compute. reflexivity.
  - destruct (known_template_overrides_request (fun _ => "0"%string)
                (<["welcome" := SendEmail.mkTemplate "Welcome, {{name}}" "<p>{{name}}</p>"
                                  "Hi {{name}}"]> ∅)
                "POST"
                (SendEmail.mkRequest (SendEmail.OneAddress "a@b.c") None None None
                   (Some "welcome"%string)
                   (Some (<["name" := JsObject.JsObj
                                        [("toString", JsObject.JsNum (JsNumber.of_Z 1))]]> ∅)))
                "welcome"
                (SendEmail.mkTemplate "Welcome, {{name}}" "<p>{{name}}</p>" "Hi {{name}}"))
      as [H _]; [discriminate | reflexivity | discriminate | reflexivity |].
    rewrite H. vm_compute. reflexivity.
Defined.

(** ** The sign-up trigger (migrations) *)

Section TriggerFacts.
Import Schema.

Lemma existsb_none {A} (p : A -> bool) (l : list A) :
  existsb p l = false <-> forall x, In x l -> p x = false.
Proof.
  split.
  - intros H x Hx. destruct (p x) eqn:Hp; [|reflexivity].
    assert (existsb p l = true) by (apply existsb_exists; eauto). congruence.
  - intros H. destruct (existsb p l) eqn:He; [|reflexivity].
    apply existsb_exists in He as (x & Hx & Hp). rewrite (H x Hx) in Hp. discriminate.
Qed.

Lemma id_taken profiles i :
  existsb (fun p => String.eqb (p_id p) i) profiles = true
  <-> exists p, In p profiles /\ p_id p = i.
Proof.
  rewrite existsb_exists. split; intros (p & Hp & He); exists p; split; auto.
  - now apply String.eqb_eq.
  - now apply String.eqb_eq.
Qed.

Lemma email_taken profiles e :
  existsb (fun p => String.eqb (p_email p) e) profiles = true
  <-> exists p, In p profiles /\ p_email p = e.
Proof.
  rewrite existsb_exists. split; intros (p & Hp & He); exists p; split; auto.
  - now apply String.eqb_eq.
  - now apply String.eqb_eq.
Qed.

Lemma new_profile_name_some new e :
  u_email new = Some e -> new_profile_name new = Some (profile_name_for new e).
Proof.
  intros He. unfold new_profile_name, profile_name_for. rewrite He.
  destruct (u_meta new "name"); reflexivity.
Qed.

(** The first field of a text: it holds no delimiter, and the text is
    this field alone or this field, a delimiter and more. *)
Lemma split_part_first (s : string) (d : ascii) :
  GenerateReport.free_of d (split_part s d 1) = true
  /\ (s = split_part s d 1 \/ exists rest, s = split_part s d 1 +:+ String d rest).
Proof.
  unfold split_part. cbn [Nat.sub nth].
  induction s as [|c s IH]; cbn [GenerateReport.split_on].
  - split; [reflexivity | now left].
  - destruct (Ascii.eqb_spec c d) as [->|Hne].
    + cbn [nth]. split; [reflexivity|]. right. exists s. now rewrite string_app_nil_l.
    + pose proof (split_on_nonempty d s) as Hnil.
      destruct (GenerateReport.split_on d s) as [|f fs]; [contradiction|].
      cbn [nth] in *. destruct IH as [Hfree Hshape].
      split.
      * cbn [GenerateReport.free_of]. rewrite Hfree.
        destruct (Ascii.eqb_spec c d); [contradiction | reflexivity].
      * destruct Hshape as [-> | [rest ->]]; [now left|].
        right. exists rest. now rewrite string_app_cons.
Qed.

(** A first sign-up: when the new user has an email and no profile has
    the user's id or email, both versions of the trigger add exactly one
    profile behind the others, with role [user] and status [offline]; its
    name is the [name] of the metadata or, without one, the email up to
    its first [@]; only the later version copies the [avatar]. *)
Theorem sign_up_creates_profile now profiles new e :
  u_email new = Some e ->
  (forall p, In p profiles -> p_id p <> u_id new /\ p_email p <> e) ->
  let row := fun avatar =>
    mkProfileRow (u_id new) e (profile_name_for new e) avatar (Some RoleUser)
      (Some StatusOffline) (Some now) (Some now) in
  handle_new_user_initial now profiles new = Done (profiles ++ [row None])
  /\ handle_new_user now profiles new = Done (profiles ++ [row (u_meta new "avatar")], [])
  /\ (u_meta new "name" = None ->
      GenerateReport.free_of at_sign (profile_name_for new e) = true
      /\ (e = profile_name_for new e
          \/ exists rest, e = profile_name_for new e +:+ String at_sign rest)).
Proof.
  intros He Hfresh. cbv zeta.
  assert (Hid : existsb (fun p => String.eqb (p_id p) (u_id new)) profiles = false).
  { apply existsb_none. intros p Hp. apply String.eqb_neq. exact (proj1 (Hfresh p Hp)). }
  assert (Hem : existsb (fun p => String.eqb (p_email p) e) profiles = false).
  { apply existsb_none. intros p Hp. apply String.eqb_neq. exact (proj2 (Hfresh p Hp)). }
  unfold handle_new_user_initial, handle_new_user, insert_profile.
  cbn [v_id v_email v_name v_avatar v_role v_status v_created_at v_updated_at column_defaults].
  rewrite He, (new_profile_name_some new e He), Hid, Hem.
  split; [reflexivity|]. split; [reflexivity|].
  intros Hname. unfold profile_name_for. rewrite Hname. cbn [default].
  apply split_part_first.
Qed.

(** The trigger as first created lets the sign-up fail exactly when the
    new user has no email, or a profile already has the user's id or
    email; the profiles are then as they were. *)
Theorem initial_trigger_aborts_sign_up now profiles new :
  (exists err, handle_new_user_initial now profiles new = Raised err)
  <-> (u_email new = None
       \/ (exists p, In p profiles /\ p_id p = u_id new)
       \/ (exists p, In p profiles /\ Some (p_email p) = u_email new)).
Proof.
  unfold handle_new_user_initial, insert_profile.
  cbn [v_id v_email v_name v_avatar v_role v_status v_created_at v_updated_at column_defaults].
  destruct (u_email new) as [e|] eqn:He.
  - rewrite (new_profile_name_some new e He).
    destruct (existsb (fun p => String.eqb (p_id p) (u_id new)) profiles) eqn:Hid.
    + split; [|eauto]. intros _. right. left. now apply id_taken.
    + destruct (existsb (fun p => String.eqb (p_email p) e) profiles) eqn:Hem.
      * split; [|eauto]. intros _. right. right.
        apply email_taken in Hem as (p & Hp & Hpe). exists p. split; [exact Hp | now rewrite Hpe].
      * split; [intros [err Herr]; discriminate|].
        intros [Hnone | [Htaken | (p & Hp & Hpe)]].
        -- discriminate.
        -- apply id_taken in Htaken. congruence.
        -- assert (existsb (fun p => String.eqb (p_email p) e) profiles = true).
           { apply email_taken. exists p. split; [exact Hp | congruence]. }
           congruence.
  - split; [intros _; now left | intros _; eauto].
Qed.

(** The later trigger never lets the sign-up of a user without a profile
    fail.  When the email is missing the error is logged, and when the
    email belongs to another profile the update in the handler finds no
    row and nothing is logged: in both cases the user is created and the
    profiles stay as they were, so the user has none. *)
Theorem later_trigger_keeps_sign_up now profiles new :
  (forall p, In p profiles -> p_id p <> u_id new) ->
  exists profiles' log,
    handle_new_user now profiles new = Done (profiles', log)
    /\ (u_email new = None ->
        profiles' = profiles /\ log = [(u_id new, not_null_violation "email")])
    /\ ((exists p, In p profiles /\ Some (p_email p) = u_email new) ->
        profiles' = profiles /\ log = [])
    /\ (profiles' = profiles \/ exists row, profiles' = profiles ++ [row] /\ p_id row = u_id new).
Proof.
  intros Hfresh.
  assert (Hid : existsb (fun p => String.eqb (p_id p) (u_id new)) profiles = false).
  { apply existsb_none. intros p Hp. apply String.eqb_neq. exact (Hfresh p Hp). }
  assert (Hfind : List.find (fun p => String.eqb (p_id p) (u_id new)) profiles = None).
  { destruct (List.find _ profiles) as [p|] eqn:Hf; [|reflexivity].
    apply find_some in Hf as [Hp Heq]. apply String.eqb_eq in Heq.
    now destruct (Hfresh p Hp). }
  unfold handle_new_user, insert_profile.
  cbn [v_id v_email v_name v_avatar v_role v_status v_created_at v_updated_at column_defaults].
  destruct (u_email new) as [e|] eqn:He.
  - rewrite (new_profile_name_some new e He), Hid.
    destruct (existsb (fun p => String.eqb (p_email p) e) profiles) eqn:Hem.
    + unfold update_profile. rewrite Hfind.
      exists profiles, []. split; [reflexivity|].
      split; [discriminate|]. split; [auto | now left].
    + eexists. exists []. split; [reflexivity|].
      split; [discriminate|]. split.
      * intros (p & Hp & Hpe).
        assert (existsb (fun p => String.eqb (p_email p) e) profiles = true).
        { apply email_taken. exists p. split; [exact Hp | congruence]. }
        congruence.
      * right. eexists. split; reflexivity.
  - exists profiles, [(u_id new, not_null_violation "email")]. split; [reflexivity|].
    split; [auto|]. split; [|now left].
    intros (p & _ & Hpe). discriminate.
Qed.

End TriggerFacts.

(** ** Reports and read policies (generate-report, migrations) *)

Section PolicyFacts.
Import GenerateReport Schema.
Variables (ts_geb ts_leb : string -> string -> bool).


End PolicyFacts.

(** Outside the identifiers the report leaves the policy: with the id
    [u3,customer_id.eq.u2] the ticket report holds t2 and t3, and for a
    user of that id, who is neither admin nor agent, the read policy
    passes neither. *)
Lemma injected_id_leaves_read_policy :
  let uid := "u3,customer_id.eq.u2"%string in
  List.filter (Schema.tickets_select_policy [] uid)
    (GenerateReport.table_tickets GenerateReport.sample_db) = []
  /\ map GenerateReport.ticket_id
       (GenerateReport.select_rows (fun _ _ => true) (fun _ _ => true)
          GenerateReport.ticket_column (GenerateReport.ticket_filters None None (Some uid))
          (GenerateReport.table_tickets GenerateReport.sample_db))
     = ["t2"%string; "t3"%string].
Proof. vm_compute. split; reflexivity. Qed.

Lemma sign_up_creates_profile_witness :
  let profiles :=
    [ Schema.mkProfileRow "u1" "ann@example.com" "Ann" None (Some Schema.RoleAgent)
        (Some Schema.StatusOnline) (Some 1) (Some 2) ] in
  let new := Schema.mkAuthUser "u2" (Some "bob@example.com"%string) (fun _ => None) in
  Schema.handle_new_user 5 profiles new
  = Schema.Done
      (profiles
       ++ [ Schema.mkProfileRow "u2" "bob@example.com" "bob" None (Some Schema.RoleUser)
              (Some Schema.StatusOffline) (Some 5) (Some 5) ], []).
Proof.
  cbv zeta.
  refine (proj1 (proj2 (sign_up_creates_profile 5 _
                          (Schema.mkAuthUser "u2" (Some "bob@example.com"%string)
                             (fun _ => None))
                          "bob@example.com" _ _))).
  - reflexivity.
  - intros p [<-|[]]. split; discriminate.
Defined.

Lemma later_trigger_keeps_sign_up_witness :
  let profiles :=
    [ Schema.mkProfileRow "u1" "ann@example.com" "Ann" None (Some Schema.RoleAgent)
        (Some Schema.StatusOnline) (Some 1) (Some 2) ] in
  let new := Schema.mkAuthUser "u2" (Some "ann@example.com"%string) (fun _ => None) in
  Schema.handle_new_user 5 profiles new = Schema.Done (profiles, []).
Proof.
  cbv zeta.
  destruct (later_trigger_keeps_sign_up 5
              [ Schema.mkProfileRow "u1" "ann@example.com" "Ann" None (Some Schema.RoleAgent)
                  (Some Schema.StatusOnline) (Some 1) (Some 2) ]
              (Schema.mkAuthUser "u2" (Some "ann@example.com"%string) (fun _ => None)))
    as (profiles' & log & Heq & _ & Hdup & _).
  - intros p [<-|[]]. discriminate.
  - destruct Hdup as [-> ->]; [|exact Heq].
    eexists. split; [left; reflexivity | reflexivity].
Defined.


(** ** The handler of the later trigger (migrations) *)

Section TriggerHandlerFacts.
Import Schema.

Lemma same_key_same_row (profiles : list ProfileRow) (a b : ProfileRow) :
  List.NoDup (map p_id profiles) -> In a profiles -> In b profiles -> p_id a = p_id b -> a = b.
Proof.
  induction profiles as [|p rest IH]; cbn [map]; intros Hnd Ha Hb Hkey; [contradiction|].
  inversion Hnd as [|? ? Hnotin Hrest]; subst.
  destruct Ha as [<-|Ha], Hb as [<-|Hb].
  - reflexivity.
  - exfalso. apply Hnotin. rewrite Hkey. now apply in_map.
  - exfalso. apply Hnotin. rewrite <- Hkey. now apply in_map.
  - now apply IH.
Qed.

Lemma coalesce_some {A} (x : option A) (y : A) : coalesce x (Some y) = Some (default y x).
Proof. destruct x; reflexivity. Qed.

(** When a profile with the user's id is already there, the later
    trigger rewrites it instead of adding one: the email is the user's,
    name and avatar are taken from the metadata where it has them, and
    [updated_at] is the current time; role, status and [created_at] stay,
    as do all other profiles.  Only if the email belongs to a different
    profile does the update fail, and the sign-up with it. *)
Theorem existing_profile_is_refreshed now profiles new e old :
  List.NoDup (map p_id profiles) ->
  In old profiles ->
  p_id old = u_id new ->
  u_email new = Some e ->
  let refreshed :=
    mkProfileRow (u_id new) e (default (p_name old) (u_meta new "name"))
      (coalesce (u_meta new "avatar") (p_avatar old)) (p_role old) (p_status old)
      (p_created_at old) (Some now) in
  ((exists p, In p profiles /\ p_id p <> u_id new /\ p_email p = e) ->
   handle_new_user now profiles new = Raised (unique_violation "email"))
  /\ ((forall p, In p profiles -> p_id p <> u_id new -> p_email p <> e) ->
      exists profiles',
        handle_new_user now profiles new = Done (profiles', [])
        /\ List.length profiles' = List.length profiles
        /\ In refreshed profiles'
        /\ (forall p, In p profiles -> p_id p <> u_id new -> In p profiles')
        /\ (forall p, In p profiles' -> p = refreshed \/ In p profiles)).
Proof.
  intros Hnd Hold Hkey He. cbv zeta.
  assert (Hid : existsb (fun p => String.eqb (p_id p) (u_id new)) profiles = true).
  { apply id_taken. eauto. }
  assert (Hfind : List.find (fun p => String.eqb (p_id p) (u_id new)) profiles = Some old).
  { destruct (List.find (fun p => String.eqb (p_id p) (u_id new)) profiles) as [q|] eqn:Hf.
    - apply find_some in Hf as [Hq Hqk]. apply String.eqb_eq in Hqk.
      f_equal. apply (same_key_same_row profiles); auto. congruence.
    - exfalso. apply (find_none _ _ Hf) in Hold. apply String.eqb_neq in Hold. contradiction. }
  assert (Hhead : handle_new_user now profiles new
                  = match update_profile now profiles (u_id new)
                            (fun old =>
                               mkProfileValues (Some (p_id old)) (u_email new)
                                 (coalesce (u_meta new "name") (Some (p_name old)))
                                 (coalesce (u_meta new "avatar") (p_avatar old))
                                 (p_role old) (p_status old) (p_created_at old) (Some now)) with
                    | Done profiles' => Done (profiles', [])
                    | Raised err => Raised err
                    end).
  { unfold handle_new_user, insert_profile.
    cbn [v_id v_email v_name v_avatar v_role v_status v_created_at v_updated_at
         column_defaults].
    rewrite He, (new_profile_name_some new e He), Hid. reflexivity. }
  rewrite Hhead. unfold update_profile. rewrite Hfind.
  cbn [update_updated_at_column v_id v_email v_name v_avatar v_role v_status v_created_at
       v_updated_at].
  rewrite He, coalesce_some.
  split.
  - intros (p & Hp & Hpk & Hpe).
    assert (Hother : existsb (fun q => negb (String.eqb (p_id q) (u_id new))
                                       && String.eqb (p_email q) e) profiles = true).
    { apply existsb_exists. exists p. split; [exact Hp|].
      apply andb_true_iff. split.
      - apply negb_true_iff. now apply String.eqb_neq.
      - now apply String.eqb_eq. }
    rewrite Hother. reflexivity.
  - intros Hfree.
    assert (Hother : existsb (fun q => negb (String.eqb (p_id q) (u_id new))
                                       && String.eqb (p_email q) e) profiles = false).
    { apply existsb_none. intros q Hq.
      destruct (String.eqb_spec (p_id q) (u_id new)) as [|Hne]; [reflexivity|].
      cbn [negb andb]. apply String.eqb_neq. now apply Hfree. }
    rewrite Hother. eexists. split; [reflexivity|].
    split; [apply length_map|]. split; [|split].
    + apply in_map_iff. exists old. split; [|exact Hold].
      rewrite Hkey, String.eqb_refl. reflexivity.
    + intros p Hp Hpk. apply in_map_iff. exists p. split; [|exact Hp].
      destruct (String.eqb_spec (p_id p) (u_id new)); [contradiction | reflexivity].
    + intros p Hp. apply in_map_iff in Hp as (q & Hq & Hin).
      destruct (String.eqb_spec (p_id q) (u_id new)) as [Hqk|Hqk].
      * left. subst p.
        assert (q = old) by (apply (same_key_same_row profiles); auto; congruence).
        subst q. rewrite Hkey. reflexivity.
      * right. now subst p.
Qed.

End TriggerHandlerFacts.

Lemma existing_profile_is_refreshed_witness :
  let profiles :=
    [ Schema.mkProfileRow "u1" "ann@example.com" "Ann" None (Some Schema.RoleAgent)
        (Some Schema.StatusOnline) (Some 1) (Some 2);
      Schema.mkProfileRow "u2" "bob@example.com" "Bob" None (Some Schema.RoleUser)
        (Some Schema.StatusOffline) (Some 3) (Some 4) ] in
  let new := Schema.mkAuthUser "u2" (Some "ann@example.com"%string) (fun _ => None) in
  Schema.handle_new_user 5 profiles new = Schema.Raised (Schema.unique_violation "email").
Proof.
  cbv zeta.
  refine (proj1 (existing_profile_is_refreshed 5 _
                   (Schema.mkAuthUser "u2" (Some "ann@example.com"%string) (fun _ => None))
                   "ann@example.com"
                   (Schema.mkProfileRow "u2" "bob@example.com" "Bob" None
                      (Some Schema.RoleUser) (Some Schema.StatusOffline) (Some 3) (Some 4))
                   _ _ _ _) _).
  - cbn [map Schema.p_id]. repeat constructor; cbn [In]; intros H; decompose [or] H;
      try discriminate; try contradiction.
  - right. left. reflexivity.
  - reflexivity.
  - reflexivity.
  - eexists. split; [left; reflexivity|]. split; [discriminate | reflexivity].
Defined.

(** ** The window and its use (generate-report, lines 31 to 52) *)

Section WindowUse.
Import JsDate GenerateReport.
Variables (ts_geb ts_leb : string -> string -> bool).

(** The rows a query selects: those inside the window that also pass
    the filters that follow the date filters. *)
Lemma window_rows {Row} (column : Row -> string -> option string) col sd ed
    (others : list Filter) (rows : list Row) :
  select_rows ts_geb ts_leb column (date_filters col sd ed ++ others) rows
  = List.filter
      (fun r => row_in_window ts_geb ts_leb (column r col) sd ed
                && forallb (holds ts_geb ts_leb (column r)) others)
      rows.
Proof.
  unfold select_rows. apply filter_ext. intros r. rewrite forallb_app.
  change (forallb (holds ts_geb ts_leb (column r)) (date_filters col sd ed))
    with (in_window ts_geb ts_leb (column r) col sd ed).
  now rewrite in_window_meets.
Qed.

Lemma resolve_other tza now req :
  type req <> "weekly"%string -> type req <> "monthly"%string ->
  resolveDateRange tza now req = Normal (startDate req, endDate req).
Proof.
  intros Hw Hm. unfold resolveDateRange.
  destruct (String.eqb_spec (type req) "weekly"); [contradiction|].
  destruct (String.eqb_spec (type req) "monthly"); [contradiction|]. reflexivity.
Qed.

Lemma resolve_monthly_value tza now sd ed uid fmt :
  0 <= now <= maxTime -> - msPerDay <= tza <= msPerDay ->
  resolveDateRange tza now (GenerateReport.mkRequest "monthly" sd ed uid fmt)
  = Normal (Some (isoString (month_ago tza now)), Some (isoString now)).
Proof.
  intros Hnow Htza. pose proof (resolve_monthly tza now sd ed uid fmt Hnow Htza) as H.
  cbv zeta in H. unfold month_ago.
  destruct (previous_month (YearFromTime (LocalTime tza now))
              (MonthFromTime (LocalTime tza now))) as [py pm].
  exact H.
Qed.

(** C7.  A weekly request gets the window from seven days before the
    clock reading to the clock reading, a monthly request the window from
    the month-ago date to the clock reading, both as ISO texts and
    whatever bounds the caller sent; any other request keeps the caller's
    bounds as they are.  The four queries then select the rows inside that
    window: a bound that is present has to be met by the row's timestamp,
    and a missing bound leaves its side open. *)
Theorem window_resolution tza now db req :
  0 <= now <= maxTime -> - msPerDay <= tza <= msPerDay ->
  (forall table filters, fault db table filters = None) ->
  exists sd ed,
    resolveDateRange tza now req = Normal (sd, ed)
    /\ (type req = "weekly"%string ->
        sd = Some (isoString (now - 7 * msPerDay)) /\ ed = Some (isoString now))
    /\ (type req = "monthly"%string ->
        sd = Some (isoString (month_ago tza now)) /\ ed = Some (isoString now))
    /\ (type req <> "weekly"%string -> type req <> "monthly"%string ->
        sd = startDate req /\ ed = endDate req)
    /\ (type req = "weekly"%string \/ type req = "monthly"%string ->
        forall sd' ed',
          resolveDateRange tza now
            (GenerateReport.mkRequest (type req) sd' ed' (userId req) (format req))
          = Normal (sd, ed))
    /\ generateTicketReport ts_geb ts_leb db sd ed (userId req)
       = Normal
           (summarizeTickets
              (Some (map (ticket_row db)
                       (List.filter
                          (fun t => row_in_window ts_geb ts_leb (ticket_created_at t) sd ed
                                    && forallb (holds ts_geb ts_leb (ticket_column t))
                                         (ticket_filters None None (userId req)))
                          (table_tickets db)))))
    /\ generateContactReport ts_geb ts_leb db sd ed (userId req)
       = Normal
           (summarizeContacts
              (Some (List.filter
                       (fun c => row_in_window ts_geb ts_leb (contact_created_at c) sd ed
                                 && forallb (holds ts_geb ts_leb (contact_column c))
                                      (creator_filters "created_at" None None (userId req)))
                       (table_contacts db))))
    /\ generateDealReport ts_geb ts_leb db sd ed (userId req)
       = Normal
           (summarizeDeals
              (Some (map (deal_row db)
                       (List.filter
                          (fun d => row_in_window ts_geb ts_leb (deal_created_at d) sd ed
                                    && forallb (holds ts_geb ts_leb (deal_column d))
                                         (creator_filters "created_at" None None (userId req)))
                          (table_deals db)))))
    /\ generateAppointmentReport ts_geb ts_leb db sd ed (userId req)
       = Normal
           (summarizeAppointments
              (Some (List.filter
                       (fun a => row_in_window ts_geb ts_leb (Some (appointment_start_time a))
                                   sd ed
                                 && forallb (holds ts_geb ts_leb (appointment_column a))
                                      (creator_filters "start_time" None None (userId req)))
                       (table_appointments db)))).
Proof.
  intros Hnow Htza Hok.
  assert (Huse : forall sd ed,
    generateTicketReport ts_geb ts_leb db sd ed (userId req)
    = Normal
        (summarizeTickets
           (Some (map (ticket_row db)
                    (List.filter
                       (fun t => row_in_window ts_geb ts_leb (ticket_created_at t) sd ed
                                 && forallb (holds ts_geb ts_leb (ticket_column t))
                                      (ticket_filters None None (userId req)))
                       (table_tickets db)))))
    /\ generateContactReport ts_geb ts_leb db sd ed (userId req)
       = Normal
           (summarizeContacts
              (Some (List.filter
                       (fun c => row_in_window ts_geb ts_leb (contact_created_at c) sd ed
                                 && forallb (holds ts_geb ts_leb (contact_column c))
                                      (creator_filters "created_at" None None (userId req)))
                       (table_contacts db))))
    /\ generateDealReport ts_geb ts_leb db sd ed (userId req)
       = Normal
           (summarizeDeals
              (Some (map (deal_row db)
                       (List.filter
                          (fun d => row_in_window ts_geb ts_leb (deal_created_at d) sd ed
                                    && forallb (holds ts_geb ts_leb (deal_column d))
                                         (creator_filters "created_at" None None (userId req)))
                          (table_deals db)))))
    /\ generateAppointmentReport ts_geb ts_leb db sd ed (userId req)
       = Normal
           (summarizeAppointments
              (Some (List.filter
                       (fun a => row_in_window ts_geb ts_leb (Some (appointment_start_time a))
                                   sd ed
                                 && forallb (holds ts_geb ts_leb (appointment_column a))
                                      (creator_filters "start_time" None None (userId req)))
                       (table_appointments db))))).
  { intros sd ed.
    unfold generateTicketReport, generateContactReport, generateDealReport,
      generateAppointmentReport.
    rewrite !(settle_run_fine ts_geb ts_leb) by apply Hok.
    rewrite !map_id.
    change (ticket_filters sd ed (userId req))
      with (date_filters "created_at" sd ed ++ ticket_filters None None (userId req)).
    change (creator_filters "created_at" sd ed (userId req))
      with (date_filters "created_at" sd ed
            ++ creator_filters "created_at" None None (userId req)).
    change (creator_filters "start_time" sd ed (userId req))
      with (date_filters "start_time" sd ed
            ++ creator_filters "start_time" None None (userId req)).
    rewrite !window_rows. repeat split; reflexivity. }
  destruct req as [ty sd0 ed0 uid fmt]. cbn [type startDate endDate userId format] in *.
  destruct (String.eqb_spec ty "weekly") as [->|Hw].
  - exists (Some (isoString (now - 7 * msPerDay))), (Some (isoString now)).
    assert (Hres : forall sd' ed',
               resolveDateRange tza now (GenerateReport.mkRequest "weekly" sd' ed' uid fmt)
               = Normal (Some (isoString (now - 7 * msPerDay)), Some (isoString now))).
    { intros sd' ed'. apply resolve_weekly. unfold maxTime, msPerDay in *. lia. }
    split; [apply Hres|]. split; [auto|]. split; [discriminate|].
    split; [intros Hno; contradiction|]. split; [intros _; exact Hres|]. apply Huse.
  - destruct (String.eqb_spec ty "monthly") as [->|Hm].
    + exists (Some (isoString (month_ago tza now))), (Some (isoString now)).
      assert (Hres : forall sd' ed',
                 resolveDateRange tza now (GenerateReport.mkRequest "monthly" sd' ed' uid fmt)
                 = Normal (Some (isoString (month_ago tza now)), Some (isoString now))).
      { intros sd' ed'. now apply resolve_monthly_value. }
      split; [apply Hres|]. split; [discriminate|]. split; [auto|].
      split; [intros _ Hno; contradiction|]. split; [intros _; exact Hres|]. apply Huse.
    + exists sd0, ed0.
      split; [now apply resolve_other|]. split; [intros; contradiction|].
      split; [intros; contradiction|]. split; [auto|].
      split; [intros [|]; contradiction|]. apply Huse.
Qed.

End WindowUse.

Lemma window_resolution_witness :
  let geb := fun x b => String.leb b x in
  let leb := fun x b => String.leb x b in
  GenerateReport.resolveDateRange 0 1743422400000
    (GenerateReport.mkRequest "weekly" (Some "2020-01-01"%string) (Some "2020-12-31"%string)
       None None)
  = Normal (Some "2025-03-24T12:00:00.000Z"%string, Some "2025-03-31T12:00:00.000Z"%string)
  /\ (exists report,
        GenerateReport.generateTicketReport geb leb GenerateReport.sample_db
          (Some "2025-03-24T12:00:00.000Z"%string) (Some "2025-03-31T12:00:00.000Z"%string) None
        = Normal report
        /\ GenerateReport.t_details report = [])
  /\ GenerateReport.resolveDateRange 0 1742040000000
       (GenerateReport.mkRequest "monthly" (Some "2020-01-01"%string) None None None)
     = Normal (Some "2025-02-15T00:00:00.000Z"%string, Some "2025-03-15T12:00:00.000Z"%string)
  /\ GenerateReport.resolveDateRange 0 1743422400000
       (GenerateReport.mkRequest "custom" (Some "2025-01-03"%string) None None None)
     = Normal (Some "2025-01-03"%string, None)
  /\ (exists report,
        GenerateReport.generateTicketReport geb leb GenerateReport.sample_db
          (Some "2025-01-03"%string) None None
        = Normal report
        /\ map GenerateReport.id (GenerateReport.t_details report)
           = ["t2"%string; "t3"%string]).
Proof.
  cbv zeta.
  assert (H1 : 0 <= 1743422400000 <= JsDate.maxTime) by (unfold JsDate.maxTime; lia).
  assert (H2 : - JsDate.msPerDay <= 0 <= JsDate.msPerDay) by (unfold JsDate.msPerDay; lia).
  destruct (window_resolution (fun x b => String.leb b x) (fun x b => String.leb x b)
              0 1743422400000 GenerateReport.sample_db
              (GenerateReport.mkRequest "weekly" (Some "2020-01-01"%string)
                 (Some "2020-12-31"%string) None None) H1 H2 (fun _ _ => eq_refl))
    as (sd & ed & Hres & Hweek & _ & _ & _ & Htickets & _).
  destruct (Hweek eq_refl) as [-> ->].
  assert (H3 : 0 <= 1742040000000 <= JsDate.maxTime) by (unfold JsDate.maxTime; lia).
  destruct (window_resolution (fun x b => String.leb b x) (fun x b => String.leb x b)
              0 1742040000000 GenerateReport.sample_db
              (GenerateReport.mkRequest "monthly" (Some "2020-01-01"%string) None None None)
              H3 H2 (fun _ _ => eq_refl))
    as (sd & ed & Hmres & _ & Hmonth & _).
  destruct (Hmonth eq_refl) as [-> ->].
  destruct (window_resolution (fun x b => String.leb b x) (fun x b => String.leb x b)
              0 1743422400000 GenerateReport.sample_db
              (GenerateReport.mkRequest "custom" (Some "2025-01-03"%string) None None None)
              H1 H2 (fun _ _ => eq_refl))
    as (sd & ed & Hres' & _ & _ & Hcustom & _ & Htickets' & _).
  destruct (Hcustom ltac:(discriminate) ltac:(discriminate)) as [-> ->].
  cbn [GenerateReport.startDate GenerateReport.endDate GenerateReport.userId] in *.
  split; [exact Hres|].
  split; [eexists; split; [exact Htickets | vm_compute; reflexivity]|].
  split; [exact Hmres|].
  split; [exact Hres'|].
  eexists. split; [exact Htickets' | vm_compute; reflexivity].
Defined.
